(** * The integrity scorer of the exam-proctoring application

    A shallow embedding of the scoring logic of [App.tsx] (the [logEvent],
    [captureScreenshot] and [processFrame] callbacks), of
    [services/geometryUtils.ts] and of [services/handMeshUtils.ts], followed
    by the properties of the written specification that are stated about
    them.  The rule-based analysis service, the focus indicator of the study
    mode, the control panel (what it derives from the score, and its
    controls) and the way React keeps the [processFrame] callback between
    renders are embedded as well; the last part of the file proves further
    properties of all of these.

    Conventions of the embedding.
    - A JavaScript [number] that the program computes with is a real number:
      arithmetic is exact (the rounding of IEEE doubles is abstracted), so
      the value of a quotient, a square root or a sum in this file is the
      one the program's value is the rounding of, and equations and bounds
      on computed values are to be read accordingly.  No statement rests on
      an identity that only exact arithmetic has, such as the invariance of
      a ratio when its terms are scaled.  The only operation of the program
      that leaves the finite numbers is the division by a zero width or
      height; its results are of type [number], which adds the two
      infinities and NaN.
    - [Date.now()] returns integers (milliseconds), kept in [Z].  Every call
      reads the next value of a clock the host provides; nothing is assumed
      about the clock unless a statement says so.
    - A landmark array is a list whose entries may be holes ([undefined]);
      reading a property of [undefined] throws.
    - Mutable refs and React state are fields of one [World]; a callback is
      a function from worlds to a completion and a world.
    - Drawing on the canvas and console output leave the [World] unchanged
      and are not represented. *)

From Stdlib Require Import Reals Lra ZArith Lia List String Bool Arith.
Import ListNotations.

Set Implicit Arguments.

(** ** Numbers *)

Inductive number : Type :=
| Num (r : R)
| PosInfinity
| NegInfinity
| NaN.

Definition Rltb (a b : R) : bool := if Rlt_dec a b then true else false.
Definition Rgtb (a b : R) : bool := Rltb b a.

(** [a / b] for finite [a] and [b].  Every divisor of the program is the
    result of [Math.abs] or [Math.hypot], so a zero divisor is [+0].  For a
    divisor other than zero the result is the exact quotient, which the
    program rounds to the nearest double. *)
Definition jsdiv (a b : R) : number :=
  if Req_dec_T b 0 then
    if Rlt_dec 0 a then PosInfinity
    else if Rlt_dec a 0 then NegInfinity
    else NaN
  else Num (a / b).

Definition Math_abs (n : number) : number :=
  match n with
  | Num r => Num (Rabs r)
  | PosInfinity | NegInfinity => PosInfinity
  | NaN => NaN
  end.

(** [n > b] and [n < b] for a finite right-hand side. *)
Definition greater (n : number) (b : R) : bool :=
  match n with
  | Num r => Rgtb r b
  | PosInfinity => true
  | NegInfinity | NaN => false
  end.

Definition less (n : number) (b : R) : bool :=
  match n with
  | Num r => Rltb r b
  | NegInfinity => true
  | PosInfinity | NaN => false
  end.

Definition Math_hypot (a b : R) : R := sqrt (a * a + b * b).
Definition Math_sqrt (a : R) : R := sqrt a.
Definition Math_max (a b : R) : R := Rmax a b.
Definition Math_min (a b : R) : R := Rmin a b.

(** ** Completions: a value, or a thrown TypeError *)

Inductive Completion (A : Type) : Type :=
| Normal (a : A)
| Throw.
Arguments Throw {A}.

Definition cbind {A B} (c : Completion A) (k : A -> Completion B) : Completion B :=
  match c with
  | Normal a => k a
  | Throw => Throw
  end.

Notation "'let?' x ':=' c 'in' k" := (cbind c (fun x => k))
  (at level 10, x name, c at level 200, k at level 200).

(** ** Landmarks *)

Record Landmark : Type := mkLandmark { lm_x : R; lm_y : R }.

Definition Landmarks : Type := list (option Landmark).

(** [landmarks[i]]: [None] is [undefined] (a hole, or an index out of range). *)
Definition at_ (landmarks : Landmarks) (i : nat) : option Landmark :=
  match nth_error landmarks i with
  | Some (Some p) => Some p
  | _ => None
  end.

(** [landmarks[i]] in a position where a property of it is read next. *)
Definition deref (landmarks : Landmarks) (i : nat) : Completion Landmark :=
  match at_ landmarks i with
  | Some p => Normal p
  | None => Throw
  end.

(** ** services/geometryUtils.ts *)

Module geometryUtils.

Record HeadPose : Type := mkHeadPose { yaw : number; pitch : number }.

Definition calculateHeadPose (landmarks : Landmarks) : HeadPose :=
  match at_ landmarks 1, at_ landmarks 234, at_ landmarks 454,
        at_ landmarks 152, at_ landmarks 10 with
  | Some noseTip, Some leftCheek, Some rightCheek, Some chin, Some forehead =>
      let midPointX := ((lm_x leftCheek + lm_x rightCheek) / 2)%R in
      let width := Rabs (lm_x rightCheek - lm_x leftCheek) in
      let yaw := jsdiv (lm_x noseTip - midPointX) width in
      let midPointY := ((lm_y forehead + lm_y chin) / 2)%R in
      let height := Rabs (lm_y chin - lm_y forehead) in
      let pitch := jsdiv (lm_y noseTip - midPointY) height in
      mkHeadPose yaw pitch
  | _, _, _, _, _ => mkHeadPose (Num 0) (Num 0)
  end.

Definition calculateMouthOpenness (landmarks : Landmarks) : number :=
  match at_ landmarks 13, at_ landmarks 14, at_ landmarks 10, at_ landmarks 152 with
  | Some upperLip, Some lowerLip, Some forehead, Some chin =>
      let mouthDistance :=
        Math_hypot (lm_x upperLip - lm_x lowerLip) (lm_y upperLip - lm_y lowerLip) in
      let faceHeight :=
        Math_hypot (lm_x forehead - lm_x chin) (lm_y forehead - lm_y chin) in
      jsdiv mouthDistance faceHeight
  | _, _, _, _ => Num 0
  end.

(** Both arguments may be [null]/[undefined] at the call site. *)
Definition calculateHandFaceDistance
    (handLandmarks : option Landmarks) (faceLandmarks : option Landmarks)
    : Completion R :=
  match handLandmarks, faceLandmarks with
  | None, _ | _, None => Normal 1%R
  | Some hand, Some face =>
      if (List.length hand =? 0)%nat then Normal 1%R
      else
        let? knuckle := deref hand 9 in
        let handX := lm_x knuckle in
        let handY := lm_y knuckle in
        let? nose := deref face 1 in
        let faceX := lm_x nose in
        let faceY := lm_y nose in
        Normal (Math_hypot (handX - faceX) (handY - faceY))
  end.

End geometryUtils.

(** ** services/handMeshUtils.ts *)

Module handMeshUtils.

Inductive GestureType : Type :=
| OPEN_PALM | CLOSED_FIST | POINTING | PEACE_SIGN | THUMBS_UP | OK_SIGN | UNKNOWN.

Record HandGesture : Type := mkHandGesture {
  gesture_type : GestureType;
  confidence : R;
  gesture_description : string
}.

Record HandAnalysis : Type := mkHandAnalysis {
  landmarks : Landmarks;
  gesture : HandGesture;
  isNearFace : bool;
  handSize : R;
  movementSpeed : R;
  suspiciousActivity : bool
}.

Definition THUMB_TIP : nat := 4.
Definition INDEX_FINGER_TIP : nat := 8.
Definition MIDDLE_FINGER_TIP : nat := 12.
Definition RING_FINGER_TIP : nat := 16.
Definition PINKY_TIP : nat := 20.

(** [landmarks[tip].y < landmarks[tip - k].y] *)
Definition above (landmarks : Landmarks) (tip k : nat) : Completion bool :=
  let? a := deref landmarks tip in
  let? b := deref landmarks (tip - k) in
  Normal (Rltb (lm_y a) (lm_y b)).

Definition count_true (l : list bool) : nat := List.length (filter (fun b => b) l).

(** The decimal rendering of the finger count in the template string. *)
Definition show_nat (n : nat) : string :=
  match n with
  | 0 => "0" | 1 => "1" | 2 => "2" | 3 => "3" | 4 => "4" | _ => "5"
  end%string.

Definition recognizeGesture (landmarks : Landmarks) : Completion HandGesture :=
  if (List.length landmarks <? 21)%nat then
    Normal (mkHandGesture UNKNOWN 0 "Insufficient landmarks")
  else
    let? isThumbExtended := above landmarks THUMB_TIP 1 in
    let? isIndexExtended := above landmarks INDEX_FINGER_TIP 2 in
    let? isMiddleExtended := above landmarks MIDDLE_FINGER_TIP 2 in
    let? isRingExtended := above landmarks RING_FINGER_TIP 2 in
    let? isPinkyExtended := above landmarks PINKY_TIP 2 in
    let extendedFingers :=
      count_true [isThumbExtended; isIndexExtended; isMiddleExtended;
                  isRingExtended; isPinkyExtended] in
    let unknown :=
      mkHandGesture UNKNOWN 0.3 (show_nat extendedFingers ++ " fingers extended") in
    if (extendedFingers =? 5)%nat then
      Normal (mkHandGesture OPEN_PALM 0.9 "Open palm detected")
    else if (extendedFingers =? 0)%nat then
      Normal (mkHandGesture CLOSED_FIST 0.9 "Closed fist detected")
    else if isIndexExtended && (extendedFingers =? 1)%nat then
      Normal (mkHandGesture POINTING 0.85 "Pointing gesture detected")
    else if isIndexExtended && isMiddleExtended && (extendedFingers =? 2)%nat then
      Normal (mkHandGesture PEACE_SIGN 0.8 "Peace sign detected")
    else if isThumbExtended && (extendedFingers =? 1)%nat then
      Normal (mkHandGesture THUMBS_UP 0.8 "Thumbs up detected")
    else if isThumbExtended && isIndexExtended && (extendedFingers =? 2)%nat then
      let? thumb := deref landmarks THUMB_TIP in
      let? index := deref landmarks INDEX_FINGER_TIP in
      let thumbIndexDistance :=
        Math_sqrt ((lm_x thumb - lm_x index) ^ 2 + (lm_y thumb - lm_y index) ^ 2) in
      if Rltb thumbIndexDistance 0.1 then
        Normal (mkHandGesture OK_SIGN 0.75 "OK sign detected")
      else Normal unknown
    else Normal unknown.

(** [Math.sqrt] and [Math.pow] are exact here; the program rounds after
    each operation. *)
Definition calculateHandSize (landmarks : Landmarks) : Completion R :=
  if (List.length landmarks <? 21)%nat then Normal 0%R
  else
    let? wrist := deref landmarks 0 in
    let? middleFingerTip := deref landmarks 12 in
    Normal (Math_sqrt ((lm_x middleFingerTip - lm_x wrist) ^ 2 +
                       (lm_y middleFingerTip - lm_y wrist) ^ 2)).

(** The loop of [calculateMovementSpeed]: it runs over the common indices
    of the two arrays and reads [.x] and [.y] of each entry.  The sum of
    the square roots and the quotient below are exact; the program rounds
    each root, each partial sum and the quotient. *)
Fixpoint totalMovement (current previous : Landmarks) (acc : R) : Completion R :=
  match current, previous with
  | c :: current', p :: previous' =>
      match c, p with
      | Some c, Some p =>
          totalMovement current' previous'
            (acc + Math_sqrt ((lm_x c - lm_x p) ^ 2 + (lm_y c - lm_y p) ^ 2))
      | _, _ => Throw
      end
  | _, _ => Normal acc
  end.

Definition calculateMovementSpeed (currentLandmarks previousLandmarks : Landmarks)
    : Completion R :=
  if (List.length currentLandmarks <? 21)%nat || (List.length previousLandmarks <? 21)%nat
  then Normal 0%R
  else
    let? total := totalMovement currentLandmarks previousLandmarks 0 in
    Normal (total / INR (List.length currentLandmarks))%R.

Definition analyzeHandActivity
    (landmarks : Landmarks) (previousLandmarks faceLandmarks : option Landmarks)
    : Completion HandAnalysis :=
  let? gesture := recognizeGesture landmarks in
  let? handSize := calculateHandSize landmarks in
  let? movementSpeed :=
    match previousLandmarks with
    | Some previous => calculateMovementSpeed landmarks previous
    | None => Normal 0%R
    end in
  let? isNearFace :=
    match faceLandmarks with
    | Some face =>
        if (0 <? List.length face)%nat then
          let? wrist := deref landmarks 0 in
          let? nose := deref face 1 in
          let distance :=
            Math_sqrt ((lm_x wrist - lm_x nose) ^ 2 + (lm_y wrist - lm_y nose) ^ 2) in
          Normal (Rltb distance 0.3)
        else Normal false
    | None => Normal false
    end in
  let isGesture t :=
    match gesture_type gesture, t with
    | POINTING, POINTING | CLOSED_FIST, CLOSED_FIST => true
    | _, _ => false
    end in
  let suspiciousActivity :=
    isNearFace
    || Rgtb movementSpeed 0.1
    || (isGesture POINTING && isNearFace)
    || (isGesture CLOSED_FIST && isNearFace)
    || Rltb handSize 0.05 in
  Normal (mkHandAnalysis landmarks gesture isNearFace handSize movementSpeed
            suspiciousActivity).

End handMeshUtils.

(** ** The rule-based analysis service *)

(** A version of the analysis service that exports [analyzeFrameWithPuter]
    and [AIAnalysisResult] as [services/groqService.ts] does and decides by
    rules.  Its functions are [async]; what is given here is the value their
    promise resolves to.  [Date.now()] and [Math.random()] are read by the
    periodic analysis only, and are passed in as [time] and [random]. *)
Module ruleBasedService.

Inductive Status : Type := SAFE | SUSPICIOUS | ERROR | INIT.

(** A [message] is a string by its declared type.  The lookup
    [descriptions[eventType]] also finds what the object literal inherits
    from [Object.prototype], and [safeMessages[i]] is [undefined] for an
    index out of range. *)
Inductive Message : Type :=
| Text (s : string)
| Inherited (member : string)
| Undefined.

Record AIAnalysisResult : Type := mkAIAnalysisResult {
  status : Status;
  message : Message;
  model : string
}.

Local Open Scope string_scope.

Definition suspiciousEvents : list string :=
  ["MULTIPLE_FACES_DETECTED"; "FACE_MISSING_LONG_DURATION"; "HAND_NEAR_FACE"].

(** [array.includes(s)] on an array of strings. *)
Definition includes (array : list string) (s : string) : bool :=
  existsb (String.eqb s) array.

(** The names every object literal inherits from [Object.prototype]. *)
Definition objectPrototype : list string :=
  ["constructor"; "hasOwnProperty"; "isPrototypeOf"; "propertyIsEnumerable";
   "toLocaleString"; "toString"; "valueOf"; "__proto__";
   "__defineGetter__"; "__defineSetter__"; "__lookupGetter__"; "__lookupSetter__"].

(** [descriptions[eventType]]; [None] is [undefined]. *)
Definition descriptions (eventType : string) : option Message :=
  if eventType =? "MULTIPLE_FACES_DETECTED" then
    Some (Text "Multiple people detected in camera view - potential collaboration")
  else if eventType =? "FACE_MISSING_LONG_DURATION" then
    Some (Text "Student not visible for extended period - potential cheating")
  else if eventType =? "HAND_NEAR_FACE" then
    Some (Text "Hand proximity to face detected - potential unauthorized assistance")
  else if includes objectPrototype eventType then Some (Inherited eventType)
  else None.

Definition analyzeEvent (base64Image : string) (eventType : string)
    : AIAnalysisResult :=
  let isSuspicious := includes suspiciousEvents eventType in
  mkAIAnalysisResult
    (if isSuspicious then SUSPICIOUS else SAFE)
    (match descriptions eventType with
     | Some m => m                                   (* every entry is truthy *)
     | None => Text ("Event analysis: " ++ eventType)
     end)
    "Rule-Based".

Definition safeMessages : list string :=
  ["Student focused on exam - normal behavior detected";
   "Student maintaining proper posture and attention";
   "No suspicious activity detected - exam integrity maintained";
   "Student actively engaged with exam content";
   "Normal exam behavior observed - no violations";
   "Student demonstrating appropriate exam conduct"].

(** [safeMessages[i]] for an integer [i]. *)
Definition safeMessage (i : Z) : Message :=
  if (i <? 0)%Z then Undefined
  else match nth_error safeMessages (Z.to_nat i) with
       | Some s => Text s
       | None => Undefined
       end.

Definition generateDetailedAnalysis (time : Z) (random : R) : Status * Message :=
  if Rltb random 0.05 then
    (SUSPICIOUS,
     Text "Hand movement detected near face area - potential unauthorized assistance")
  else if Rltb random 0.10 then
    (SUSPICIOUS,
     Text "Excessive head movement detected - possible distraction or cheating attempt")
  else if Rltb random 0.15 then
    (SUSPICIOUS, Text "Mouth movement detected - possible talking during exam")
  else if Rltb random 0.20 then
    (SUSPICIOUS, Text "Gaze deviation detected - student not focused on screen")
  else if Rltb random 0.25 then
    (SUSPICIOUS, Text "Hand activity detected - possible use of unauthorized materials")
  else
    (* Math.floor(time / 10000) % safeMessages.length *)
    (SAFE, safeMessage (Z.rem (time / 10000) (Z.of_nat (List.length safeMessages)))).

Definition analyzePeriodic (base64Image : string) (time : Z) (random : R)
    : AIAnalysisResult :=
  let analysis := generateDetailedAnalysis time random in
  mkAIAnalysisResult (fst analysis) (snd analysis) "Rule-Based".

(** [eventType] is optional: [None] is [undefined]; [isPeriodic] defaults to
    [false]. *)
Definition analyzeFrameWithPuter (base64Image : string) (eventType : option string)
    (isPeriodic : bool) (time : Z) (random : R) : AIAnalysisResult :=
  let noEventType :=                                  (* !eventType *)
    match eventType with
    | None => true
    | Some s => s =? EmptyString
    end in
  if negb isPeriodic && noEventType then
    mkAIAnalysisResult SAFE
      (Text "MediaPipe monitoring active - no AI analysis needed") "MediaPipe Only"
  else if isPeriodic then analyzePeriodic base64Image time random
  else
    match eventType with
    | Some s => analyzeEvent base64Image s
    | None => analyzeEvent base64Image "undefined"   (* not reached *)
    end.

End ruleBasedService.

(** ** types.ts *)

Inductive ExamMode : Type := MCQ | Coding | Written.

(** Modelled from the spec: the [types.ts] under [src] belongs to the first
    copy of [App.tsx] and declares the first four kinds and [HAND_ERROR]; the
    declaration that goes with the later copies is not there.  The three hand
    kinds are those the later copies pass to [logEvent] and the specification
    lists. *)
Inductive EventType : Type :=
| LOOKING_AWAY | FACE_MISSING | MULTIPLE_FACES | TALKING
| HAND_NEAR_FACE | SUSPICIOUS_HAND_MOVEMENT | SUSPICIOUS_HAND_ACTIVITY
| HAND_ERROR.

Inductive Severity : Type := LOW | MEDIUM | HIGH.

Record IntegrityEvent : Type := mkIntegrityEvent {
  id : nat;                      (* the token drawn by crypto.randomUUID() *)
  timestamp : Z;
  type : EventType;
  severity : Severity;
  description : string;
  screenshotUrl : option string  (* a data URL, or undefined *)
}.

Record DetectionStatus : Type := mkDetectionStatus {
  faceDetected : bool;
  handsDetected : bool;
  isTalking : bool;
  isLookingAway : bool;
  multipleFaces : bool;
  handNearFace : bool
}.

(** Modelled from the spec: [voiceActivityDetection] is the toggle of the
    later copies of [App.tsx] (their [INITIAL_CONFIG] sets it); the
    [AppConfig] declared under [src] is the one of the first copy and has no
    such field, and the first copy never reads it. *)
Record AppConfig : Type := mkAppConfig {
  privacyMode : bool;
  invisibleProctor : bool;
  examMode : ExamMode;
  demoMode : bool;
  voiceActivityDetection : bool
}.

Definition ExamMode_eqb (a b : ExamMode) : bool :=
  match a, b with
  | MCQ, MCQ | Coding, Coding | Written, Written => true
  | _, _ => false
  end.

(** What the detectors deliver to [onResults]. *)
Record FaceResults : Type := mkFaceResults {
  multiFaceLandmarks : option (list Landmarks)
}.

Record HandResults : Type := mkHandResults {
  multiHandLandmarks : option (list (option Landmarks))
}.

(** ** The world of the component *)

(** What the browser provides: the mounted elements, the 2D contexts, the
    JPEG encoding of the current frame, the clock and the number of
    [Date.now()] and [crypto.randomUUID()] calls made so far. *)
Record Host : Type := mkHost {
  canvasRef : bool;          (* canvasRef.current is an element *)
  videoRef : bool;           (* videoRef.current is an element *)
  getContext2d : bool;       (* canvasRef.current.getContext('2d') is not null *)
  tempGetContext2d : bool;   (* tempCanvas.getContext('2d') is not null *)
  toDataURL : string;
  clock : nat -> Z;
  ticks : nat;
  uuids : nat
}.

Record Refs : Type := mkRefs {
  lastEventTime : Z;
  missingFaceStartTime : option Z;
  lookingAwayStartTime : option Z;
  talkingStartTime : option Z;
  latestFaceResults : option FaceResults;
  latestHandResults : option HandResults;
  previousHandLandmarks : list (option Landmarks)
}.

Record World : Type := mkWorld {
  score : R;
  events : list IntegrityEvent;
  status : DetectionStatus;
  refs : Refs;
  host : Host
}.

Definition INITIAL_CONFIG : AppConfig := mkAppConfig true false MCQ false true.

Definition INITIAL_STATUS : DetectionStatus :=
  mkDetectionStatus false false false false false false.

Definition initialRefs : Refs := mkRefs 0 None None None None None [].

Definition initialWorld (h : Host) : World :=
  mkWorld 100 [] INITIAL_STATUS initialRefs h.

(** *** Field updates *)

Definition with_score (v : R) (w : World) : World :=
  mkWorld v (events w) (status w) (refs w) (host w).
Definition with_events (v : list IntegrityEvent) (w : World) : World :=
  mkWorld (score w) v (status w) (refs w) (host w).
Definition with_status (v : DetectionStatus) (w : World) : World :=
  mkWorld (score w) (events w) v (refs w) (host w).
Definition with_refs (v : Refs) (w : World) : World :=
  mkWorld (score w) (events w) (status w) v (host w).
Definition with_host (v : Host) (w : World) : World :=
  mkWorld (score w) (events w) (status w) (refs w) v.

Definition with_ticks (n : nat) (h : Host) : Host :=
  mkHost (canvasRef h) (videoRef h) (getContext2d h) (tempGetContext2d h)
         (toDataURL h) (clock h) n (uuids h).
Definition with_uuids (n : nat) (h : Host) : Host :=
  mkHost (canvasRef h) (videoRef h) (getContext2d h) (tempGetContext2d h)
         (toDataURL h) (clock h) (ticks h) n.

Definition with_lastEventTime (v : Z) (r : Refs) : Refs :=
  mkRefs v (missingFaceStartTime r) (lookingAwayStartTime r) (talkingStartTime r)
         (latestFaceResults r) (latestHandResults r) (previousHandLandmarks r).
Definition with_missingFaceStartTime (v : option Z) (r : Refs) : Refs :=
  mkRefs (lastEventTime r) v (lookingAwayStartTime r) (talkingStartTime r)
         (latestFaceResults r) (latestHandResults r) (previousHandLandmarks r).
Definition with_lookingAwayStartTime (v : option Z) (r : Refs) : Refs :=
  mkRefs (lastEventTime r) (missingFaceStartTime r) v (talkingStartTime r)
         (latestFaceResults r) (latestHandResults r) (previousHandLandmarks r).
Definition with_talkingStartTime (v : option Z) (r : Refs) : Refs :=
  mkRefs (lastEventTime r) (missingFaceStartTime r) (lookingAwayStartTime r) v
         (latestFaceResults r) (latestHandResults r) (previousHandLandmarks r).
Definition with_latestFaceResults (v : option FaceResults) (r : Refs) : Refs :=
  mkRefs (lastEventTime r) (missingFaceStartTime r) (lookingAwayStartTime r)
         (talkingStartTime r) v (latestHandResults r) (previousHandLandmarks r).
Definition with_latestHandResults (v : option HandResults) (r : Refs) : Refs :=
  mkRefs (lastEventTime r) (missingFaceStartTime r) (lookingAwayStartTime r)
         (talkingStartTime r) (latestFaceResults r) v (previousHandLandmarks r).
Definition with_previousHandLandmarks (v : list (option Landmarks)) (r : Refs) : Refs :=
  mkRefs (lastEventTime r) (missingFaceStartTime r) (lookingAwayStartTime r)
         (talkingStartTime r) (latestFaceResults r) (latestHandResults r) v.

Definition with_faceDetected (v : bool) (s : DetectionStatus) : DetectionStatus :=
  mkDetectionStatus v (handsDetected s) (isTalking s) (isLookingAway s)
                    (multipleFaces s) (handNearFace s).
Definition with_handsDetected (v : bool) (s : DetectionStatus) : DetectionStatus :=
  mkDetectionStatus (faceDetected s) v (isTalking s) (isLookingAway s)
                    (multipleFaces s) (handNearFace s).
Definition with_isTalking (v : bool) (s : DetectionStatus) : DetectionStatus :=
  mkDetectionStatus (faceDetected s) (handsDetected s) v (isLookingAway s)
                    (multipleFaces s) (handNearFace s).
Definition with_isLookingAway (v : bool) (s : DetectionStatus) : DetectionStatus :=
  mkDetectionStatus (faceDetected s) (handsDetected s) (isTalking s) v
                    (multipleFaces s) (handNearFace s).
Definition with_multipleFaces (v : bool) (s : DetectionStatus) : DetectionStatus :=
  mkDetectionStatus (faceDetected s) (handsDetected s) (isTalking s) (isLookingAway s)
                    v (handNearFace s).
Definition with_handNearFace (v : bool) (s : DetectionStatus) : DetectionStatus :=
  mkDetectionStatus (faceDetected s) (handsDetected s) (isTalking s) (isLookingAway s)
                    (multipleFaces s) v.

(** ** The monad of callbacks: world passing with exceptions *)

Definition M (A : Type) : Type := World -> Completion A * World.

Definition ret {A} (a : A) : M A := fun w => (Normal a, w).

Definition bind {A B} (c : M A) (k : A -> M B) : M B :=
  fun w =>
    match c w with
    | (Normal a, w') => k a w'
    | (Throw, w') => (Throw, w')
    end.

(** A pure computation that may throw, run inside a callback. *)
Definition lift {A} (c : Completion A) : M A := fun w => (c, w).

Definition gets {A} (f : World -> A) : M A := fun w => (Normal (f w), w).
Definition modify (f : World -> World) : M unit := fun w => (Normal tt, f w).
Definition modifyRefs (f : Refs -> Refs) : M unit :=
  modify (fun w => with_refs (f (refs w)) w).

Notation "x <- c ;; k" := (bind c (fun x => k))
  (at level 61, c at next level, right associativity).
Notation "c ;; k" := (bind c (fun _ => k))
  (at level 61, right associativity).

(** [Date.now()] *)
Definition Date_now : M Z :=
  fun w =>
    let h := host w in
    (Normal (clock h (ticks h)), with_host (with_ticks (S (ticks h)) h) w).

(** [crypto.randomUUID()] *)
Definition randomUUID : M nat :=
  fun w =>
    let h := host w in
    (Normal (uuids h), with_host (with_uuids (S (uuids h)) h) w).

(** [!ref.current] for a ref of type [number | null]. *)
Definition falsy (t : option Z) : bool :=
  match t with
  | None => true
  | Some z => (z =? 0)%Z
  end.

(** The number in a ref known to be truthy; [null] coerces to 0 in a
    subtraction. *)
Definition valueOf (t : option Z) : Z :=
  match t with
  | Some z => z
  | None => 0
  end.

(** ** App.tsx *)

(** [src] holds three copies of [App.tsx].  The first copy has no
    voice-activity toggle, a plain hand loop and the AI loop.  The two later
    copies (the second copy in [src/App.tsx], and the one with the study
    assistant) have the toggle and the hand analysis of [handMeshUtils], and
    their AI loop is disabled; the last one also lowers two thresholds.
    [logEvent], [captureScreenshot], the face logic apart from the toggle and
    the score update are the same text in all three. *)
Inductive Later : Type := Second | Third.
Inductive Version : Type := FirstVersion | LaterVersion (copy : Later).

Local Open Scope R_scope.

Definition MAX_SCORE : R := 100.
Definition YAW_THRESHOLD (v : Version) : R :=
  match v with LaterVersion Third => 0.20 | _ => 0.25 end.
Definition PITCH_THRESHOLD : R := 0.20.
Definition TALK_THRESHOLD (v : Version) : R :=
  match v with LaterVersion Third => 0.05 | _ => 0.15 end.

(** *** Helpers *)

Definition captureScreenshot (config : AppConfig) : M (option string) :=
  h <- gets host ;;
  if negb (privacyMode config) then ret None
  else if canvasRef h && videoRef h then
    if tempGetContext2d h then ret (Some (toDataURL h))
    else ret None
  else ret None.

Definition setEvents (f : list IntegrityEvent -> list IntegrityEvent) : M unit :=
  modify (fun w => with_events (f (events w)) w).
Definition setStatus (f : DetectionStatus -> DetectionStatus) : M unit :=
  modify (fun w => with_status (f (status w)) w).
Definition setScore (f : R -> R) : M unit :=
  modify (fun w => with_score (f (score w)) w).

Definition logEvent (config : AppConfig)
    (type : EventType) (severity : Severity) (description : string) : M unit :=
  now <- Date_now ;;
  last <- gets (fun w => lastEventTime (refs w)) ;;
  (* Debounce similar events *)
  if (now - last <? 2000)%Z then ret tt
  else
    modifyRefs (with_lastEventTime now) ;;
    id <- randomUUID ;;
    screenshot <- captureScreenshot config ;;
    let newEvent := mkIntegrityEvent id now type severity description screenshot in
    setEvents (fun prev => prev ++ [newEvent]).

(** *** The locals of [processFrame] *)

Record Locals : Type := mkLocals {
  currentStatus : DetectionStatus;
  deduction : R
}.

Definition deduct (d : R) (l : Locals) : Locals :=
  mkLocals (currentStatus l) (deduction l + d).
Definition flag (f : DetectionStatus -> DetectionStatus) (l : Locals) : Locals :=
  mkLocals (f (currentStatus l)) (deduction l).

(** The arrays of faces of a result with at least one face; [[]] when
    [faceResults && faceResults.multiFaceLandmarks &&
     faceResults.multiFaceLandmarks.length > 0] is falsy. *)
Definition detectedFaces (faceResults : option FaceResults) : list Landmarks :=
  match faceResults with
  | Some r => match multiFaceLandmarks r with Some faces => faces | None => [] end
  | None => []
  end.

Definition detectedHands (handResults : option HandResults) : list (option Landmarks) :=
  match handResults with
  | Some r => match multiHandLandmarks r with Some hands => hands | None => [] end
  | None => []
  end.

(** *** Face logic *)

Import geometryUtils.

Definition lookingAwayCondition (v : Version) (config : AppConfig) (pose : HeadPose)
    : bool :=
  let isLookingAway := false in
  let isLookingAway :=
    if greater (Math_abs (yaw pose)) (YAW_THRESHOLD v) then true else isLookingAway in
  let isLookingAway :=
    if less (pitch pose) (- PITCH_THRESHOLD) then true else isLookingAway in
  let maxLookDown :=
    if ExamMode_eqb (examMode config) Written then 0.8 else PITCH_THRESHOLD in
  if greater (pitch pose) maxLookDown then true else isLookingAway.

Definition lookingDirection (pose : HeadPose) : string :=
  if greater (yaw pose) 0 then "Right"%string
  else if less (yaw pose) 0 then "Left"%string
  else if greater (pitch pose) 0 then "Down"%string
  else "Up"%string.

(** "Head Pose & Exam Mode Logic" *)
Definition lookingAwayBlock (v : Version) (config : AppConfig)
    (landmarks : Landmarks) (l : Locals) : M Locals :=
  let pose := calculateHeadPose landmarks in
  if lookingAwayCondition v config pose then
    let l := flag (with_isLookingAway true) l in
    start <- gets (fun w => lookingAwayStartTime (refs w)) ;;
    if falsy start then
      now <- Date_now ;;
      modifyRefs (with_lookingAwayStartTime (Some now)) ;;
      ret l
    else
      now <- Date_now ;;
      if (2000 <? now - valueOf start)%Z then
        let l := deduct 0.1 l in
        now <- Date_now ;;
        last <- gets (fun w => lastEventTime (refs w)) ;;
        if (5000 <? now - last)%Z then
          logEvent config LOOKING_AWAY MEDIUM
            ("Looking " ++ lookingDirection pose ++ " detected.")%string ;;
          ret l
        else ret l
      else ret l
  else
    modifyRefs (with_lookingAwayStartTime None) ;;
    ret l.

Definition talkingCondition (v : Version) (config : AppConfig) (mouthOpen : number)
    : bool :=
  match v with
  | FirstVersion => greater mouthOpen (TALK_THRESHOLD v)
  | LaterVersion _ =>
      greater mouthOpen (TALK_THRESHOLD v) && voiceActivityDetection config
  end.

(** "Talking" *)
Definition talkingBlock (v : Version) (config : AppConfig)
    (landmarks : Landmarks) (l : Locals) : M Locals :=
  let mouthOpen := calculateMouthOpenness landmarks in
  if talkingCondition v config mouthOpen then
    let l := flag (with_isTalking true) l in
    start <- gets (fun w => talkingStartTime (refs w)) ;;
    if falsy start then
      now <- Date_now ;;
      modifyRefs (with_talkingStartTime (Some now)) ;;
      ret l
    else
      now <- Date_now ;;
      if (1500 <? now - valueOf start)%Z then
        let l := deduct 0.2 l in
        now <- Date_now ;;
        last <- gets (fun w => lastEventTime (refs w)) ;;
        if (4000 <? now - last)%Z then
          logEvent config TALKING MEDIUM "Sustained mouth movement detected." ;;
          ret l
        else ret l
      else ret l
  else
    modifyRefs (with_talkingStartTime None) ;;
    ret l.

(** "No Face Logic" *)
Definition noFaceBlock (config : AppConfig) (l : Locals) : M Locals :=
  start <- gets (fun w => missingFaceStartTime (refs w)) ;;
  if falsy start then
    now <- Date_now ;;
    modifyRefs (with_missingFaceStartTime (Some now)) ;;
    ret l
  else
    now <- Date_now ;;
    if (3000 <? now - valueOf start)%Z then
      let l := deduct 0.5 l in
      now <- Date_now ;;
      last <- gets (fun w => lastEventTime (refs w)) ;;
      if (5000 <? now - last)%Z then
        logEvent config FACE_MISSING HIGH "Face not visible for > 3 seconds." ;;
        ret l
      else ret l
    else ret l.

Definition multipleFacesBlock (config : AppConfig) (faces : list Landmarks)
    (l : Locals) : M Locals :=
  if (1 <? List.length faces)%nat then
    let l := flag (with_multipleFaces true) l in
    let l := deduct 5 l in
    logEvent config MULTIPLE_FACES HIGH "Multiple people detected." ;;
    ret l
  else ret l.

(** "Face Logic" *)
Definition faceLogic (v : Version) (config : AppConfig)
    (faceResults : option FaceResults) (l : Locals) : M Locals :=
  match detectedFaces faceResults with
  | landmarks :: _ =>
      let l := flag (with_faceDetected true) l in
      l <- multipleFacesBlock config (detectedFaces faceResults) l ;;
      l <- lookingAwayBlock v config landmarks l ;;
      l <- talkingBlock v config landmarks l ;;
      modifyRefs (with_missingFaceStartTime None) ;;
      ret l
  | [] => noFaceBlock config l
  end.

(** *** Hand logic *)

Import handMeshUtils.

(** [array[i]] and [array[i] = a] on a JavaScript array that may have
    holes; an assignment past the end extends the array. *)
Definition arrayGet {A} (array : list (option A)) (i : nat) : option A :=
  match nth_error array i with
  | Some (Some a) => Some a
  | _ => None
  end.

Fixpoint arraySet {A} (array : list (option A)) (i : nat) (a : A) : list (option A) :=
  match i, array with
  | O, [] => [Some a]
  | O, _ :: rest => Some a :: rest
  | S i', [] => None :: arraySet [] i' a
  | S i', e :: rest => e :: arraySet rest i' a
  end.

(** The body of the hand loop of the first copy.  [drawConnectors] and
    [drawLandmarks] only draw. *)
Definition firstHandBody (faceResults : option FaceResults)
    (landmarks : option Landmarks) (l : Locals) : M Locals :=
  match faceDetected (currentStatus l), detectedFaces faceResults with
  | true, face :: _ =>
      dist <- lift (calculateHandFaceDistance landmarks (Some face)) ;;
      if Rltb dist 0.3 then ret (flag (with_handNearFace true) l)
      else ret l
  | _, _ => ret l
  end.

Fixpoint firstHandLoop (faceResults : option FaceResults)
    (hands : list (option Landmarks)) (l : Locals) : M Locals :=
  match hands with
  | [] => ret l
  | landmarks :: rest =>
      l <- firstHandBody faceResults landmarks l ;;
      firstHandLoop faceResults rest l
  end.

Definition handEvent (config : AppConfig) (handAnalysis : HandAnalysis) : M unit :=
  if isNearFace handAnalysis then
    logEvent config HAND_NEAR_FACE HIGH
      ("Hand near face detected: " ++ gesture_description (gesture handAnalysis))%string
  else if Rgtb (movementSpeed handAnalysis) 0.1 then
    logEvent config SUSPICIOUS_HAND_MOVEMENT MEDIUM
      ("Rapid hand movement: " ++ gesture_description (gesture handAnalysis))%string
  else
    logEvent config SUSPICIOUS_HAND_ACTIVITY MEDIUM
      ("Suspicious hand activity: " ++ gesture_description (gesture handAnalysis))%string.

(** The body of the hand loop of the later copies.  The drawing of the mesh
    sits in a [try]/[catch] of its own and only draws. *)
Definition laterHandBody (config : AppConfig) (faceResults : option FaceResults)
    (handIndex : nat) (landmarks : option Landmarks) (l : Locals) : M Locals :=
  match landmarks with
  | None => ret l                                   (* continue *)
  | Some landmarks =>
      if (List.length landmarks <? 21)%nat then ret l  (* continue *)
      else
        let faceLandmarks := hd_error (detectedFaces faceResults) in
        previousLandmarks <-
          gets (fun w => arrayGet (previousHandLandmarks (refs w)) handIndex) ;;
        handAnalysis <-
          lift (analyzeHandActivity landmarks previousLandmarks faceLandmarks) ;;
        l <- (if suspiciousActivity handAnalysis then
                let l := deduct 0.3 l in
                now <- Date_now ;;
                last <- gets (fun w => lastEventTime (refs w)) ;;
                if (3000 <? now - last)%Z then
                  handEvent config handAnalysis ;;
                  ret l
                else ret l
              else ret l) ;;
        let l :=
          if isNearFace handAnalysis then flag (with_handNearFace true) l else l in
        modifyRefs (fun r =>
          with_previousHandLandmarks
            (arraySet (previousHandLandmarks r) handIndex landmarks) r) ;;
        ret l
  end.

Fixpoint laterHandLoop (config : AppConfig) (faceResults : option FaceResults)
    (handIndex : nat) (hands : list (option Landmarks)) (l : Locals) : M Locals :=
  match hands with
  | [] => ret l
  | landmarks :: rest =>
      l <- laterHandBody config faceResults handIndex landmarks l ;;
      laterHandLoop config faceResults (S handIndex) rest l
  end.

(** "Hand Logic" *)
Definition handLogic (v : Version) (config : AppConfig)
    (faceResults : option FaceResults) (handResults : option HandResults)
    (l : Locals) : M Locals :=
  match detectedHands handResults with
  | _ :: _ =>
      let l := flag (with_handsDetected true) l in
      match v with
      | FirstVersion => firstHandLoop faceResults (detectedHands handResults) l
      | LaterVersion _ =>
          laterHandLoop config faceResults 0 (detectedHands handResults) l
      end
  | [] =>
      match v, handResults with
      | LaterVersion _, None =>
          (* latestHandResults.current === null && Date.now() % 5000 < 100:
             the fallback indicator is drawn *)
          _ <- Date_now ;; ret l
      | _, _ => ret l
      end
  end.

(** *** The score update *)

Definition scoreUpdater (config : AppConfig) (deduction : R) (prev : R) : R :=
  let recovery := 0.05 in
  let recovery := if Rgtb deduction 0 then 0 else recovery in
  let multiplier := 1 in
  let multiplier :=
    if ExamMode_eqb (examMode config) Coding then 1.2 else multiplier in
  let multiplier :=
    if ExamMode_eqb (examMode config) Written then 0.8 else multiplier in
  Math_max 0 (Math_min 100 (prev - (deduction * multiplier) + recovery)).

(** *** processFrame *)

(** The locals at the point "Apply Score Updates". *)
Definition analyzeFrame (v : Version) (config : AppConfig) : M Locals :=
  faceResults <- gets (fun w => latestFaceResults (refs w)) ;;
  handResults <- gets (fun w => latestHandResults (refs w)) ;;
  let l := mkLocals INITIAL_STATUS 0 in
  l <- faceLogic v config faceResults l ;;
  handLogic v config faceResults handResults l.

(** The third copy also sets the focus indicator of its study mode from
    [currentStatus]; that piece of state is of no concern to the scorer and
    is not represented. *)
Definition processFrame (v : Version) (config : AppConfig) : M unit :=
  h <- gets host ;;
  if negb (canvasRef h) || negb (videoRef h) then ret tt
  else if negb (getContext2d h) then ret tt
  else
    l <- analyzeFrame v config ;;
    setStatus (fun _ => currentStatus l) ;;
    setScore (scoreUpdater config (deduction l)).

(** *** What the host calls *)

Inductive Callback : Type :=
| faceMesh_onResults (results : FaceResults)
| hands_onResults (results : HandResults)
| aiSuspicious (message : string)   (* the AI loop saw status SUSPICIOUS *)
| demoGazeDrift                     (* the demo interval drew random > 0.95 *)
| demoGazeReset.                    (* the timeout of the demo interval *)

Definition penalty (s : R) : R := Math_max 0 (s - 5).

(** One callback, run with the configuration its closure holds. *)
Definition dispatch (v : Version) (config : AppConfig) (c : Callback) : M unit :=
  match c with
  | faceMesh_onResults results =>
      modifyRefs (with_latestFaceResults (Some results)) ;;
      processFrame v config
  | hands_onResults results =>
      modifyRefs (with_latestHandResults (Some results)) ;;
      processFrame v config
  | aiSuspicious message =>
      match v with
      | FirstVersion =>
          logEvent config LOOKING_AWAY HIGH ("AI Flag: " ++ message)%string ;;
          setScore penalty
      | LaterVersion _ => ret tt   (* the AI loop is disabled *)
      end
  | demoGazeDrift =>
      if demoMode config then
        logEvent config LOOKING_AWAY LOW "Simulated: Gaze drift detected" ;;
        setScore penalty ;;
        setStatus (with_isLookingAway true)
      else ret tt
  | demoGazeReset => setStatus (with_isLookingAway false)
  end.

(** A session: the callbacks in the order the event loop delivers them.  A
    callback that throws is abandoned; what it had written stays. *)
Fixpoint run (v : Version) (session : list (AppConfig * Callback)) (w : World)
    : World :=
  match session with
  | [] => w
  | (config, c) :: rest => run v rest (snd (dispatch v config c w))
  end.

(** *** Study mode *)

(** The third copy keeps a focus indicator for its study mode.  With the
    study mode on, [processFrame] calls [updateFocusStatus(currentStatus)]
    right after [setStatus(currentStatus)]; this is the value it passes to
    [setFocusStatus]. *)
Inductive FocusStatus : Type := focused | distracted | idle.

Definition updateFocusStatus (currentStatus : DetectionStatus) : FocusStatus :=
  if negb (faceDetected currentStatus) then idle
  else if isLookingAway currentStatus || isTalking currentStatus
          || handNearFace currentStatus
  then distracted
  else focused.

(** ** components/ControlPanel.tsx *)

(** [Math.round]: the nearest integer, a half rounded up. *)
Definition Math_round (r : R) : Z := (up (r + 1 / 2) - 1)%Z.

Module ControlPanel.

(** What the panel derives from the [score] it is given: the colour switch,
    the number it prints and the width of the bar in percent. *)
Definition isCritical (score : R) : bool := Rltb score 60.
Definition shownScore (score : R) : Z := Math_round score.
Definition barWidth (score : R) : R := score.

(** The controls of the panel: the exam-mode selector and the four toggles.
    Each calls [setConfig(prev => ({ ...prev, field: ... }))]. *)
Inductive Control : Type :=
| selectExamMode (mode : ExamMode)
| togglePrivacyMode
| toggleVoiceActivityDetection
| toggleInvisibleProctor
| toggleDemoMode.

Definition onChange (c : Control) (prev : AppConfig) : AppConfig :=
  match c with
  | selectExamMode mode =>
      mkAppConfig (privacyMode prev) (invisibleProctor prev) mode (demoMode prev)
                  (voiceActivityDetection prev)
  | togglePrivacyMode =>
      mkAppConfig (negb (privacyMode prev)) (invisibleProctor prev) (examMode prev)
                  (demoMode prev) (voiceActivityDetection prev)
  | toggleVoiceActivityDetection =>
      mkAppConfig (privacyMode prev) (invisibleProctor prev) (examMode prev)
                  (demoMode prev) (negb (voiceActivityDetection prev))
  | toggleInvisibleProctor =>
      mkAppConfig (privacyMode prev) (negb (invisibleProctor prev)) (examMode prev)
                  (demoMode prev) (voiceActivityDetection prev)
  | toggleDemoMode =>
      mkAppConfig (privacyMode prev) (invisibleProctor prev) (examMode prev)
                  (negb (demoMode prev)) (voiceActivityDetection prev)
  end.

End ControlPanel.

(** ** The callbacks between renders *)

(** [App] builds its callbacks with [useCallback(f, deps)]: a render hands
    back the function of an earlier render unless one of [deps] has changed
    since, and that function reads the [config] of the render that made it.
    The dependency lists are
    - [captureScreenshot]: [[config.privacyMode]];
    - [logEvent]: [[config.invisibleProctor, captureScreenshot]];
    - [processFrame]: [[config.examMode, config.invisibleProctor, logEvent,
      config.privacyMode]], and in the third copy also [studyMode] and
      [updateFocusStatus] (whose own list is empty).
    [f_unchanged old new]: no dependency of [f] differs between the
    configuration [old] its function was made with and that of the new
    render. *)
Definition captureScreenshot_unchanged (old new : AppConfig) : bool :=
  Bool.eqb (privacyMode old) (privacyMode new).

Definition logEvent_unchanged (old new : AppConfig) : bool :=
  Bool.eqb (invisibleProctor old) (invisibleProctor new)
  && captureScreenshot_unchanged old new.

Definition processFrame_unchanged (v : Version) (old new : AppConfig)
    (oldStudyMode newStudyMode : bool) : bool :=
  ExamMode_eqb (examMode old) (examMode new)
  && Bool.eqb (invisibleProctor old) (invisibleProctor new)
  && logEvent_unchanged old new
  && Bool.eqb (privacyMode old) (privacyMode new)
  && match v with
     | LaterVersion Third => Bool.eqb oldStudyMode newStudyMode
     | _ => true
     end.

(** The component between two events of the event loop: the state [config]
    (and [studyMode], third copy) of the latest render, the configuration
    that the function in [processFrameRef.current] was made with, and the
    rest of the state and the refs.  The effect that stores a new
    [processFrame] in [processFrameRef] is taken to have run before the next
    event is delivered. *)
Record Component : Type := mkComponent {
  config : AppConfig;
  studyMode : bool;
  processFrameRef : AppConfig;
  world : World
}.

(** A render with a new state. *)
Definition render (v : Version) (newConfig : AppConfig) (newStudyMode : bool)
    (app : Component) : Component :=
  mkComponent newConfig newStudyMode
    (if processFrame_unchanged v (processFrameRef app) newConfig
          (studyMode app) newStudyMode
     then processFrameRef app
     else newConfig)
    (world app).

(** The configuration a callback of the host runs with.  The detectors call
    [processFrameRef.current()].  The AI loop and the demo interval call
    [logEvent] and read [config.demoMode] from the closure of their effect,
    which is set up again whenever [logEvent] or [config.demoMode] changes;
    what [logEvent] reads of the configuration, the privacy mode, is then
    that of the latest render. *)
Definition closure (c : Callback) (app : Component) : AppConfig :=
  match c with
  | faceMesh_onResults _ | hands_onResults _ => processFrameRef app
  | aiSuspicious _ | demoGazeDrift | demoGazeReset => config app
  end.

(** What happens to the component: the user operates a control of the
    panel or the study-mode button (third copy), or the host delivers a
    callback. *)
Inductive Action : Type :=
| control (c : ControlPanel.Control)
| toggleStudyMode
| deliver (c : Callback).

Definition act (v : Version) (a : Action) (app : Component) : Component :=
  match a with
  | control c => render v (ControlPanel.onChange c (config app)) (studyMode app) app
  | toggleStudyMode =>
      match v with
      | LaterVersion Third => render v (config app) (negb (studyMode app)) app
      | _ => app
      end
  | deliver c =>
      mkComponent (config app) (studyMode app) (processFrameRef app)
                  (snd (dispatch v (closure c app) c (world app)))
  end.

(** The component as mounted, and after a list of actions. *)
Definition mount (h : Host) : Component :=
  mkComponent INITIAL_CONFIG false INITIAL_CONFIG (initialWorld h).

Definition interact (v : Version) (actions : list Action) (app : Component)
    : Component :=
  fold_left (fun app a => act v a app) actions app.

(** * Vocabulary of the statements *)

(** [wp c Q E w]: run from [w], [c] either returns [a] in a world with
    [Q a], or throws in a world with [E]. *)
Definition wp {A} (c : M A) (Q : A -> World -> Prop) (E : World -> Prop)
    (w : World) : Prop :=
  match c w with
  | (Normal a, w') => Q a w'
  | (Throw, w') => E w'
  end.

(** The reading of the clock at the next [Date.now()]. *)
Definition nextNow (w : World) : Z := clock (host w) (ticks (host w)).

(** The world after one [Date.now()]. *)
Definition ticked (w : World) : World :=
  with_host (with_ticks (S (ticks (host w))) (host w)) w.

(** What the browser provides apart from the two counters. *)
Definition sameHost (h h' : Host) : Prop :=
  canvasRef h' = canvasRef h /\ videoRef h' = videoRef h /\
  getContext2d h' = getContext2d h /\ tempGetContext2d h' = tempGetContext2d h /\
  toDataURL h' = toDataURL h /\ clock h' = clock h.


(** The value of [captureScreenshot()] under [config] on host [h]. *)
Definition screenshotOf (config : AppConfig) (h : Host) : option string :=
  if negb (privacyMode config) then None
  else if canvasRef h && videoRef h then
    if tempGetContext2d h then Some (toDataURL h) else None
  else None.

(** The score is within its bounds. *)
Definition scoreInRange (w : World) : Prop := 0 <= score w <= 100.

(** Timestamps do not decrease along the log. *)
Definition chronological (log : list IntegrityEvent) : Prop :=
  forall i j ei ej,
    (i < j)%nat -> nth_error log i = Some ei -> nth_error log j = Some ej ->
    (timestamp ei <= timestamp ej)%Z.

(** The invariant of the log: consecutive entries are at least the global
    debounce apart, and [lastEventTime] is the timestamp of the last entry
    (it bounds all of them). *)
Fixpoint spaced (bound : Z) (reversedLog : list IntegrityEvent) : Prop :=
  match reversedLog with
  | [] => True
  | e :: older => (timestamp e <= bound)%Z /\ spaced (timestamp e - 2000) older
  end.

Definition logInvariant (w : World) : Prop :=
  spaced (lastEventTime (refs w)) (rev (events w)).

(** [w'] has the log of [w] with events appended that all satisfy [Q]. *)
Definition appended (Q : IntegrityEvent -> Prop) (w w' : World) : Prop :=
  exists new, events w' = events w ++ new /\ Forall Q new.

(** The kinds one [processFrame] of copy [v] can log under [config]. *)
Definition mayLog (v : Version) (config : AppConfig) (t : EventType) : bool :=
  match t with
  | TALKING =>
      match v with
      | FirstVersion => true
      | LaterVersion _ => voiceActivityDetection config
      end
  | HAND_NEAR_FACE | SUSPICIOUS_HAND_MOVEMENT | SUSPICIOUS_HAND_ACTIVITY =>
      match v with FirstVersion => false | LaterVersion _ => true end
  | HAND_ERROR => false
  | LOOKING_AWAY | FACE_MISSING | MULTIPLE_FACES => true
  end.

(** An event as [logEvent] builds it under [config] on host [h]. *)
Definition builtBy (config : AppConfig) (h : Host) (e : IntegrityEvent) : Prop :=
  screenshotUrl e = screenshotOf config h.

(** The multiplier and the recovery of the score update. *)
Definition multiplierOf (mode : ExamMode) : R :=
  match mode with
  | Coding => 1.2
  | Written => 0.8
  | MCQ => 1
  end.

Definition recoveryOf (deduction : R) : R :=
  if Rgtb deduction 0 then 0 else 0.05.

Definition clamp (s : R) : R := Math_max 0 (Math_min 100 s).

(** The score update in the words of the specification: the net delta,
    recovery minus deduction, is scaled by the multiplier. *)
Definition netDeltaScaled (config : AppConfig) (deduction prev : R) : R :=
  clamp (prev + (recoveryOf deduction - deduction) * multiplierOf (examMode config)).

(** A hand landmark set the guard of the later hand loop rejects. *)
Definition malformedHand (landmarks : option Landmarks) : Prop :=
  match landmarks with
  | None => True
  | Some l => (List.length l < 21)%nat
  end.

(** The event [logEvent] builds in world [w], and the world it leaves when
    the debounce lets it through. *)
Definition eventAt (config : AppConfig) (w : World)
    (type : EventType) (severity : Severity) (description : string)
    : IntegrityEvent :=
  mkIntegrityEvent (uuids (host w)) (nextNow w) type severity description
                   (screenshotOf config (host w)).

Definition logged (config : AppConfig)
    (type : EventType) (severity : Severity) (description : string) (w : World)
    : World :=
  mkWorld (score w)
          (events w ++ [eventAt config w type severity description])
          (status w)
          (with_lastEventTime (nextNow w) (refs w))
          (with_uuids (S (uuids (host w)))
             (with_ticks (S (ticks (host w))) (host w))).

(** What the analysis of one frame ([analyzeFrame]) of copy [v] under
    [config] may have done to the world since [w0]. *)
Record frameStep (v : Version) (config : AppConfig) (w0 w : World) : Prop :=
  mkFrameStep {
    fs_score : score w = score w0;
    fs_status : status w = status w0;
    fs_host : sameHost (host w0) (host w);
    fs_log : logInvariant w0 -> logInvariant w;
    fs_events :
      appended (fun e => builtBy config (host w0) e /\ mayLog v config (type e) = true)
               w0 w
  }.

(** The flags of the status that the face logic sets. *)
Definition sameFaceFlags (s s' : DetectionStatus) : Prop :=
  faceDetected s' = faceDetected s /\ multipleFaces s' = multipleFaces s /\
  isLookingAway s' = isLookingAway s /\ isTalking s' = isTalking s.

(** The status the face logic computes from the faces of a frame. *)
Definition faceStatus (v : Version) (config : AppConfig) (faces : list Landmarks)
    : DetectionStatus :=
  match faces with
  | [] => INITIAL_STATUS
  | landmarks :: _ =>
      mkDetectionStatus true false
        (talkingCondition v config (calculateMouthOpenness landmarks))
        (lookingAwayCondition v config (calculateHeadPose landmarks))
        (1 <? List.length faces)%nat
        false
  end.

(** A block of the frame analysis run on locals [l]: the world has made a
    [frameStep], the status is [F] of the old one, and the deduction has not
    decreased. *)
Definition blockPost (v : Version) (config : AppConfig) (w0 : World)
    (F : DetectionStatus -> DetectionStatus) (l l' : Locals) (w' : World) : Prop :=
  frameStep v config w0 w' /\
  currentStatus l' = F (currentStatus l) /\
  deduction l <= deduction l'.

(** The same for the hand logic, which leaves the face flags alone. *)
Definition handPost (v : Version) (config : AppConfig) (w0 : World)
    (l l' : Locals) (w' : World) : Prop :=
  frameStep v config w0 w' /\
  sameFaceFlags (currentStatus l) (currentStatus l') /\
  deduction l <= deduction l'.

(** [processFrame] passes its guards: the canvas, the video and the 2D
    context are there. *)
Definition ready (h : Host) : Prop :=
  canvasRef h = true /\ videoRef h = true /\ getContext2d h = true.

(** [processFrame] of copy [v], run in [w], passed its guards and returned,
    leaving [w']. *)
Definition processed (v : Version) (config : AppConfig) (w w' : World) : Prop :=
  ready (host w) /\ processFrame v config w = (Normal tt, w').

(** The same, told by what the frame did on its way to the score update. *)
Definition frameDone (v : Version) (config : AppConfig) (w w' : World) : Prop :=
  exists l w1,
    analyzeFrame v config w = (Normal l, w1) /\
    frameStep v config w w1 /\
    sameFaceFlags
      (faceStatus v config (detectedFaces (latestFaceResults (refs w))))
      (currentStatus l) /\
    0 <= deduction l /\
    w' = with_score (scoreUpdater config (deduction l) (score w))
           (with_status (currentStatus l) w1).

(** A browser with everything mounted, whose clock advances by 500 ms from
    one [Date.now()] to the next. *)
Definition exampleHost : Host :=
  mkHost true true true true "data:image/jpeg;base64,"
         (fun n => 1700000000000 + 500 * Z.of_nat n)%Z 0 0.

(** A browser like [exampleHost] whose clock reads 1999 ms and then 2000 ms
    after its first reading. *)
Definition tightHost : Host :=
  mkHost true true true true "data:image/jpeg;base64,"
         (fun n => match n with
                   | O => 1700000000000
                   | 1%nat => 1700000001999
                   | _ => 1700000002000
                   end)%Z 0 0.

(** A browser like [exampleHost] whose clock advances by 1500 ms from one
    [Date.now()] to the next. *)
Definition slowHost : Host :=
  mkHost true true true true "data:image/jpeg;base64,"
         (fun n => 1700000000000 + 1500 * Z.of_nat n)%Z 0 0.

(** A landmark array of [n] points without holes, point [i] being [p i]. *)
Definition landmarksOf (p : nat -> Landmark) (n : nat) : Landmarks :=
  map (fun i => Some (p i)) (seq 0 n).

(** A face landmark array cut off after 200 points: the nose tip, the
    forehead, the chin and the lips are there, the cheeks (234, 454) are not.
    The lips are a tenth of the frame apart, the face is six tenths high. *)
Definition truncatedFacePoint (i : nat) : Landmark :=
  if (i =? 10)%nat then mkLandmark 0.5 0.2
  else if (i =? 13)%nat then mkLandmark 0.5 0.5
  else if (i =? 14)%nat then mkLandmark 0.5 0.6
  else if (i =? 152)%nat then mkLandmark 0.5 0.8
  else mkLandmark 0.5 0.5.

Definition truncatedFace : Landmarks := landmarksOf truncatedFacePoint 200.

(** A full face mesh (468 points) turned to the right: the cheeks at x = 0
    and x = 1, the nose tip at x = 0.8, so the yaw is 0.30; forehead and chin
    at y = 0 and y = 1, the nose half way, the lips closed. *)
Definition turnedFacePoint (i : nat) : Landmark :=
  if (i =? 1)%nat then mkLandmark 0.8 0.5
  else if (i =? 234)%nat then mkLandmark 0 0.5
  else if (i =? 454)%nat then mkLandmark 1 0.5
  else if (i =? 10)%nat then mkLandmark 0.5 0
  else if (i =? 152)%nat then mkLandmark 0.5 1
  else mkLandmark 0.5 0.7.

Definition turnedFace : Landmarks := landmarksOf turnedFacePoint 468.

(** The world in which the face detector has just delivered [faces]. *)
Definition seeing (faces : list Landmarks) (w : World) : World :=
  with_refs (with_latestFaceResults (Some (mkFaceResults (Some faces))) (refs w)) w.

(** The world in which the hand detector has just delivered [hands]. *)
Definition holding (hands : list (option Landmarks)) (w : World) : World :=
  with_refs (with_latestHandResults (Some (mkHandResults (Some hands))) (refs w)) w.

(** A hand landmark array of five points. *)
Definition shortHand : Landmarks := landmarksOf (fun _ => mkLandmark 0.5 0.5) 5.





(** What one callback under [config] may have done to the world since [w0]. *)
Record callbackStep (config : AppConfig) (w0 w : World) : Prop :=
  mkCallbackStep {
    cs_host : sameHost (host w0) (host w);
    cs_log : logInvariant w0 -> logInvariant w;
    cs_range : scoreInRange w0 -> scoreInRange w;
    cs_events : appended (builtBy config (host w0)) w0 w
  }.

(** ** Vocabulary of the further properties *)

(** [a] lies strictly between [b] and [c], whichever of the two is smaller. *)
Definition between (a b c : R) : Prop := Rmin b c < a < Rmax b c.

(** A full face mesh (468 points) turned so far to the right that the nose
    tip (x = 0.7) has passed the right cheek (x = 0.6); the left cheek at
    x = 0.4, forehead and chin at y = 0.2 and y = 0.8, the nose half way. *)
Definition profileFacePoint (i : nat) : Landmark :=
  if (i =? 1)%nat then mkLandmark 0.7 0.5
  else if (i =? 234)%nat then mkLandmark 0.4 0.5
  else if (i =? 454)%nat then mkLandmark 0.6 0.5
  else if (i =? 10)%nat then mkLandmark 0.5 0.2
  else if (i =? 152)%nat then mkLandmark 0.5 0.8
  else mkLandmark 0.5 0.6.

Definition profileFace : Landmarks := landmarksOf profileFacePoint 468.

(** No landmark is missing from the array. *)
Definition holeFree (landmarks : Landmarks) : bool :=
  forallb (fun e => match e with Some _ => true | None => false end) landmarks.

(** A hand as the detector delivers it: at least 21 landmarks, none
    missing. *)
Definition fullHand (landmarks : Landmarks) : bool :=
  (21 <=? List.length landmarks)%nat && holeFree landmarks.

(** The landmarks [recognizeGesture] reads: the five finger tips and the
    joint each one is compared with. *)
Definition gestureReads : list nat := [3; 4; 6; 8; 10; 12; 14; 16; 18; 20]%nat.

(** A finger is extended when its tip lies above the joint (a smaller y). *)
Definition fingerUp (landmarks : Landmarks) (tip joint : nat) : bool :=
  match at_ landmarks tip, at_ landmarks joint with
  | Some a, Some b => Rltb (lm_y a) (lm_y b)
  | _, _ => false
  end.

(** The tips of thumb and index finger are less than 0.1 apart. *)
Definition tipsClose (landmarks : Landmarks) : bool :=
  match at_ landmarks 4, at_ landmarks 8 with
  | Some a, Some b =>
      Rltb (sqrt ((lm_x a - lm_x b) ^ 2 + (lm_y a - lm_y b) ^ 2)) 0.1
  | _, _ => false
  end.

(** The gesture of each set of extended fingers. *)
Definition gestureTable (thumb index middle ring pinky close : bool)
    : handMeshUtils.GestureType :=
  match thumb, index, middle, ring, pinky with
  | true, true, true, true, true => OPEN_PALM
  | false, false, false, false, false => CLOSED_FIST
  | false, true, false, false, false => POINTING
  | false, true, true, false, false => PEACE_SIGN
  | true, false, false, false, false => THUMBS_UP
  | true, true, false, false, false => if close then OK_SIGN else UNKNOWN
  | _, _, _, _, _ => UNKNOWN
  end.

(** A closed hand of 21 coinciding landmarks. *)
Definition fist : Landmarks := landmarksOf (fun _ => mkLandmark 0.5 0.5) 21.

(** The refs that only the face logic writes: the three timers and the
    latest results of the two detectors. *)
Definition sameFaceRefs (r r' : Refs) : Prop :=
  missingFaceStartTime r' = missingFaceStartTime r /\
  lookingAwayStartTime r' = lookingAwayStartTime r /\
  talkingStartTime r' = talkingStartTime r /\
  latestFaceResults r' = latestFaceResults r /\
  latestHandResults r' = latestHandResults r.

(** The world after the fallback branch of the hand logic: a later copy
    reads the clock once more when no hand result has arrived yet. *)
Definition afterNoHands (v : Version) (handResults : option HandResults) (w : World)
    : World :=
  match v, handResults with
  | LaterVersion _, None => ticked w
  | _, _ => w
  end.

(** The events [logEvent] appends when called in [w] after a check that more
    than [quiet] ms have passed since the last logged event: the check reads
    the clock, and [logEvent] reads it again for its own debounce. *)
Definition loggedAfter (quiet : Z) (config : AppConfig) (w : World)
    (type : EventType) (severity : Severity) (description : string)
    : list IntegrityEvent :=
  if (quiet <? nextNow w - lastEventTime (refs w))%Z
     && (2000 <=? nextNow (ticked w) - lastEventTime (refs w))%Z
  then [eventAt config (ticked w) type severity description]
  else [].

(** What [previousHandLandmarks] holds at index [i] after the hands of a
    frame have been gone through, when it held [previous] before: the hand
    at [i] if it has 21 landmarks or more, and else what was there. *)
Definition storedHand (hands : list (option Landmarks))
    (previous : list (option Landmarks)) (i : nat) : option Landmarks :=
  match nth_error hands i with
  | Some (Some hand) =>
      if (List.length hand <? 21)%nat then arrayGet previous i else Some hand
  | _ => arrayGet previous i
  end.

(** The results of the detectors as they deliver them: the first face has
    its nose tip (landmark 1), every hand is there with 21 landmarks or more
    and no hole. *)
Definition hasNoseTip (faces : list Landmarks) : bool :=
  match faces with
  | face :: _ => match at_ face 1 with Some _ => true | None => false end
  | [] => true
  end.

Definition fullHands (hands : list (option Landmarks)) : bool :=
  forallb (fun e => match e with Some hand => fullHand hand | None => false end) hands.

Definition asDelivered (c : Callback) : bool :=
  match c with
  | faceMesh_onResults results => hasNoseTip (detectedFaces (Some results))
  | hands_onResults results => fullHands (detectedHands (Some results))
  | aiSuspicious _ | demoGazeDrift | demoGazeReset => true
  end.

(** Every hand kept from an earlier frame is a full hand. *)
Definition storedFull (previous : list (option Landmarks)) : bool :=
  forallb (fun e => match e with Some hand => fullHand hand | None => true end) previous.

(** A world whose stored detector results and stored hands are as the
    detectors deliver them. *)
Definition wellFormed (w : World) : Prop :=
  hasNoseTip (detectedFaces (latestFaceResults (refs w))) = true /\
  fullHands (detectedHands (latestHandResults (refs w))) = true /\
  storedFull (previousHandLandmarks (refs w)) = true.

(** What the hand loops need of the refs of [w0] to go on in [w]: the
    stored results are those of [w0], and the stored hands are full. *)
Definition keeps (w0 w : World) : Prop :=
  latestFaceResults (refs w) = latestFaceResults (refs w0) /\
  latestHandResults (refs w) = latestHandResults (refs w0) /\
  storedFull (previousHandLandmarks (refs w)) = true.

(** The string literal of an event kind, as [types.ts] and the calls of
    [logEvent] spell it. *)
Definition EventType_name (t : EventType) : string :=
  match t with
  | LOOKING_AWAY => "LOOKING_AWAY"
  | FACE_MISSING => "FACE_MISSING"
  | MULTIPLE_FACES => "MULTIPLE_FACES"
  | TALKING => "TALKING"
  | HAND_NEAR_FACE => "HAND_NEAR_FACE"
  | SUSPICIOUS_HAND_MOVEMENT => "SUSPICIOUS_HAND_MOVEMENT"
  | SUSPICIOUS_HAND_ACTIVITY => "SUSPICIOUS_HAND_ACTIVITY"
  | HAND_ERROR => "HAND_ERROR"
  end.

(** The event kinds copy [v] passes to [logEvent] somewhere. *)
Definition loggedKind (v : Version) (t : EventType) : bool :=
  match t with
  | LOOKING_AWAY | FACE_MISSING | MULTIPLE_FACES | TALKING => true
  | HAND_NEAR_FACE | SUSPICIOUS_HAND_MOVEMENT | SUSPICIOUS_HAND_ACTIVITY =>
      match v with FirstVersion => false | LaterVersion _ => true end
  | HAND_ERROR => false
  end.

(** * Reasoning about callbacks *)

Section WpRules.
  Context {A B : Type}.
  Variables (Q : A -> World -> Prop) (E : World -> Prop).

Lemma wp_ret (a : A) w : Q a w -> wp (ret a) Q E w.
  Proof. exact (fun H => H). Qed.

Lemma wp_bind (c : M B) (k : B -> M A) w :
    wp c (fun b => wp (k b) Q E) E w -> wp (bind c k) Q E w.
  Proof.
    unfold wp, bind. destruct (c w) as [[b|] w']; trivial.
  Qed.

Lemma wp_bind_inv (c : M B) (k : B -> M A) w :
    wp (bind c k) Q E w -> wp c (fun b => wp (k b) Q E) E w.
  Proof.
    unfold wp, bind. destruct (c w) as [[b|] w']; trivial.
  Qed.

Lemma wp_gets (f : World -> A) w : Q (f w) w -> wp (gets f) Q E w.
  Proof. exact (fun H => H). Qed.

Lemma wp_lift (c : Completion A) w :
    match c with Normal a => Q a w | Throw => E w end -> wp (lift c) Q E w.
  Proof. unfold wp, lift. destruct c; trivial. Qed.

Lemma wp_conseq (Q' : A -> World -> Prop) (E' : World -> Prop) (c : M A) w :
    wp c Q' E' w ->
    (forall a w', Q' a w' -> Q a w') -> (forall w', E' w' -> E w') ->
    wp c Q E w.
  Proof.
    unfold wp. destruct (c w) as [[a|] w']; auto.
  Qed.
End WpRules.

Lemma wp_modify (Q : unit -> World -> Prop) E (f : World -> World) w :
  Q tt (f w) -> wp (modify f) Q E w.
Proof. exact (fun H => H). Qed.

Lemma wp_modifyRefs (Q : unit -> World -> Prop) E (f : Refs -> Refs) w :
  Q tt (with_refs (f (refs w)) w) -> wp (modifyRefs f) Q E w.
Proof. exact (fun H => H). Qed.

Lemma wp_Date_now (Q : Z -> World -> Prop) E w :
  Q (nextNow w) (ticked w) -> wp Date_now Q E w.
Proof. exact (fun H => H). Qed.

Lemma wp_randomUUID (Q : nat -> World -> Prop) E w :
  Q (uuids (host w)) (with_host (with_uuids (S (uuids (host w))) (host w)) w) ->
  wp randomUUID Q E w.
Proof. exact (fun H => H). Qed.

(** One step of symbolic execution of a callback. *)
Ltac wp_step :=
  lazymatch goal with
  | |- wp (bind _ _) _ _ _ => apply wp_bind
  | |- wp (ret _) _ _ _ => apply wp_ret
  | |- wp (gets _) _ _ _ => apply wp_gets
  | |- wp (modifyRefs _) _ _ _ => apply wp_modifyRefs
  | |- wp (modify _) _ _ _ => apply wp_modify
  | |- wp (setEvents _) _ _ _ => apply wp_modify
  | |- wp (setStatus _) _ _ _ => apply wp_modify
  | |- wp (setScore _) _ _ _ => apply wp_modify
  | |- wp Date_now _ _ _ => apply wp_Date_now
  | |- wp randomUUID _ _ _ => apply wp_randomUUID
  | |- wp (lift _) _ _ _ => apply wp_lift
  | |- wp (if ?b then _ else _) _ _ _ => destruct b eqn:?
  | |- wp (match ?x with _ => _ end) _ _ _ => destruct x eqn:?
  end.

Ltac wp_steps := repeat (wp_step; cbv beta).

(** * Arithmetic of the score *)

Ltac Rcases :=
  repeat match goal with
  | |- context [Rlt_dec ?a ?b] => destruct (Rlt_dec a b)
  | |- context [Rle_dec ?a ?b] => destruct (Rle_dec a b)
  | |- context [Req_dec_T ?a ?b] => destruct (Req_dec_T a b)
  | H : context [Rlt_dec ?a ?b] |- _ => destruct (Rlt_dec a b)
  | H : context [Rle_dec ?a ?b] |- _ => destruct (Rle_dec a b)
  end.

Lemma Rltb_true a b : Rltb a b = true <-> a < b.
Proof. unfold Rltb. destruct (Rlt_dec a b); split; auto; discriminate. Qed.

Lemma Rltb_false a b : Rltb a b = false <-> b <= a.
Proof.
  unfold Rltb. destruct (Rlt_dec a b); split; intros; try discriminate; try lra; auto.
Qed.

Lemma clamp_range s : 0 <= clamp s <= 100.
Proof.
  unfold clamp, Math_max, Math_min, Rmax, Rmin. Rcases; lra.
Qed.

Lemma clamp_id s : 0 <= s <= 100 -> clamp s = s.
Proof.
  unfold clamp, Math_max, Math_min, Rmax, Rmin. Rcases; lra.
Qed.

Lemma clamp_above s : 100 <= s -> clamp s = 100.
Proof.
  unfold clamp, Math_max, Math_min, Rmax, Rmin. Rcases; lra.
Qed.

Lemma clamp_mono a b : a <= b -> clamp a <= clamp b.
Proof.
  unfold clamp, Math_max, Math_min, Rmax, Rmin. Rcases; lra.
Qed.

Lemma scoreUpdater_unfold config d s :
  scoreUpdater config d s =
  clamp (s - d * multiplierOf (examMode config) + recoveryOf d).
Proof.
  unfold scoreUpdater, recoveryOf, multiplierOf.
  destruct (examMode config); reflexivity.
Qed.

Lemma scoreUpdater_range config d s : 0 <= scoreUpdater config d s <= 100.
Proof. rewrite scoreUpdater_unfold. apply clamp_range. Qed.

Lemma penalty_range s : 0 <= s <= 100 -> 0 <= penalty s <= 100.
Proof.
  unfold penalty, Math_max, Rmax. Rcases; lra.
Qed.

Lemma multiplierOf_pos mode : 0 < multiplierOf mode.
Proof. destruct mode; simpl; lra. Qed.

(** * The log *)

Lemma spaced_mono b b' l : (b <= b')%Z -> spaced b l -> spaced b' l.
Proof.
  destruct l as [|e older]; simpl; trivial.
  intros Hb [He Hrest]. split; [lia | exact Hrest].
Qed.

Lemma spaced_bound b l : spaced b l -> Forall (fun e => (timestamp e <= b)%Z) l.
Proof.
  revert b. induction l as [|e older IH]; intros b H; constructor.
  - apply H.
  - destruct H as [He Hrest]. apply IH. eapply spaced_mono; [|exact Hrest]. lia.
Qed.

Lemma chronological_snoc log e :
  chronological log ->
  Forall (fun e' => (timestamp e' <= timestamp e)%Z) log ->
  chronological (log ++ [e]).
Proof.
  intros Hlog Hall i j ei ej Hij Hi Hj.
  assert (Hjlen : (j < List.length (log ++ [e]))%nat)
    by (apply nth_error_Some; congruence).
  rewrite length_app in Hjlen. simpl in Hjlen.
  assert (Hi' : nth_error log i = Some ei)
    by (rewrite nth_error_app1 in Hi; [exact Hi | lia]).
  destruct (Nat.eq_dec j (List.length log)) as [->|Hne].
  - rewrite nth_error_app2, Nat.sub_diag in Hj by lia. simpl in Hj.
    injection Hj as <-.
    rewrite Forall_forall in Hall. apply Hall. eapply nth_error_In; eassumption.
  - rewrite nth_error_app1 in Hj by lia. apply (Hlog i j ei ej); assumption.
Qed.

Lemma spaced_chronological log b : spaced b (rev log) -> chronological log.
Proof.
  revert b. induction log as [|e log IH] using rev_ind; intros b H.
  - intros i j ei ej _ Hi. destruct i; discriminate.
  - rewrite rev_app_distr in H. simpl in H. destruct H as [_ Hrest].
    apply chronological_snoc.
    + eapply IH; eassumption.
    + apply spaced_bound in Hrest.
      rewrite Forall_forall in *. intros e' He'.
      specialize (Hrest e'). rewrite <- in_rev in Hrest.
      specialize (Hrest He'). simpl in Hrest. lia.
Qed.

Lemma logInvariant_chronological w : logInvariant w -> chronological (events w).
Proof. apply spaced_chronological. Qed.

Lemma logInvariant_initial h : logInvariant (initialWorld h).
Proof. exact I. Qed.

Lemma appended_refl (Q : IntegrityEvent -> Prop) w w' :
  events w' = events w -> appended Q w w'.
Proof. intros H. exists []. rewrite app_nil_r. auto. Qed.

Lemma appended_trans (Q : IntegrityEvent -> Prop) w1 w2 w3 :
  appended Q w1 w2 -> appended Q w2 w3 -> appended Q w1 w3.
Proof.
  intros [l1 [E1 F1]] [l2 [E2 F2]]. exists (l1 ++ l2). split.
  - rewrite E2, E1, app_assoc. reflexivity.
  - apply Forall_app. auto.
Qed.

Lemma appended_weaken (Q Q' : IntegrityEvent -> Prop) w w' :
  (forall e, Q e -> Q' e) -> appended Q w w' -> appended Q' w w'.
Proof.
  intros HQ [l [E F]]. exists l. split; [exact E|].
  eapply Forall_impl; eauto.
Qed.

Lemma sameHost_refl h : sameHost h h.
Proof. repeat split. Qed.

Lemma sameHost_trans h1 h2 h3 : sameHost h1 h2 -> sameHost h2 h3 -> sameHost h1 h3.
Proof.
  unfold sameHost. intros (a1 & a2 & a3 & a4 & a5 & a6) (b1 & b2 & b3 & b4 & b5 & b6).
  repeat split; congruence.
Qed.

Lemma sameHost_screenshotOf config h h' :
  sameHost h h' -> screenshotOf config h' = screenshotOf config h.
Proof.
  unfold sameHost, screenshotOf. intros (-> & -> & _ & -> & -> & _). reflexivity.
Qed.

(** * logEvent and captureScreenshot *)

Lemma captureScreenshot_eq config w :
  captureScreenshot config w = (Normal (screenshotOf config (host w)), w).
Proof.
  unfold captureScreenshot, screenshotOf, bind, gets, ret.
  destruct (privacyMode config), (canvasRef (host w)), (videoRef (host w)),
           (tempGetContext2d (host w)); reflexivity.
Qed.

Lemma logEvent_eq config t s d w :
  logEvent config t s d w =
  (Normal tt,
   if (nextNow w - lastEventTime (refs w) <? 2000)%Z then ticked w
   else logged config t s d w).
Proof.
  unfold logEvent, bind at 1 2. unfold Date_now, gets, nextNow, ticked.
  cbv beta iota zeta.
  destruct (_ <? 2000)%Z; [reflexivity|].
  unfold bind, modifyRefs, modify, randomUUID, setEvents, modify.
  rewrite captureScreenshot_eq. reflexivity.
Qed.

Lemma wp_logEvent (Q : unit -> World -> Prop) E config t s d w :
  ((nextNow w - lastEventTime (refs w) < 2000)%Z -> Q tt (ticked w)) ->
  ((2000 <= nextNow w - lastEventTime (refs w))%Z -> Q tt (logged config t s d w)) ->
  wp (logEvent config t s d) Q E w.
Proof.
  intros Hskip Hlog. unfold wp. rewrite logEvent_eq.
  destruct (Z.ltb_spec (nextNow w - lastEventTime (refs w)) 2000); auto.
Qed.

Lemma logInvariant_logged config t s d w :
  (2000 <= nextNow w - lastEventTime (refs w))%Z ->
  logInvariant w -> logInvariant (logged config t s d w).
Proof.
  unfold logInvariant. intros Hgap Hinv. cbn.
  rewrite rev_app_distr. cbn. split; [lia|].
  eapply spaced_mono; [|exact Hinv]. lia.
Qed.

(** * What a frame may do *)

Section FrameSteps.
  Variables (v : Version) (config : AppConfig) (w0 : World).

Lemma frameStep_refl : frameStep v config w0 w0.
  Proof.
    constructor; auto using sameHost_refl.
    apply appended_refl. reflexivity.
  Qed.

  (** A write that leaves the score, the status, the log and
      [lastEventTime] alone. *)
Lemma frameStep_quiet w w' :
    frameStep v config w0 w ->
    score w' = score w -> status w' = status w -> events w' = events w ->
    lastEventTime (refs w') = lastEventTime (refs w) ->
    sameHost (host w) (host w') ->
    frameStep v config w0 w'.
  Proof.
    intros [Hs Hst Hh Hl [new [He Hn]]] Es Est Ee El Eh.
    constructor; try congruence.
    - eapply sameHost_trans; eassumption.
    - intros H0. specialize (Hl H0). unfold logInvariant in *. congruence.
    - exists new. split; [congruence | exact Hn].
  Qed.

Lemma frameStep_ticked w : frameStep v config w0 w -> frameStep v config w0 (ticked w).
  Proof.
    intros H. eapply frameStep_quiet; eauto; repeat split.
  Qed.

Lemma frameStep_refs w (r : Refs) :
    lastEventTime r = lastEventTime (refs w) ->
    frameStep v config w0 w -> frameStep v config w0 (with_refs r w).
  Proof.
    intros Hr H. eapply frameStep_quiet; eauto. apply sameHost_refl.
  Qed.

Lemma frameStep_logged w t s d :
    mayLog v config t = true ->
    (2000 <= nextNow w - lastEventTime (refs w))%Z ->
    frameStep v config w0 w -> frameStep v config w0 (logged config t s d w).
  Proof.
    intros Hk Hgap [Hs Hst Hh Hl [new [He Hn]]].
    constructor.
    - exact Hs.
    - exact Hst.
    - eapply sameHost_trans; [exact Hh|]. repeat split.
    - intros H0. apply logInvariant_logged; auto.
    - exists (new ++ [eventAt config w t s d]). split.
      + cbn. rewrite He, app_assoc. reflexivity.
      + apply Forall_app. split; [exact Hn|]. constructor; [|constructor].
        split; [|exact Hk]. unfold builtBy. cbn.
        apply sameHost_screenshotOf. exact Hh.
  Qed.

Lemma logEvent_frameStep w t s d :
    mayLog v config t = true ->
    frameStep v config w0 w ->
    wp (logEvent config t s d) (fun _ => frameStep v config w0) (fun _ => False) w.
  Proof.
    intros Hk H. apply wp_logEvent; intros.
    - apply frameStep_ticked, H.
    - apply frameStep_logged; assumption.
  Qed.
End FrameSteps.

Create HintDb frame.
#[local] Hint Resolve frameStep_ticked frameStep_logged frameStep_refl : frame.
#[local] Hint Extern 1 (frameStep _ _ _ (with_refs _ _)) =>
  apply frameStep_refs; [reflexivity|] : frame.

Ltac wp_go :=
  repeat first
    [ wp_step; cbv beta
    | match goal with
      | |- wp (logEvent _ _ _ _) _ _ _ => apply wp_logEvent; intros
      end ].

Ltac block_leaf :=
  match goal with
  | |- blockPost _ _ _ _ _ _ _ =>
      split; [eauto 6 with frame | split; [reflexivity | cbn; lra]]
  end.

Section Blocks.
  Variables (v : Version) (config : AppConfig) (w0 : World).

Lemma multipleFacesBlock_spec faces l w :
    frameStep v config w0 w ->
    wp (multipleFacesBlock config faces l)
       (blockPost v config w0
          (if (1 <? List.length faces)%nat then with_multipleFaces true
           else fun s => s) l)
       (fun _ => False) w.
  Proof.
    intros H. unfold multipleFacesBlock.
    destruct (1 <? List.length faces)%nat; wp_go; block_leaf.
  Qed.

Lemma lookingAwayBlock_spec landmarks l w :
    frameStep v config w0 w ->
    wp (lookingAwayBlock v config landmarks l)
       (blockPost v config w0
          (if lookingAwayCondition v config (calculateHeadPose landmarks)
           then with_isLookingAway true else fun s => s) l)
       (fun _ => False) w.
  Proof.
    intros H. unfold lookingAwayBlock.
    destruct (lookingAwayCondition _ _ _); wp_go; block_leaf.
  Qed.

Lemma talkingCondition_mayLog m :
    talkingCondition v config m = true -> mayLog v config TALKING = true.
  Proof.
    destruct v as [|copy]; simpl; trivial.
    intros H. apply andb_true_iff in H. apply H.
  Qed.

Lemma talkingBlock_spec landmarks l w :
    frameStep v config w0 w ->
    wp (talkingBlock v config landmarks l)
       (blockPost v config w0
          (if talkingCondition v config (calculateMouthOpenness landmarks)
           then with_isTalking true else fun s => s) l)
       (fun _ => False) w.
  Proof.
    intros H. unfold talkingBlock.
    destruct (talkingCondition _ _ _) eqn:Htalk; wp_go; block_leaf.
    apply frameStep_logged; eauto using talkingCondition_mayLog with frame.
  Qed.

Lemma noFaceBlock_spec l w :
    frameStep v config w0 w ->
    wp (noFaceBlock config l) (blockPost v config w0 (fun s => s) l)
       (fun _ => False) w.
  Proof.
    intros H. unfold noFaceBlock. wp_go; block_leaf.
  Qed.
End Blocks.

Ltac hand_leaf :=
  match goal with
  | |- handPost _ _ _ _ _ _ =>
      split; [eauto 6 with frame | split; [repeat split | cbn; lra]]
  end.

Section FaceLogic.
  Variables (v : Version) (config : AppConfig) (w0 : World).

Lemma faceLogic_spec faceResults w :
    frameStep v config w0 w ->
    wp (faceLogic v config faceResults (mkLocals INITIAL_STATUS 0))
       (fun l' w' =>
          frameStep v config w0 w' /\
          currentStatus l' = faceStatus v config (detectedFaces faceResults) /\
          0 <= deduction l')
       (fun _ => False) w.
  Proof.
    intros H. unfold faceLogic, faceStatus.
    destruct (detectedFaces faceResults) as [|landmarks others] eqn:Hfaces.
    - eapply wp_conseq; [apply noFaceBlock_spec; eassumption | | trivial].
      cbv beta. intros l' w' (Hstep & Hstatus & Hded). auto.
    - apply wp_bind.
      eapply wp_conseq; [apply multipleFacesBlock_spec; eassumption | | trivial].
      cbv beta. intros l1 w1 (H1 & S1 & D1).
      apply wp_bind.
      eapply wp_conseq; [apply lookingAwayBlock_spec; eassumption | | trivial].
      cbv beta. intros l2 w2 (H2 & S2 & D2).
      apply wp_bind.
      eapply wp_conseq; [apply talkingBlock_spec; eassumption | | trivial].
      cbv beta. intros l3 w3 (H3 & S3 & D3).
      wp_go. split; [eauto with frame|]. split.
      + rewrite S3, S2, S1.
        destruct (talkingCondition _ _ _), (lookingAwayCondition _ _ _),
                 (1 <? _)%nat; reflexivity.
      + cbn in D1. lra.
  Qed.

Lemma firstHandBody_spec faceResults landmarks l w :
    frameStep v config w0 w ->
    wp (firstHandBody faceResults landmarks l)
       (handPost v config w0 l) (frameStep v config w0) w.
  Proof.
    intros H. unfold firstHandBody.
    destruct (faceDetected (currentStatus l)); [|wp_go; hand_leaf].
    destruct (detectedFaces faceResults); [wp_go; hand_leaf|].
    apply wp_bind, wp_lift.
    destruct (calculateHandFaceDistance _ _); [|exact H].
    wp_go; hand_leaf.
  Qed.

Lemma handPost_trans l1 l2 l3 w :
    sameFaceFlags (currentStatus l1) (currentStatus l2) ->
    deduction l1 <= deduction l2 ->
    handPost v config w0 l2 l3 w -> handPost v config w0 l1 l3 w.
  Proof.
    unfold handPost, sameFaceFlags.
    intros (a1 & a2 & a3 & a4) D (H & (b1 & b2 & b3 & b4) & D').
    split; [exact H|]. split; [|lra]. repeat split; congruence.
  Qed.

Lemma firstHandLoop_spec faceResults hands l w :
    frameStep v config w0 w ->
    wp (firstHandLoop faceResults hands l)
       (handPost v config w0 l) (frameStep v config w0) w.
  Proof.
    revert l w. induction hands as [|landmarks rest IH]; intros l w H; simpl.
    - wp_go; hand_leaf.
    - apply wp_bind.
      eapply wp_conseq; [apply firstHandBody_spec; eassumption | | trivial].
      cbv beta. intros l1 w1 (H1 & F1 & D1).
      eapply wp_conseq; [apply IH; eassumption | | trivial].
      cbv beta. intros l2 w2 Hpost. eapply handPost_trans; eassumption.
  Qed.
End FaceLogic.

Section LaterHands.
  Variables (copy : Later) (config : AppConfig) (w0 : World).

Lemma handEvent_frameStep handAnalysis w :
    frameStep (LaterVersion copy) config w0 w ->
    wp (handEvent config handAnalysis)
       (fun _ => frameStep (LaterVersion copy) config w0) (fun _ => False) w.
  Proof.
    intros H. unfold handEvent.
    wp_go; eauto with frame.
  Qed.

Lemma laterHandBody_spec faceResults handIndex landmarks l w :
    frameStep (LaterVersion copy) config w0 w ->
    wp (laterHandBody config faceResults handIndex landmarks l)
       (handPost (LaterVersion copy) config w0 l)
       (frameStep (LaterVersion copy) config w0) w.
  Proof.
    intros H. unfold laterHandBody.
    destruct landmarks as [landmarks|]; [|wp_go; hand_leaf].
    destruct (_ <? 21)%nat; [wp_go; hand_leaf|].
    apply wp_bind, wp_gets. apply wp_bind, wp_lift.
    destruct (analyzeHandActivity _ _ _) as [handAnalysis|]; [|exact H].
    apply wp_bind.
    destruct (suspiciousActivity handAnalysis).
    - apply wp_bind, wp_Date_now. apply wp_bind, wp_gets.
      destruct (3000 <? _)%Z.
      + apply wp_bind.
        eapply wp_conseq;
          [apply handEvent_frameStep; eauto with frame | | intros ? []].
        cbv beta. intros [] w1 H1.
        wp_go; destruct (isNearFace handAnalysis); hand_leaf.
      + wp_go; destruct (isNearFace handAnalysis); hand_leaf.
    - wp_go; destruct (isNearFace handAnalysis); hand_leaf.
  Qed.

Lemma laterHandLoop_spec faceResults hands handIndex l w :
    frameStep (LaterVersion copy) config w0 w ->
    wp (laterHandLoop config faceResults handIndex hands l)
       (handPost (LaterVersion copy) config w0 l)
       (frameStep (LaterVersion copy) config w0) w.
  Proof.
    revert handIndex l w.
    induction hands as [|landmarks rest IH]; intros handIndex l w H; simpl.
    - wp_go; hand_leaf.
    - apply wp_bind.
      eapply wp_conseq; [apply laterHandBody_spec; eassumption | | trivial].
      cbv beta. intros l1 w1 (H1 & F1 & D1).
      eapply wp_conseq; [apply IH; eassumption | | trivial].
      cbv beta. intros l2 w2 Hpost. eapply handPost_trans; eassumption.
  Qed.
End LaterHands.

Lemma handLogic_spec v config w0 faceResults handResults l w :
  frameStep v config w0 w ->
  wp (handLogic v config faceResults handResults l)
     (handPost v config w0 l) (frameStep v config w0) w.
Proof.
  intros H. unfold handLogic.
  destruct (detectedHands handResults) as [|hand rest].
  - destruct v, handResults; wp_go; hand_leaf.
  - destruct v as [|copy].
    + eapply wp_conseq; [apply firstHandLoop_spec; eassumption | | trivial].
      cbv beta. intros l' w' Hpost.
      eapply handPost_trans; [| |exact Hpost]; [repeat split | cbn; lra].
    + eapply wp_conseq; [apply laterHandLoop_spec; eassumption | | trivial].
      cbv beta. intros l' w' Hpost.
      eapply handPost_trans; [| |exact Hpost]; [repeat split | cbn; lra].
Qed.

Lemma analyzeFrame_spec v config w :
  wp (analyzeFrame v config)
     (fun l w' =>
        frameStep v config w w' /\
        sameFaceFlags
          (faceStatus v config (detectedFaces (latestFaceResults (refs w))))
          (currentStatus l) /\
        0 <= deduction l)
     (frameStep v config w) w.
Proof.
  unfold analyzeFrame. apply wp_bind, wp_gets. apply wp_bind, wp_gets.
  apply wp_bind.
  eapply wp_conseq;
    [apply faceLogic_spec; apply frameStep_refl | | intros ? []].
  cbv beta. intros l1 w1 (H1 & S1 & D1).
  eapply wp_conseq; [apply handLogic_spec; eassumption | | trivial].
  cbv beta. intros l2 w2 (H2 & F2 & D2).
  split; [exact H2|]. split; [|lra]. rewrite <- S1. exact F2.
Qed.

Lemma processFrame_spec v config w :
  wp (processFrame v config)
     (fun _ w' =>
        (~ ready (host w) /\ w' = w) \/ (ready (host w) /\ frameDone v config w w'))
     (fun w' => ready (host w) /\ frameStep v config w w') w.
Proof.
  unfold processFrame. apply wp_bind, wp_gets.
  destruct (canvasRef (host w)) eqn:Hc; simpl;
    [|apply wp_ret; left; split; [intros (? & _); congruence | reflexivity]].
  destruct (videoRef (host w)) eqn:Hv; simpl;
    [|apply wp_ret; left; split; [intros (_ & ? & _); congruence | reflexivity]].
  destruct (getContext2d (host w)) eqn:Hg; simpl;
    [|apply wp_ret; left; split; [intros (_ & _ & ?); congruence | reflexivity]].
  assert (Hready : ready (host w)) by (repeat split; assumption).
  apply wp_bind.
  pose proof (analyzeFrame_spec v config w) as Hspec.
  unfold wp in *. destruct (analyzeFrame v config w) as [[l|] w1] eqn:Hrun.
  - destruct Hspec as (H1 & F1 & D1).
    cbv [bind setStatus setScore modify]. cbv beta iota.
    right. split; [exact Hready|].
    exists l, w1.
    split; [exact Hrun|]. split; [exact H1|]. split; [exact F1|].
    split; [exact D1|].
    cbn. rewrite (fs_score H1). reflexivity.
  - auto.
Qed.

Lemma processed_frameDone v config w w' :
  processed v config w w' -> frameDone v config w w'.
Proof.
  intros [Hready Hrun].
  pose proof (processFrame_spec v config w) as H. unfold wp in H.
  rewrite Hrun in H. destruct H as [[Hn _] | [_ H]]; [contradiction | exact H].
Qed.

Lemma processFrame_done v config w l w1 :
  ready (host w) ->
  analyzeFrame v config w = (Normal l, w1) ->
  0 <= deduction l /\
  snd (processFrame v config w) =
    with_score (scoreUpdater config (deduction l) (score w))
      (with_status (currentStatus l) w1).
Proof.
  intros Hready Hrun.
  pose proof (processFrame_spec v config w) as H. unfold wp in H.
  destruct (processFrame v config w) as [[[]|] w'] eqn:Hpf; cbn.
  - destruct H as [[Hn _] | [_ (l' & w1' & Hrun' & _ & _ & Hd & ->)]].
    + contradiction.
    + rewrite Hrun in Hrun'. injection Hrun' as <- <-. auto.
  - exfalso. unfold processFrame, bind, gets in Hpf.
    destruct Hready as (Hc & Hv & Hg). rewrite Hc, Hv, Hg in Hpf.
    cbn [negb orb] in Hpf. rewrite Hrun in Hpf. discriminate.
Qed.

Lemma processed_faceStatus v config w w' :
  processed v config w w' ->
  sameFaceFlags (faceStatus v config (detectedFaces (latestFaceResults (refs w))))
                (status w').
Proof.
  intros Hdone.
  destruct (processed_frameDone Hdone) as (l & w1 & _ & _ & Hflags & _ & ->).
  exact Hflags.
Qed.

(** Without hands in the frame nothing can throw. *)
Lemma processFrame_without_hands v config w :
  ready (host w) ->
  detectedHands (latestHandResults (refs w)) = [] ->
  exists w', processed v config w w'.
Proof.
  intros Hready Hhands.
  assert (H : wp (analyzeFrame v config) (fun _ _ => True) (fun _ => False) w).
  { unfold analyzeFrame. apply wp_bind, wp_gets. apply wp_bind, wp_gets.
    apply wp_bind.
    eapply wp_conseq;
      [apply (@faceLogic_spec v config w); apply frameStep_refl | | intros ? []].
    cbv beta. intros l1 w1 _.
    unfold handLogic. rewrite Hhands.
    destruct v, (latestHandResults (refs w)); wp_go; exact I. }
  unfold wp in H. unfold processed, processFrame, bind, gets.
  destruct Hready as (Hc & Hv & Hg). rewrite Hc, Hv, Hg. cbn [negb orb].
  destruct (analyzeFrame v config w) as [[l|] w1]; [|contradiction].
  eexists. split; [repeat split; assumption | reflexivity].
Qed.

(** * What a callback may do *)

Lemma callbackStep_refl config w : callbackStep config w w.
Proof.
  constructor; auto using sameHost_refl. apply appended_refl. reflexivity.
Qed.

Lemma callbackStep_of_frameStep v config w w' :
  frameStep v config w w' -> callbackStep config w w'.
Proof.
  intros [Hs Hst Hh Hl He]. constructor; trivial.
  - unfold scoreInRange. rewrite Hs. trivial.
  - eapply appended_weaken; [|exact He]. intros e [Hb _]. exact Hb.
Qed.

(** A write to the score or to the status after a [callbackStep]. *)
Lemma callbackStep_state config w0 w (s : R) (st : DetectionStatus) :
  callbackStep config w0 w ->
  (scoreInRange w0 -> 0 <= s <= 100) ->
  callbackStep config w0 (with_score s (with_status st w)).
Proof.
  intros [Hh Hl Hr He] Hs. constructor; trivial.
Qed.

Lemma callbackStep_of_frameDone v config w w' :
  frameDone v config w w' -> callbackStep config w w'.
Proof.
  intros (l & w1 & _ & H1 & _ & _ & ->).
  apply callbackStep_state.
  - eapply callbackStep_of_frameStep; eassumption.
  - intros _. apply scoreUpdater_range.
Qed.

Lemma callbackStep_logEvent config t s d w :
  callbackStep config w (snd (logEvent config t s d w)).
Proof.
  rewrite logEvent_eq. cbn.
  destruct (Z.ltb_spec (nextNow w - lastEventTime (refs w)) 2000).
  - constructor; auto. + repeat split. + apply appended_refl. reflexivity.
  - constructor; auto.
    + repeat split.
    + apply logInvariant_logged. assumption.
    + exists [eventAt config w t s d]. split; [reflexivity|].
      constructor; [reflexivity | constructor].
Qed.

Lemma callbackStep_processFrame v config w :
  callbackStep config w (snd (processFrame v config w)).
Proof.
  pose proof (processFrame_spec v config w) as H. unfold wp in H.
  destruct (processFrame v config w) as [[[]|] w']; cbn.
  - destruct H as [[_ ->] | [_ H]].
    + apply callbackStep_refl.
    + eapply callbackStep_of_frameDone; eassumption.
  - eapply callbackStep_of_frameStep. apply H.
Qed.

(** Storing the latest results of a detector before the frame is processed. *)
Lemma callbackStep_latest config w r w' :
  lastEventTime r = lastEventTime (refs w) ->
  callbackStep config (with_refs r w) w' -> callbackStep config w w'.
Proof.
  intros Hr [Hh Hl Hs He]. constructor; trivial.
  intros H. apply Hl. unfold logInvariant in *. cbn. rewrite Hr. exact H.
Qed.

Lemma callbackStep_dispatch v config c w :
  callbackStep config w (snd (dispatch v config c w)).
Proof.
  destruct c as [results | results | message | | ]; unfold dispatch.
  - unfold bind, modifyRefs, modify.
    eapply callbackStep_latest; [|apply callbackStep_processFrame]. reflexivity.
  - unfold bind, modifyRefs, modify.
    eapply callbackStep_latest; [|apply callbackStep_processFrame]. reflexivity.
  - destruct v; [|apply callbackStep_refl].
    unfold bind. pose proof (callbackStep_logEvent config LOOKING_AWAY HIGH
                               ("AI Flag: " ++ message) w) as H.
    rewrite logEvent_eq in *. cbn in *.
    destruct H as [Hh Hl Hr He]. constructor; trivial.
    intros H0. apply penalty_range. apply Hr, H0.
  - destruct (demoMode config); [|apply callbackStep_refl].
    unfold bind. pose proof (callbackStep_logEvent config LOOKING_AWAY LOW
                               "Simulated: Gaze drift detected" w) as H.
    rewrite logEvent_eq in *. cbn in *.
    destruct H as [Hh Hl Hr He]. constructor; trivial.
    intros H0. apply penalty_range. apply Hr, H0.
  - cbn. constructor; auto using sameHost_refl. apply appended_refl. reflexivity.
Qed.

(** * Sessions *)

Lemma run_app v s1 s2 w : run v (s1 ++ s2) w = run v s2 (run v s1 w).
Proof.
  revert w. induction s1 as [|[config c] s1 IH]; intros w; simpl; auto.
Qed.

Lemma run_invariant v session w :
  scoreInRange w -> logInvariant w ->
  scoreInRange (run v session w) /\ logInvariant (run v session w) /\
  appended (fun _ => True) w (run v session w).
Proof.
  revert w. induction session as [|[config c] rest IH]; intros w Hs Hl; simpl.
  - split; [exact Hs|]. split; [exact Hl|]. apply appended_refl. reflexivity.
  - destruct (callbackStep_dispatch v config c w) as [Hh Hl' Hs' He].
    destruct (IH _ (Hs' Hs) (Hl' Hl)) as (A & B & C).
    split; [exact A|]. split; [exact B|].
    eapply appended_trans; [|exact C].
    eapply appended_weaken; [|exact He]. trivial.
Qed.

(** * The score stays within its bounds *)

(** C1.  Whatever the session -- any interleaving of face-result and
    hand-result callbacks (and of the AI and demo penalties), under any
    configurations, with frames that complete or throw -- the score is within
    [0, 100] after every callback, starting from the initial score of 100; and
    the update of a frame is the clamp [max(0, min(100, new value))]. *)
Theorem C1_score_within_bounds :
  forall (v : Version) (h : Host) (session : list (AppConfig * Callback)) (n : nat),
    0 <= score (run v (firstn n session) (initialWorld h)) <= 100 /\
    score (initialWorld h) = 100 /\
    (forall config deduction prev,
        scoreUpdater config deduction prev =
        Math_max 0 (Math_min 100
          (prev - deduction * multiplierOf (examMode config) + recoveryOf deduction))) /\
    (forall config w w',
        processed v config w w' ->
        exists deduction, score w' = scoreUpdater config deduction (score w)).
Proof.
  intros v h session n. split; [|split; [reflexivity|split]].
  - apply (run_invariant v (firstn n session) (w := initialWorld h)).
    + unfold scoreInRange. simpl. lra.
    + apply logInvariant_initial.
  - intros config d s. apply scoreUpdater_unfold.
  - intros config w w' Hdone.
    destruct (processed_frameDone Hdone) as (l & w1 & _ & _ & _ & _ & ->).
    exists (deduction l). reflexivity.
Qed.

(** * The log *)

(** C9.  In the log of any session the timestamp at position [i] is at most
    the timestamp at any later position [j]; and the log only grows at its
    end: after more callbacks it is the earlier log followed by new events. *)
Theorem C9_log_chronological_append_only :
  forall (v : Version) (h : Host) (earlier later : list (AppConfig * Callback)),
    let before := run v earlier (initialWorld h) in
    let after := run v (earlier ++ later) (initialWorld h) in
    (forall i j ei ej,
        (i < j)%nat ->
        nth_error (events after) i = Some ei ->
        nth_error (events after) j = Some ej ->
        (timestamp ei <= timestamp ej)%Z) /\
    (exists new, events after = events before ++ new).
Proof.
  intros v h earlier later before after.
  assert (H0 : scoreInRange (initialWorld h)) by (unfold scoreInRange; simpl; lra).
  pose proof (logInvariant_initial h) as L0.
  split.
  - destruct (run_invariant v (earlier ++ later) H0 L0) as (_ & Hlog & _).
    apply logInvariant_chronological. exact Hlog.
  - subst before after. rewrite run_app.
    destruct (run_invariant v earlier H0 L0) as (Hs & Hl & _).
    destruct (run_invariant v later Hs Hl) as (_ & _ & new & Hnew & _).
    exists new. exact Hnew.
Qed.

(** C3.  [logEvent] appends an event exactly when at least 2000 ms have
    passed since the last appended event, whatever the kinds, and then sets
    [lastEventTime] to the time of the new event; otherwise it leaves the log
    and [lastEventTime] as they are.  Hence, for two triggers less than
    2000 ms apart with nothing logged in between: at most one of them is
    appended; if the first is appended, the second is not; if the first is
    dropped, the second is appended exactly when it comes 2000 ms or more
    after the last appended event. *)
Theorem C3_global_debounce :
  forall config1 type1 severity1 description1
         config2 type2 severity2 description2 (w w2 : World),
    let w1 := snd (logEvent config1 type1 severity1 description1 w) in
    let w3 := snd (logEvent config2 type2 severity2 description2 w2) in
    let first := eventAt config1 w type1 severity1 description1 in
    let second := eventAt config2 w2 type2 severity2 description2 in
    let last := lastEventTime (refs w) in
    events w2 = events w1 ->
    lastEventTime (refs w2) = lastEventTime (refs w1) ->
    (nextNow w2 - nextNow w < 2000)%Z ->
    ((nextNow w - last < 2000)%Z ->
       events w1 = events w /\ lastEventTime (refs w1) = last) /\
    ((2000 <= nextNow w - last)%Z ->
       events w1 = events w ++ [first] /\ lastEventTime (refs w1) = nextNow w /\
       timestamp first = nextNow w /\ type first = type1) /\
    ((2000 <= nextNow w - last)%Z ->
       events w3 = events w ++ [first] /\ lastEventTime (refs w3) = nextNow w) /\
    ((nextNow w - last < 2000)%Z -> (2000 <= nextNow w2 - last)%Z ->
       events w3 = events w ++ [second] /\ lastEventTime (refs w3) = nextNow w2 /\
       timestamp second = nextNow w2 /\ type second = type2) /\
    ((nextNow w - last < 2000)%Z -> (nextNow w2 - last < 2000)%Z ->
       events w3 = events w /\ lastEventTime (refs w3) = last) /\
    (exists new, events w3 = events w ++ new /\ (List.length new <= 1)%nat).
Proof.
  intros config1 type1 severity1 description1 config2 type2 severity2 description2
         w w2 w1 w3 first second last Hev Hlast Hclose.
  subst w1 w3 last. rewrite !logEvent_eq in *. cbn [snd] in *.
  destruct (Z.ltb_spec (nextNow w - lastEventTime (refs w)) 2000) as [Hskip|Hlog].
  - change (events (ticked w)) with (events w) in Hev.
    change (lastEventTime (refs (ticked w))) with (lastEventTime (refs w)) in Hlast.
    rewrite Hlast.
    destruct (Z.ltb_spec (nextNow w2 - lastEventTime (refs w)) 2000) as [Hskip2|Hlog2].
    + change (events (ticked w2)) with (events w2).
      change (lastEventTime (refs (ticked w2))) with (lastEventTime (refs w2)).
      split; [intros _; split; reflexivity|]. split; [intros; lia|].
      split; [intros; lia|]. split; [intros; lia|].
      split; [intros _ _; split; assumption|].
      exists []. rewrite app_nil_r. split; [exact Hev | cbn; lia].
    + cbn [logged events refs lastEventTime with_lastEventTime].
      rewrite Hev.
      split; [intros _; split; reflexivity|]. split; [intros; lia|].
      split; [intros; lia|].
      split; [intros _ _; repeat split|]. split; [intros; lia|].
      exists [second]. split; [reflexivity | cbn; lia].
  - cbn in Hlast.
    assert (Hsecond : (nextNow w2 - lastEventTime (refs w2) <? 2000)%Z = true)
      by (apply Z.ltb_lt; lia).
    rewrite Hsecond. cbn.
    split; [intros; lia|]. split; [intros _; repeat split|].
    cbn [logged events] in Hev.
    split; [intros _; split; assumption|].
    split; [intros; lia|]. split; [intros; lia|].
    exists [first]. split; [exact Hev | cbn; lia].
Qed.

(** The two triggers of the written example: 500 ms apart, in a fresh
    session; only the first is in the log. *)
Lemma C3_global_debounce_witness :
  let w := initialWorld exampleHost in
  let w1 := snd (logEvent INITIAL_CONFIG LOOKING_AWAY MEDIUM "first" w) in
  let w3 := snd (logEvent INITIAL_CONFIG TALKING MEDIUM "second" w1) in
  (nextNow w1 - nextNow w = 500)%Z /\
  events w3 = [eventAt INITIAL_CONFIG w LOOKING_AWAY MEDIUM "first"].
Proof.
  intros w w1 w3. split; [reflexivity|].
  apply (C3_global_debounce INITIAL_CONFIG LOOKING_AWAY MEDIUM "first"
           INITIAL_CONFIG TALKING MEDIUM "second" w w1);
    [reflexivity | reflexivity | reflexivity | discriminate].
Defined.

(** Two triggers one millisecond apart of which only the second is
    appended.  An event has been logged at time t; a trigger at t + 1999 ms
    is dropped, the next one at t + 2000 ms is appended, so the log does not
    end with the event of the first trigger. *)
Lemma C3_counterexample :
  let w0 := snd (logEvent INITIAL_CONFIG MULTIPLE_FACES HIGH "earlier"
                   (initialWorld tightHost)) in
  let w1 := snd (logEvent INITIAL_CONFIG LOOKING_AWAY MEDIUM "first" w0) in
  let w2 := snd (logEvent INITIAL_CONFIG TALKING MEDIUM "second" w1) in
  (nextNow w1 - nextNow w0 = 1)%Z /\
  events w1 = events w0 /\
  events w2 = events w0 ++ [eventAt INITIAL_CONFIG w1 TALKING MEDIUM "second"] /\
  events w2 <> events w0 ++ [eventAt INITIAL_CONFIG w0 LOOKING_AWAY MEDIUM "first"].
Proof.
  intros w0 w1 w2.
  assert (E1 : events w1 = events w0) by reflexivity.
  assert (E2 : events w2 =
               events w0 ++ [eventAt INITIAL_CONFIG w1 TALKING MEDIUM "second"])
    by reflexivity.
  split; [reflexivity|]. split; [exact E1|]. split; [exact E2|].
  rewrite E2. intros H. apply app_inv_head in H. discriminate H.
Qed.

(** * Snapshots *)




(** * The score update *)

Lemma recoveryOf_zero : recoveryOf 0 = 0.05.
Proof. unfold recoveryOf, Rgtb, Rltb. Rcases; lra. Qed.

Lemma recoveryOf_pos d : 0 < d -> recoveryOf d = 0.
Proof. unfold recoveryOf, Rgtb, Rltb. Rcases; lra. Qed.

(** C2, as the code has it: the multiplier scales the deduction only, and
    the recovery is added as it is: the new score is
    [clamp (s - d * multiplier + r)], with multiplier 1.2 for Coding, 0.8 for
    Written and 1 for MCQ, and [r] = 0.05 when [d] is not positive, 0
    otherwise.  This is the scaled net delta of the specification whenever
    the deduction is positive or the mode is MCQ. *)
Theorem C2_deduction_scaled_recovery_added :
  forall (config : AppConfig) (d s : R),
    scoreUpdater config d s =
      clamp (s - d * multiplierOf (examMode config) + recoveryOf d) /\
    (multiplierOf Coding = 1.2 /\ multiplierOf Written = 0.8 /\ multiplierOf MCQ = 1) /\
    (recoveryOf 0 = 0.05 /\ (0 < d -> recoveryOf d = 0)) /\
    (0 < d \/ examMode config = MCQ ->
       scoreUpdater config d s = netDeltaScaled config d s) /\
    (forall v w w',
        processed v config w w' ->
        exists l w1, analyzeFrame v config w = (Normal l, w1) /\
                     score w' = scoreUpdater config (deduction l) (score w)).
Proof.
  intros config d s. split; [apply scoreUpdater_unfold|].
  split; [repeat split|].
  split; [split; [apply recoveryOf_zero | apply recoveryOf_pos]|].
  split.
  - intros H. rewrite scoreUpdater_unfold. unfold netDeltaScaled. f_equal.
    destruct H as [Hd | ->].
    + rewrite (recoveryOf_pos Hd). lra.
    + simpl. lra.
  - intros v w w' Hdone.
    destruct (processed_frameDone Hdone) as (l & w1 & Hrun & _ & _ & _ & ->).
    exists l, w1. split; [exact Hrun | reflexivity].
Qed.

(** C2, as the specification words it, fails: in Coding mode a frame
    without deduction (here the first frame of a session, no face in sight
    yet) raises a score of 50 to 50.05, where the scaled net delta would give
    50.06. *)
Lemma C2_counterexample :
  let coding := mkAppConfig true false Coding false true in
  let w := with_score 50 (initialWorld exampleHost) in
  score (snd (processFrame (LaterVersion Third) coding w)) = 50.05 /\
  scoreUpdater coding 0 50 = 50.05 /\
  netDeltaScaled coding 0 50 = 50.06 /\
  scoreUpdater coding 0 50 <> netDeltaScaled coding 0 50.
Proof.
  intros coding w.
  assert (A : scoreUpdater coding 0 50 = 50.05).
  { rewrite scoreUpdater_unfold, recoveryOf_zero. simpl.
    rewrite clamp_id; lra. }
  assert (B : netDeltaScaled coding 0 50 = 50.06).
  { unfold netDeltaScaled. rewrite recoveryOf_zero. simpl.
    rewrite clamp_id; lra. }
  split; [|split; [exact A|split; [exact B|rewrite A, B; lra]]].
  assert (Hready : ready (host w)) by (repeat split).
  destruct (@processFrame_done (LaterVersion Third) coding w
              (mkLocals INITIAL_STATUS 0)
              (snd (analyzeFrame (LaterVersion Third) coding w)) Hready eq_refl)
    as [_ Hw'].
  rewrite Hw'. exact A.
Qed.

(** C4.  On a frame whose analysis leaves a total deduction of 0 the score
    goes up by the recovery 0.05, capped at 100: it is [min(100, s + 0.05)],
    strictly above [s] while [s < 100].  The deduction of a frame is never
    negative, and when it is not 0 the update has no recovery term and the
    score does not go up. *)
Theorem C4_recovery_only_without_deduction :
  forall (v : Version) (config : AppConfig) (w w1 : World) (l : Locals),
    ready (host w) -> scoreInRange w ->
    analyzeFrame v config w = (Normal l, w1) ->
    let w' := snd (processFrame v config w) in
    0 <= deduction l /\
    (deduction l = 0 ->
       score w' = Math_min 100 (score w + 0.05) /\
       (score w < 100 -> score w < score w') /\
       (score w + 0.05 <= 100 -> score w' = score w + 0.05)) /\
    (deduction l <> 0 ->
       score w' = clamp (score w - deduction l * multiplierOf (examMode config)) /\
       score w' <= score w).
Proof.
  intros v config w w1 l Hready Hrange Hrun w'.
  destruct (@processFrame_done v config w l w1 Hready Hrun) as [Hd Hw']. subst w'.
  rewrite Hw'. cbn [score with_score]. unfold scoreInRange in Hrange.
  rewrite scoreUpdater_unfold.
  split; [exact Hd|]. split.
  - intros ->. rewrite recoveryOf_zero.
    replace (score w - 0 * multiplierOf (examMode config) + 0.05)
      with (score w + 0.05) by lra.
    unfold clamp, Math_max, Math_min, Rmax, Rmin.
    repeat split; Rcases; intros; lra.
  - intros Hne. assert (Hpos : 0 < deduction l) by lra.
    rewrite (recoveryOf_pos Hpos).
    replace (score w - deduction l * multiplierOf (examMode config) + 0)
      with (score w - deduction l * multiplierOf (examMode config)) by lra.
    split; [reflexivity|].
    pose proof (multiplierOf_pos (examMode config)) as Hm.
    rewrite <- (clamp_id Hrange) at 2. apply clamp_mono. nra.
Qed.

(** A first frame without a face, at a score of 50: nothing is deducted and
    the score becomes 50.05. *)
Lemma C4_recovery_only_without_deduction_witness :
  let w := with_score 50 (initialWorld exampleHost) in
  score (snd (processFrame FirstVersion INITIAL_CONFIG w)) = 50 + 0.05.
Proof.
  intros w.
  assert (Hready : ready (host w)) by (repeat split).
  assert (Hrange : scoreInRange w) by (unfold scoreInRange; simpl; lra).
  destruct (@C4_recovery_only_without_deduction FirstVersion INITIAL_CONFIG w
              (snd (analyzeFrame FirstVersion INITIAL_CONFIG w))
              (mkLocals INITIAL_STATUS 0) Hready Hrange eq_refl)
    as (_ & Hzero & _).
  apply Hzero; [reflexivity | simpl; lra].
Defined.

(** * Malformed face landmarks *)

Lemma at_landmarksOf p n i :
  at_ (landmarksOf p n) i = if (i <? n)%nat then Some (p i) else None.
Proof.
  unfold at_, landmarksOf. rewrite nth_error_map, nth_error_seq.
  destruct (i <? n)%nat; reflexivity.
Qed.

Lemma Math_hypot_vertical a b : a = 0 -> Math_hypot a b = Rabs b.
Proof.
  intros ->. unfold Math_hypot.
  replace (0 * 0 + b * b) with (Rsqr b) by (unfold Rsqr; lra).
  apply sqrt_Rsqr_abs.
Qed.

Lemma Rgtb_true a b : Rgtb a b = true <-> b < a.
Proof. apply Rltb_true. Qed.

Lemma Rgtb_false a b : Rgtb a b = false <-> a <= b.
Proof. apply Rltb_false. Qed.

Lemma lookingAwayCondition_zero v config :
  lookingAwayCondition v config (mkHeadPose (Num 0) (Num 0)) = false.
Proof.
  unfold lookingAwayCondition. cbn [yaw pitch Math_abs greater less].
  rewrite Rabs_R0.
  assert (A : Rgtb 0 (YAW_THRESHOLD v) = false)
    by (apply Rgtb_false; destruct v as [|[]]; simpl; lra).
  assert (B : Rltb 0 (- PITCH_THRESHOLD) = false)
    by (apply Rltb_false; unfold PITCH_THRESHOLD; lra).
  rewrite A, B.
  destruct (ExamMode_eqb (examMode config) Written);
    match goal with
    | |- (if Rgtb 0 ?t then _ else _) = _ =>
        assert (C : Rgtb 0 t = false)
          by (apply Rgtb_false; unfold PITCH_THRESHOLD; lra);
        rewrite C; reflexivity
    end.
Qed.

Lemma talkingCondition_zero v config : talkingCondition v config (Num 0) = false.
Proof.
  assert (A : Rgtb 0 (TALK_THRESHOLD v) = false)
    by (apply Rgtb_false; destruct v as [|[]]; simpl; lra).
  destruct v as [|[]]; simpl in *; rewrite A; reflexivity.
Qed.

(** C10, as the code has it: each function guards the landmarks it reads.
    A face landmark set without the nose tip, a cheek, the chin or the
    forehead has head pose (0, 0) and cannot flag looking away; one without
    an inner lip, the forehead or the chin has mouth openness 0 and cannot
    flag talking. *)
Theorem C10_each_function_guards_its_landmarks :
  forall (landmarks : Landmarks),
    (at_ landmarks 1 = None \/ at_ landmarks 234 = None \/ at_ landmarks 454 = None \/
     at_ landmarks 152 = None \/ at_ landmarks 10 = None ->
       calculateHeadPose landmarks = mkHeadPose (Num 0) (Num 0) /\
       forall v config others,
         lookingAwayCondition v config (calculateHeadPose landmarks) = false /\
         isLookingAway (faceStatus v config (landmarks :: others)) = false) /\
    (at_ landmarks 13 = None \/ at_ landmarks 14 = None \/
     at_ landmarks 10 = None \/ at_ landmarks 152 = None ->
       calculateMouthOpenness landmarks = Num 0 /\
       forall v config others,
         talkingCondition v config (calculateMouthOpenness landmarks) = false /\
         isTalking (faceStatus v config (landmarks :: others)) = false).
Proof.
  intros landmarks. split.
  - intros H.
    assert (E : calculateHeadPose landmarks = mkHeadPose (Num 0) (Num 0)).
    { unfold calculateHeadPose.
      destruct H as [-> | [-> | [-> | [-> | ->]]]];
        repeat match goal with
               | |- context [match at_ ?l ?i with _ => _ end] => destruct (at_ l i)
               end; reflexivity. }
    split; [exact E|]. intros v config others.
    unfold faceStatus. cbn [isLookingAway]. rewrite E.
    split; apply lookingAwayCondition_zero.
  - intros H.
    assert (E : calculateMouthOpenness landmarks = Num 0).
    { unfold calculateMouthOpenness.
      destruct H as [-> | [-> | [-> | ->]]];
        repeat match goal with
               | |- context [match at_ ?l ?i with _ => _ end] => destruct (at_ l i)
               end; reflexivity. }
    split; [exact E|]. intros v config others.
    unfold faceStatus. cbn [isTalking]. rewrite E.
    split; apply talkingCondition_zero.
Qed.

(** C10, as stated, fails: a face landmark set cut off before the cheeks has
    head pose (0, 0), and yet its mouth openness is 1/6, above the talking
    threshold of every copy: the frame that shows it is processed and flags
    talking. *)
Lemma C10_counterexample :
  at_ truncatedFace 234 = None /\
  calculateHeadPose truncatedFace = mkHeadPose (Num 0) (Num 0) /\
  calculateMouthOpenness truncatedFace = Num (1 / 6) /\
  calculateMouthOpenness truncatedFace <> Num 0 /\
  (forall v, exists w',
      processed v INITIAL_CONFIG (seeing [truncatedFace] (initialWorld exampleHost)) w' /\
      isTalking (status w') = true).
Proof.
  assert (M : calculateMouthOpenness truncatedFace = Num (1 / 6)).
  { unfold calculateMouthOpenness, truncatedFace.
    rewrite !at_landmarksOf. cbn [Nat.ltb Nat.leb Nat.eqb truncatedFacePoint lm_x lm_y].
    rewrite !Math_hypot_vertical by lra.
    replace (Rabs (0.5 - 0.6)) with 0.1
      by (unfold Rabs; destruct (Rcase_abs _); lra).
    replace (Rabs (0.2 - 0.8)) with 0.6
      by (unfold Rabs; destruct (Rcase_abs _); lra).
    unfold jsdiv. destruct (Req_dec_T 0.6 0) as [E|_]; [lra|].
    f_equal. lra. }
  split; [|split; [|split; [exact M|split]]].
  - unfold truncatedFace. rewrite at_landmarksOf. reflexivity.
  - unfold calculateHeadPose, truncatedFace. rewrite !at_landmarksOf. reflexivity.
  - rewrite M. intros H. injection H as H. lra.
  - intros v.
    set (w := seeing [truncatedFace] (initialWorld exampleHost)).
    assert (Hready : ready (host w)) by (repeat split).
    destruct (@processFrame_without_hands v INITIAL_CONFIG w Hready eq_refl)
      as [w' Hdone].
    exists w'. split; [exact Hdone|].
    destruct (processed_faceStatus Hdone) as (_ & _ & _ & Hflag).
    rewrite Hflag. unfold faceStatus. cbn [isTalking w seeing refs with_refs
      latestFaceResults with_latestFaceResults detectedFaces multiFaceLandmarks].
    rewrite M.
    destruct v as [|[]]; simpl; unfold Rgtb;
      match goal with
      | |- context [Rltb ?a ?b] =>
          assert (T : Rltb a b = true) by (apply Rltb_true; lra); rewrite T
      end; reflexivity.
Qed.

(** * Looking away *)

Lemma lookingAwayCondition_yaw v config pose :
  yaw pose = Num 0.30 -> lookingAwayCondition v config pose = true.
Proof.
  intros Hyaw. unfold lookingAwayCondition. rewrite Hyaw. cbn [Math_abs greater].
  assert (A : Rgtb (Rabs 0.30) (YAW_THRESHOLD v) = true).
  { apply Rgtb_true. rewrite Rabs_pos_eq by lra. destruct v as [|[]]; simpl; lra. }
  rewrite A.
  destruct (less (pitch pose) (- PITCH_THRESHOLD)), (greater (pitch pose) _); reflexivity.
Qed.



Lemma lookingAwayBlock_cleared v config landmarks l w :
  lookingAwayCondition v config (calculateHeadPose landmarks) = false ->
  lookingAwayBlock v config landmarks l w =
    (Normal l, with_refs (with_lookingAwayStartTime None (refs w)) w).
Proof.
  intros Hcond. unfold lookingAwayBlock. rewrite Hcond. reflexivity.
Qed.

Lemma talkingBlock_quiet v config landmarks l w :
  talkingCondition v config (calculateMouthOpenness landmarks) = false ->
  talkingBlock v config landmarks l w =
    (Normal l, with_refs (with_talkingStartTime None (refs w)) w).
Proof.
  intros Hcond. unfold talkingBlock. rewrite Hcond. reflexivity.
Qed.


Lemma scoreUpdater_zero config s : scoreUpdater config 0 s = clamp (s + 0.05).
Proof.
  rewrite scoreUpdater_unfold, recoveryOf_zero. f_equal. lra.
Qed.





Lemma turnedFace_pose : calculateHeadPose turnedFace = mkHeadPose (Num 0.30) (Num 0).
Proof.
  unfold calculateHeadPose, turnedFace. rewrite !at_landmarksOf.
  cbn [Nat.ltb Nat.leb Nat.eqb turnedFacePoint lm_x lm_y].
  replace (Rabs (1 - 0)) with 1 by (unfold Rabs; destruct (Rcase_abs _); lra).
  unfold jsdiv. destruct (Req_dec_T 1 0) as [E|_]; [lra|].
  f_equal; f_equal; lra.
Qed.

Lemma turnedFace_mouth : calculateMouthOpenness turnedFace = Num 0.
Proof.
  unfold calculateMouthOpenness, turnedFace. rewrite !at_landmarksOf.
  cbn [Nat.ltb Nat.leb Nat.eqb turnedFacePoint lm_x lm_y].
  rewrite !Math_hypot_vertical by lra.
  replace (Rabs (0.7 - 0.7)) with 0 by (unfold Rabs; destruct (Rcase_abs _); lra).
  replace (Rabs (0 - 1)) with 1 by (unfold Rabs; destruct (Rcase_abs _); lra).
  unfold jsdiv. destruct (Req_dec_T 1 0) as [E|_]; [lra|].
  f_equal. lra.
Qed.



(** * Talking *)

Lemma processFrame_appended v config w :
  appended (fun e => builtBy config (host w) e /\ mayLog v config (type e) = true)
           w (snd (processFrame v config w)).
Proof.
  pose proof (processFrame_spec v config w) as H. unfold wp in H.
  destruct (processFrame v config w) as [[[]|] w']; cbn [snd].
  - destruct H as [[_ ->] | [_ (l & w1 & _ & Hstep & _ & _ & ->)]].
    + apply appended_refl. reflexivity.
    + destruct (fs_events Hstep) as [new [Hnew Hall]].
      exists new. split; [exact Hnew | exact Hall].
  - apply (fs_events (proj2 H)).
Qed.

(** X32.  In the copies that have the voice-activity toggle, the talking
    condition of a frame is the conjunction of "mouth openness above the
    threshold" and "toggle enabled" in the configuration [config] that the
    running [processFrame] was made with, and [isTalking] of a processed
    frame is set only when the first face of the frame satisfies it.  With
    the toggle disabled in that configuration the talking block returns the
    locals it was given (no flag, no deduction) and leaves the log alone; it
    only clears the talking timestamp.  No event that [processFrame] appends
    is then of kind TALKING. *)
Theorem talking_needs_the_toggle_of_the_callback :
  forall (copy : Later) (config : AppConfig) (w : World),
    (forall mouthOpen,
        talkingCondition (LaterVersion copy) config mouthOpen = true <->
        greater mouthOpen (TALK_THRESHOLD (LaterVersion copy)) = true /\
        voiceActivityDetection config = true) /\
    (forall w',
        processed (LaterVersion copy) config w w' ->
        isTalking (status w') = true ->
        exists landmarks others,
          detectedFaces (latestFaceResults (refs w)) = landmarks :: others /\
          greater (calculateMouthOpenness landmarks)
                  (TALK_THRESHOLD (LaterVersion copy)) = true /\
          voiceActivityDetection config = true) /\
    (voiceActivityDetection config = false ->
       (forall landmarks l w0,
           talkingBlock (LaterVersion copy) config landmarks l w0 =
             (Normal l, with_refs (with_talkingStartTime None (refs w0)) w0)) /\
       (forall w',
           processed (LaterVersion copy) config w w' -> isTalking (status w') = false) /\
       appended (fun e => type e <> TALKING) w
                (snd (processFrame (LaterVersion copy) config w))).
Proof.
  intros copy config w.
  assert (Hiff : forall mouthOpen,
             talkingCondition (LaterVersion copy) config mouthOpen = true <->
             greater mouthOpen (TALK_THRESHOLD (LaterVersion copy)) = true /\
             voiceActivityDetection config = true)
    by (intros m; simpl; apply andb_true_iff).
  split; [exact Hiff|]. split.
  - intros w' Hdone Htalk.
    destruct (processed_faceStatus Hdone) as (_ & _ & _ & Hflag).
    rewrite Hflag in Htalk. unfold faceStatus in Htalk.
    destruct (detectedFaces (latestFaceResults (refs w))) as [|landmarks others];
      [discriminate|].
    cbn [isTalking] in Htalk. apply Hiff in Htalk.
    exists landmarks, others. split; [reflexivity | exact Htalk].
  - intros Hoff.
    assert (Hnever : forall m, talkingCondition (LaterVersion copy) config m = false).
    { intros m. simpl. rewrite Hoff. apply andb_false_r. }
    split; [|split].
    + intros landmarks l w0. apply talkingBlock_quiet, Hnever.
    + intros w' Hdone.
      destruct (processed_faceStatus Hdone) as (_ & _ & _ & Hflag).
      rewrite Hflag. unfold faceStatus.
      destruct (detectedFaces (latestFaceResults (refs w))); [reflexivity|].
      apply Hnever.
    + eapply appended_weaken; [|apply processFrame_appended].
      cbv beta. intros e [_ Hmay] Hkind. rewrite Hkind in Hmay.
      simpl in Hmay. congruence.
Qed.

(** * Malformed hand landmarks *)

Lemma at_beyond (landmarks : Landmarks) i :
  (List.length landmarks <= i)%nat -> at_ landmarks i = None.
Proof.
  intros H. unfold at_. apply nth_error_None in H. rewrite H. reflexivity.
Qed.

Lemma calculateHandFaceDistance_short hand face :
  (0 < List.length hand <= 9)%nat ->
  calculateHandFaceDistance (Some hand) (Some face) = Throw.
Proof.
  intros [Hpos Hshort]. unfold calculateHandFaceDistance.
  destruct (Nat.eqb_spec (List.length hand) 0) as [E|_]; [lia|].
  unfold deref. rewrite at_beyond by lia. reflexivity.
Qed.

Lemma analyzeFrame_first_throws config w face faces hand hands :
  detectedFaces (latestFaceResults (refs w)) = face :: faces ->
  detectedHands (latestHandResults (refs w)) = Some hand :: hands ->
  (0 < List.length hand <= 9)%nat ->
  fst (analyzeFrame FirstVersion config w) = Throw.
Proof.
  intros Hfaces Hhands Hshort.
  assert (H : wp (analyzeFrame FirstVersion config)
                 (fun _ _ => False) (fun _ => True) w).
  { unfold analyzeFrame. apply wp_bind, wp_gets. apply wp_bind, wp_gets.
    apply wp_bind.
    eapply wp_conseq;
      [apply (@faceLogic_spec FirstVersion config w); apply frameStep_refl
      | | intros ? []].
    cbv beta. intros l1 w1 (_ & Hstatus & _).
    unfold handLogic. rewrite Hhands. cbn [firstHandLoop].
    apply wp_bind. unfold firstHandBody.
    cbn [currentStatus flag with_handsDetected faceDetected].
    rewrite Hstatus, Hfaces. cbn [faceStatus faceDetected].
    apply wp_bind, wp_lift.
    rewrite calculateHandFaceDistance_short by exact Hshort. exact I. }
  unfold wp in H. destruct (analyzeFrame FirstVersion config w) as [[l|] w'];
    [contradiction | reflexivity].
Qed.

(** C6 fails in the first copy of [App.tsx].  Its hand loop has no check of
    the number of points: with a face in the frame it passes every hand to
    [calculateHandFaceDistance], which guards against an empty array only and
    then reads [handLandmarks[9].x].  A hand of one to nine points makes
    [processFrame] throw; the frame's status and score updates are not
    reached, so the score keeps its value whatever the face showed. *)
Theorem C6_first_copy_throws_on_short_hand :
  forall (config : AppConfig) (w : World)
         (face : Landmarks) (faces : list Landmarks)
         (hand : Landmarks) (hands : list (option Landmarks)),
    ready (host w) ->
    detectedFaces (latestFaceResults (refs w)) = face :: faces ->
    detectedHands (latestHandResults (refs w)) = Some hand :: hands ->
    (0 < List.length hand <= 9)%nat ->
    malformedHand (Some hand) /\
    fst (processFrame FirstVersion config w) = Throw /\
    score (snd (processFrame FirstVersion config w)) = score w /\
    status (snd (processFrame FirstVersion config w)) = status w.
Proof.
  intros config w face faces hand hands Hready Hfaces Hhands Hshort.
  split; [simpl; lia|].
  pose proof (analyzeFrame_first_throws config w Hfaces Hhands Hshort) as Hthrow.
  pose proof (processFrame_spec FirstVersion config w) as Hspec. unfold wp in Hspec.
  assert (Hfst : fst (processFrame FirstVersion config w) = Throw).
  { unfold processFrame, bind, gets. destruct Hready as (Hc & Hv & Hg).
    rewrite Hc, Hv, Hg. cbn [negb orb].
    destruct (analyzeFrame FirstVersion config w) as [[l|] w1];
      [discriminate | reflexivity]. }
  split; [exact Hfst|].
  destruct (processFrame FirstVersion config w) as [[[]|] w']; [discriminate|].
  cbn [snd]. destruct Hspec as [_ Hstep].
  split; [apply (fs_score Hstep) | apply (fs_status Hstep)].
Qed.

(** The failing frame: the turned face and a hand of five points.  The face
    alone would have moved the score; the frame throws and leaves it at
    100. *)
Lemma C6_first_copy_throws_on_short_hand_witness :
  let w := holding [Some shortHand] (seeing [turnedFace] (initialWorld exampleHost)) in
  fst (processFrame FirstVersion INITIAL_CONFIG w) = Throw /\
  score (snd (processFrame FirstVersion INITIAL_CONFIG w)) = 100.
Proof.
  intros w.
  assert (Hready : ready (host w)) by (repeat split).
  assert (Hshort : (0 < List.length shortHand <= 9)%nat) by (cbn; lia).
  destruct (@C6_first_copy_throws_on_short_hand INITIAL_CONFIG w turnedFace []
              shortHand [] Hready eq_refl eq_refl Hshort)
    as (_ & Hthrow & Hscore & _).
  split; [exact Hthrow | exact Hscore].
Defined.

(** The later copies do what C6 says.  Their hand loop skips a hand that is
    [null] or has fewer than 21 points: the body returns the locals it was
    given and leaves the world alone, so the loop over the hands of a frame
    is the loop over the hands before it followed by the loop over the hands
    after it, under their own indices, and the hand logic of the frame does
    not depend on what the malformed entry holds.  The face logic runs before
    the hand logic and is not given the hands. *)
Lemma later_copies_skip_malformed_hand :
  forall (copy : Later) (config : AppConfig) (faceResults : option FaceResults)
         (before after : list (option Landmarks))
         (malformed malformed' : option Landmarks)
         (handIndex : nat) (l : Locals) (w : World),
    malformedHand malformed -> malformedHand malformed' ->
    laterHandBody config faceResults handIndex malformed l w = (Normal l, w) /\
    laterHandLoop config faceResults handIndex (before ++ malformed :: after) l w =
      bind (laterHandLoop config faceResults handIndex before l)
           (fun l' => laterHandLoop config faceResults
                        (S (handIndex + List.length before)) after l') w /\
    handLogic (LaterVersion copy) config faceResults
        (Some (mkHandResults (Some (before ++ malformed :: after)))) l w =
    handLogic (LaterVersion copy) config faceResults
        (Some (mkHandResults (Some (before ++ malformed' :: after)))) l w.
Proof.
  intros copy config faceResults before after malformed malformed' handIndex l w Hm Hm'.
  assert (Hbody : forall m i l0 w0,
             malformedHand m ->
             laterHandBody config faceResults i m l0 w0 = (Normal l0, w0)).
  { intros m i l0 w0 H. unfold laterHandBody. destruct m as [hand|]; [|reflexivity].
    simpl in H. apply Nat.ltb_lt in H. rewrite H. reflexivity. }
  assert (Hloop : forall m i l0 w0,
             malformedHand m ->
             laterHandLoop config faceResults i (before ++ m :: after) l0 w0 =
             bind (laterHandLoop config faceResults i before l0)
                  (fun l' => laterHandLoop config faceResults
                               (S (i + List.length before)) after l') w0).
  { intros m i l0 w0 H. revert i l0 w0.
    induction before as [|hand rest IH]; intros i l0 w0.
    - cbn [app laterHandLoop List.length]. unfold bind at 1.
      rewrite (Hbody _ _ _ _ H). rewrite Nat.add_0_r. reflexivity.
    - cbn [app laterHandLoop List.length]. unfold bind.
      destruct (laterHandBody config faceResults i hand l0 w0) as [[l1|] w1];
        [|reflexivity].
      rewrite IH. unfold bind. rewrite Nat.add_succ_r. reflexivity. }
  split; [apply Hbody; exact Hm|]. split; [apply Hloop; exact Hm|].
  unfold handLogic. cbn [detectedHands multiHandLandmarks].
  destruct before; cbn [app]; rewrite <- ?app_comm_cons.
  - rewrite (Hloop malformed), (Hloop malformed') by assumption. reflexivity.
  - rewrite !app_comm_cons, (Hloop malformed), (Hloop malformed') by assumption.
    reflexivity.
Qed.

(** * Further properties of the code *)

(** * The geometry of a face *)

Lemma lookingAwayCondition_wide_yaw v config y p :
  1 / 2 <= Rabs y ->
  lookingAwayCondition v config (mkHeadPose (Num y) p) = true.
Proof.
  intros Hy. unfold lookingAwayCondition. cbn [yaw pitch Math_abs greater].
  assert (A : Rgtb (Rabs y) (YAW_THRESHOLD v) = true)
    by (apply Rgtb_true; destruct v as [|[]]; simpl; lra).
  rewrite A.
  destruct (less p (- PITCH_THRESHOLD)), (greater p _); reflexivity.
Qed.

Lemma lookingAwayCondition_up v config y p :
  p <= - (1 / 2) ->
  lookingAwayCondition v config (mkHeadPose y (Num p)) = true.
Proof.
  intros Hp. unfold lookingAwayCondition. cbn [yaw pitch less].
  assert (A : Rltb p (- PITCH_THRESHOLD) = true)
    by (apply Rltb_true; unfold PITCH_THRESHOLD; lra).
  rewrite A.
  repeat match goal with
         | |- context [if ?c then _ else _] => destruct c
         end; reflexivity.
Qed.

Lemma lookingAwayCondition_down v config y p :
  1 / 2 <= p -> examMode config <> Written ->
  lookingAwayCondition v config (mkHeadPose y (Num p)) = true.
Proof.
  intros Hp Hmode. unfold lookingAwayCondition. cbn [yaw pitch greater].
  assert (M : ExamMode_eqb (examMode config) Written = false)
    by (destruct (examMode config); [reflexivity | reflexivity | contradiction]).
  rewrite M.
  assert (A : Rgtb p PITCH_THRESHOLD = true)
    by (apply Rgtb_true; unfold PITCH_THRESHOLD; lra).
  rewrite A. reflexivity.
Qed.

(** The offset of a coordinate from the middle of two others, as a fraction
    of their distance, is a half or more as soon as the coordinate is not
    strictly between them. *)
Lemma ratio_outside a b c :
  b <> c ->
  (a <= Rmin b c -> (a - (b + c) / 2) / Rabs (c - b) <= - (1 / 2)) /\
  (Rmax b c <= a -> 1 / 2 <= (a - (b + c) / 2) / Rabs (c - b)).
Proof.
  intros Hne.
  assert (Hw : 0 < Rabs (c - b)) by (apply Rabs_pos_lt; lra).
  set (w := Rabs (c - b)) in *.
  assert (E : forall t, t / w * w = t) by (intros t; field; lra).
  assert (Hmin : Rmin b c = (b + c) / 2 - w / 2).
  { unfold w, Rmin, Rabs. destruct (Rle_dec b c), (Rcase_abs (c - b)); lra. }
  assert (Hmax : Rmax b c = (b + c) / 2 + w / 2).
  { unfold w, Rmax, Rabs. destruct (Rle_dec b c), (Rcase_abs (c - b)); lra. }
  rewrite Hmin, Hmax. split; intros H.
  - pose proof (E (a - (b + c) / 2)) as Ea.
    destruct (Rle_dec ((a - (b + c) / 2) / w) (- (1 / 2))) as [Hle|Hgt]; [exact Hle|].
    exfalso. apply Rnot_le_lt in Hgt. nra.
  - pose proof (E (a - (b + c) / 2)) as Ea.
    destruct (Rle_dec (1 / 2) ((a - (b + c) / 2) / w)) as [Hle|Hgt]; [exact Hle|].
    exfalso. apply Rnot_le_lt in Hgt. nra.
Qed.

(** X2.  On a face whose cheeks are apart horizontally and whose forehead
    and chin are apart vertically the head pose is finite.  A nose tip on a
    cheek or outside the cheeks is flagged as looking away by every copy in
    every exam mode, and so is a nose tip level with the upper one of
    forehead and chin or above it; a nose tip level with the lower one or
    below it is flagged in the MCQ and Coding modes (the Written mode
    tolerates a pitch up to 0.8). *)
Theorem a_nose_tip_outside_the_face_is_looking_away :
  forall (landmarks : Landmarks) (noseTip leftCheek rightCheek chin forehead : Landmark),
    at_ landmarks 1 = Some noseTip ->
    at_ landmarks 234 = Some leftCheek ->
    at_ landmarks 454 = Some rightCheek ->
    at_ landmarks 152 = Some chin ->
    at_ landmarks 10 = Some forehead ->
    lm_x leftCheek <> lm_x rightCheek ->
    lm_y forehead <> lm_y chin ->
    (exists y p, calculateHeadPose landmarks = mkHeadPose (Num y) (Num p)) /\
    (~ between (lm_x noseTip) (lm_x leftCheek) (lm_x rightCheek) ->
     forall v config,
       lookingAwayCondition v config (calculateHeadPose landmarks) = true) /\
    (lm_y noseTip <= Rmin (lm_y forehead) (lm_y chin) ->
     forall v config,
       lookingAwayCondition v config (calculateHeadPose landmarks) = true) /\
    (Rmax (lm_y forehead) (lm_y chin) <= lm_y noseTip ->
     forall v config,
       examMode config <> Written ->
       lookingAwayCondition v config (calculateHeadPose landmarks) = true).
Proof.
  intros landmarks noseTip leftCheek rightCheek chin forehead
         Hn Hl Hr Hc Hf Hwidth Hheight.
  set (width := Rabs (lm_x rightCheek - lm_x leftCheek)).
  set (height := Rabs (lm_y chin - lm_y forehead)).
  assert (Hw : 0 < width) by (apply Rabs_pos_lt; lra).
  assert (Hh : 0 < height) by (apply Rabs_pos_lt; lra).
  set (y := (lm_x noseTip - (lm_x leftCheek + lm_x rightCheek) / 2) / width).
  set (p := (lm_y noseTip - (lm_y forehead + lm_y chin) / 2) / height).
  assert (E : calculateHeadPose landmarks = mkHeadPose (Num y) (Num p)).
  { unfold calculateHeadPose. rewrite Hn, Hl, Hr, Hc, Hf. unfold jsdiv.
    fold width height.
    destruct (Req_dec_T width 0); [lra|].
    destruct (Req_dec_T height 0); [lra|]. reflexivity. }
  destruct (ratio_outside (lm_x noseTip) Hwidth) as [Hleft Hright].
  destruct (ratio_outside (lm_y noseTip) Hheight) as [Hup Hdown].
  fold width y in Hleft, Hright. fold height p in Hup, Hdown.
  split; [exists y, p; exact E|]. split; [|split].
  - intros Hout v config. rewrite E. apply lookingAwayCondition_wide_yaw.
    unfold between in Hout.
    destruct (Rle_dec (lm_x noseTip) (Rmin (lm_x leftCheek) (lm_x rightCheek)))
      as [Hlow|Hlow].
    + specialize (Hleft Hlow). unfold Rabs. destruct (Rcase_abs y); lra.
    + destruct (Rle_dec (Rmax (lm_x leftCheek) (lm_x rightCheek)) (lm_x noseTip))
        as [Hhigh|Hhigh].
      * specialize (Hright Hhigh). unfold Rabs. destruct (Rcase_abs y); lra.
      * exfalso. apply Hout. lra.
  - intros Habove v config. rewrite E. apply lookingAwayCondition_up. auto.
  - intros Hbelow v config Hmode. rewrite E. apply lookingAwayCondition_down; auto.
Qed.

(** A head turned so far that the nose tip has passed the right cheek. *)
Lemma a_nose_tip_outside_the_face_is_looking_away_witness :
  (exists y p, calculateHeadPose profileFace = mkHeadPose (Num y) (Num p)) /\
  lookingAwayCondition (LaterVersion Third) INITIAL_CONFIG
    (calculateHeadPose profileFace) = true.
Proof.
  destruct (@a_nose_tip_outside_the_face_is_looking_away profileFace
              (profileFacePoint 1) (profileFacePoint 234) (profileFacePoint 454)
              (profileFacePoint 152) (profileFacePoint 10))
    as (Hfinite & Hside & _).
  - unfold profileFace. rewrite at_landmarksOf. reflexivity.
  - unfold profileFace. rewrite at_landmarksOf. reflexivity.
  - unfold profileFace. rewrite at_landmarksOf. reflexivity.
  - unfold profileFace. rewrite at_landmarksOf. reflexivity.
  - unfold profileFace. rewrite at_landmarksOf. reflexivity.
  - cbn. lra.
  - cbn. lra.
  - split; [exact Hfinite|]. apply Hside.
    cbn [profileFacePoint Nat.eqb lm_x]. unfold between, Rmin, Rmax.
    destruct (Rle_dec 0.4 0.6); lra.
Defined.

Lemma lookingAwayCondition_NaN v config :
  lookingAwayCondition v config (mkHeadPose NaN NaN) = false.
Proof.
  unfold lookingAwayCondition. cbn [yaw pitch Math_abs greater less].
  destruct (ExamMode_eqb (examMode config) Written); reflexivity.
Qed.

Lemma talkingCondition_NaN v config : talkingCondition v config NaN = false.
Proof. destruct v; reflexivity. Qed.

(** X3.  When the two cheek landmarks have the same x the yaw is a division
    by a zero width: plus infinity with the nose tip to their right, minus
    infinity with the nose tip to their left, NaN with the nose tip on them.
    [Math.abs(yaw) > YAW_THRESHOLD] holds for both infinities and fails for
    NaN.  A face whose landmarks all coincide has a NaN yaw, pitch and mouth
    openness, and is flagged neither as looking away nor as talking. *)
Theorem zero_width_face_divides_by_zero :
  forall (v : Version) (config : AppConfig),
    (forall landmarks noseTip leftCheek rightCheek chin forehead,
        at_ landmarks 1 = Some noseTip ->
        at_ landmarks 234 = Some leftCheek ->
        at_ landmarks 454 = Some rightCheek ->
        at_ landmarks 152 = Some chin ->
        at_ landmarks 10 = Some forehead ->
        lm_x leftCheek = lm_x rightCheek ->
        yaw (calculateHeadPose landmarks) =
          (if Rlt_dec (lm_x leftCheek) (lm_x noseTip) then PosInfinity
           else if Rlt_dec (lm_x noseTip) (lm_x leftCheek) then NegInfinity
           else NaN) /\
        (greater (Math_abs (yaw (calculateHeadPose landmarks))) (YAW_THRESHOLD v) = true
         <-> lm_x noseTip <> lm_x leftCheek)) /\
    (forall (p : Landmark) (n : nat),
        (455 <= n)%nat ->
        let face := landmarksOf (fun _ => p) n in
        calculateHeadPose face = mkHeadPose NaN NaN /\
        calculateMouthOpenness face = NaN /\
        lookingAwayCondition v config (calculateHeadPose face) = false /\
        talkingCondition v config (calculateMouthOpenness face) = false).
Proof.
  intros v config. split.
  - intros landmarks noseTip leftCheek rightCheek chin forehead Hn Hl Hr Hc Hf Hsame.
    assert (E : yaw (calculateHeadPose landmarks) =
                jsdiv (lm_x noseTip - lm_x leftCheek) 0).
    { unfold calculateHeadPose. rewrite Hn, Hl, Hr, Hc, Hf. cbn [yaw].
      rewrite <- Hsame. f_equal; [lra|].
      replace (lm_x leftCheek - lm_x leftCheek) with 0 by lra. apply Rabs_R0. }
    rewrite E. unfold jsdiv.
    destruct (Req_dec_T 0 0) as [_|Hne]; [|contradiction Hne; reflexivity].
    destruct (Rlt_dec 0 (lm_x noseTip - lm_x leftCheek)) as [Hright|Hnr],
             (Rlt_dec (lm_x leftCheek) (lm_x noseTip)) as [Hright'|Hnr'];
      try lra.
    + split; [reflexivity|]. cbn. split; [intros _; lra | reflexivity].
    + destruct (Rlt_dec (lm_x noseTip - lm_x leftCheek) 0) as [Hleft|Hnl],
               (Rlt_dec (lm_x noseTip) (lm_x leftCheek)) as [Hleft'|Hnl'];
        try lra.
      * split; [reflexivity|]. cbn. split; [intros _; lra | reflexivity].
      * split; [reflexivity|]. cbn. split; [discriminate | intros H; lra].
  - intros p n Hn face.
    assert (Hat : forall i, (i < 455)%nat -> at_ face i = Some p).
    { intros i Hi. unfold face. rewrite at_landmarksOf.
      destruct (Nat.ltb_spec i n); [reflexivity | lia]. }
    assert (Zero : forall a, a - (a + a) / 2 = 0) by (intros; lra).
    assert (Self : forall a, a - a = 0) by (intros; lra).
    assert (Div : jsdiv 0 0 = NaN).
    { unfold jsdiv. destruct (Req_dec_T 0 0) as [_|Hne]; [|contradiction Hne; reflexivity].
      destruct (Rlt_dec 0 0); [lra | reflexivity]. }
    assert (Hyp : Math_hypot 0 0 = 0).
    { unfold Math_hypot. replace (0 * 0 + 0 * 0) with 0 by lra. apply sqrt_0. }
    assert (Epose : calculateHeadPose face = mkHeadPose NaN NaN).
    { unfold calculateHeadPose. rewrite !Hat by lia.
      rewrite !Zero, !Self, Rabs_R0, Div. reflexivity. }
    assert (Emouth : calculateMouthOpenness face = NaN).
    { unfold calculateMouthOpenness. rewrite !Hat by lia.
      rewrite !Self, Hyp. exact Div. }
    split; [exact Epose|]. split; [exact Emouth|].
    rewrite Epose, Emouth.
    split; [apply lookingAwayCondition_NaN | apply talkingCondition_NaN].
Qed.

(** A face of 468 coinciding points in the middle of the frame. *)
Lemma zero_width_face_divides_by_zero_witness :
  let face := landmarksOf (fun _ => mkLandmark 0.5 0.5) 468 in
  calculateHeadPose face = mkHeadPose NaN NaN /\
  calculateMouthOpenness face = NaN /\
  lookingAwayCondition FirstVersion INITIAL_CONFIG (calculateHeadPose face) = false /\
  talkingCondition FirstVersion INITIAL_CONFIG (calculateMouthOpenness face) = false.
Proof.
  apply (proj2 (zero_width_face_divides_by_zero FirstVersion INITIAL_CONFIG)
           (mkLandmark 0.5 0.5) 468%nat).
  apply Nat.leb_le. reflexivity.
Defined.

Lemma Math_hypot_nonneg a b : 0 <= Math_hypot a b.
Proof. apply sqrt_pos. Qed.

Lemma Math_hypot_zero a b : Math_hypot a b = 0 <-> a = 0 /\ b = 0.
Proof.
  unfold Math_hypot. split.
  - intros H. apply sqrt_eq_0 in H; nra.
  - intros [-> ->]. replace (0 * 0 + 0 * 0) with 0 by lra. apply sqrt_0.
Qed.

(** X4.  The mouth openness is never negative: it is a finite number that is
    at least 0, plus infinity or NaN.  On a face whose forehead and chin are
    different points it is a finite number, and it is 0 exactly when the two
    inner lip landmarks coincide; closed lips are then not flagged as talking
    by any copy. *)
Theorem mouth_openness_is_never_negative :
  forall (landmarks : Landmarks),
    match calculateMouthOpenness landmarks with
    | Num r => 0 <= r
    | PosInfinity | NaN => True
    | NegInfinity => False
    end /\
    (forall upperLip lowerLip forehead chin,
        at_ landmarks 13 = Some upperLip -> at_ landmarks 14 = Some lowerLip ->
        at_ landmarks 10 = Some forehead -> at_ landmarks 152 = Some chin ->
        forehead <> chin ->
        exists r,
          calculateMouthOpenness landmarks = Num r /\ 0 <= r /\
          (r = 0 <-> upperLip = lowerLip) /\
          (upperLip = lowerLip ->
           forall v config,
             talkingCondition v config (calculateMouthOpenness landmarks) = false)).
Proof.
  intros landmarks. split.
  - unfold calculateMouthOpenness.
    destruct (at_ landmarks 13) as [upperLip|]; [|simpl; lra].
    destruct (at_ landmarks 14) as [lowerLip|]; [|simpl; lra].
    destruct (at_ landmarks 10) as [forehead|]; [|simpl; lra].
    destruct (at_ landmarks 152) as [chin|]; [|simpl; lra].
    cbv zeta. unfold jsdiv.
    set (m := Math_hypot (lm_x upperLip - lm_x lowerLip) (lm_y upperLip - lm_y lowerLip)).
    set (f := Math_hypot (lm_x forehead - lm_x chin) (lm_y forehead - lm_y chin)).
    pose proof (Math_hypot_nonneg (lm_x upperLip - lm_x lowerLip)
                  (lm_y upperLip - lm_y lowerLip)) as Hm. fold m in Hm.
    pose proof (Math_hypot_nonneg (lm_x forehead - lm_x chin)
                  (lm_y forehead - lm_y chin)) as Hf. fold f in Hf.
    destruct (Req_dec_T f 0) as [E|E].
    + destruct (Rlt_dec 0 m); [exact I|]. destruct (Rlt_dec m 0); [lra | exact I].
    + apply Rmult_le_pos; [exact Hm|]. apply Rlt_le, Rinv_0_lt_compat. lra.
  - intros upperLip lowerLip forehead chin Hu Hl Hf Hc Hface.
    unfold calculateMouthOpenness. rewrite Hu, Hl, Hf, Hc. cbv zeta.
    set (m := Math_hypot (lm_x upperLip - lm_x lowerLip) (lm_y upperLip - lm_y lowerLip)).
    set (f := Math_hypot (lm_x forehead - lm_x chin) (lm_y forehead - lm_y chin)).
    pose proof (Math_hypot_nonneg (lm_x upperLip - lm_x lowerLip)
                  (lm_y upperLip - lm_y lowerLip)) as Hm. fold m in Hm.
    pose proof (Math_hypot_nonneg (lm_x forehead - lm_x chin)
                  (lm_y forehead - lm_y chin)) as Hf0. fold f in Hf0.
    assert (Hfpos : 0 < f).
    { destruct (Req_dec_T f 0) as [E|E]; [|lra]. exfalso.
      apply Math_hypot_zero in E. destruct E as [Ex Ey].
      apply Hface. destruct forehead, chin. cbn in *. f_equal; lra. }
    assert (Hlips : m = 0 <-> upperLip = lowerLip).
    { unfold m. rewrite Math_hypot_zero. split.
      - intros [Ex Ey]. destruct upperLip, lowerLip. cbn in *. f_equal; lra.
      - intros ->. split; lra. }
    unfold jsdiv. destruct (Req_dec_T f 0) as [E|_]; [lra|].
    exists (m / f). split; [reflexivity|].
    assert (Hinv : 0 < / f) by (apply Rinv_0_lt_compat; exact Hfpos).
    split; [apply Rmult_le_pos; lra|]. split.
    + rewrite <- Hlips. split.
      * intros H. unfold Rdiv in H. apply Rmult_integral in H. lra.
      * intros ->. unfold Rdiv. lra.
    + intros Heq v config. apply Hlips in Heq. rewrite Heq.
      replace (0 / f) with 0 by (unfold Rdiv; lra).
      apply talkingCondition_zero.
Qed.

(** * The distance between a hand and the face *)

(** X5.  [calculateHandFaceDistance] returns 1.0 for a hand that is [null]
    or empty and for a face that is [null].  Otherwise it reads landmark 9 of
    the hand and landmark 1 of the face without a check: it throws exactly
    when one of the two is missing, and else returns their distance, which is
    never negative and is 0 only when the two points coincide. *)
Theorem hand_face_distance_guards_and_throws :
  forall (handLandmarks faceLandmarks : option Landmarks),
    (handLandmarks = None \/ handLandmarks = Some [] \/ faceLandmarks = None ->
     calculateHandFaceDistance handLandmarks faceLandmarks = Normal 1) /\
    (calculateHandFaceDistance handLandmarks faceLandmarks = Throw <->
     exists hand face,
       handLandmarks = Some hand /\ faceLandmarks = Some face /\ hand <> [] /\
       (at_ hand 9 = None \/ at_ face 1 = None)) /\
    (forall hand face knuckle nose,
        handLandmarks = Some hand -> faceLandmarks = Some face ->
        at_ hand 9 = Some knuckle -> at_ face 1 = Some nose ->
        exists d,
          calculateHandFaceDistance handLandmarks faceLandmarks = Normal d /\
          d = Math_hypot (lm_x knuckle - lm_x nose) (lm_y knuckle - lm_y nose) /\
          0 <= d /\ (d = 0 <-> knuckle = nose)).
Proof.
  intros handLandmarks faceLandmarks. split; [|split].
  - intros [-> | [-> | ->]]; [reflexivity | | destruct handLandmarks; reflexivity].
    destruct faceLandmarks; reflexivity.
  - unfold calculateHandFaceDistance, deref. split.
    + destruct handLandmarks as [hand|]; [|discriminate].
      destruct faceLandmarks as [face|]; [|discriminate].
      destruct hand as [|e hand]; [discriminate|].
      cbn [List.length Nat.eqb]. intros H.
      exists (e :: hand), face. repeat split; try discriminate.
      destruct (at_ (e :: hand) 9); [|left; reflexivity].
      cbn [cbind] in H. destruct (at_ face 1); [discriminate | right; reflexivity].
    + intros (hand & face & -> & -> & Hne & Hmiss).
      destruct hand as [|e hand]; [contradiction|]. cbn [List.length Nat.eqb].
      destruct Hmiss as [-> | Hface]; [reflexivity|].
      destruct (at_ (e :: hand) 9); [|reflexivity].
      cbn [cbind]. rewrite Hface. reflexivity.
  - intros hand face knuckle nose -> -> Hk Hn.
    assert (Hlen : (List.length hand =? 0)%nat = false).
    { destruct hand; [discriminate | reflexivity]. }
    exists (Math_hypot (lm_x knuckle - lm_x nose) (lm_y knuckle - lm_y nose)).
    split; [|split; [reflexivity|split]].
    + unfold calculateHandFaceDistance, deref. rewrite Hlen, Hk. cbn [cbind].
      rewrite Hn. reflexivity.
    + apply Math_hypot_nonneg.
    + rewrite Math_hypot_zero. split.
      * intros [Ex Ey]. destruct knuckle, nose. cbn in *. f_equal; lra.
      * intros ->. split; lra.
Qed.

(** * Gestures *)

Lemma holeFree_at landmarks i :
  holeFree landmarks = true -> (i < List.length landmarks)%nat ->
  exists p, at_ landmarks i = Some p.
Proof.
  unfold holeFree, at_. rewrite forallb_forall. intros Hall Hi.
  destruct (nth_error landmarks i) as [e|] eqn:E.
  - specialize (Hall e (nth_error_In _ _ E)). destruct e as [p|]; [|discriminate].
    exists p. reflexivity.
  - apply nth_error_None in E. lia.
Qed.

Lemma fullHand_at landmarks i :
  fullHand landmarks = true -> (i < 21)%nat -> exists p, at_ landmarks i = Some p.
Proof.
  unfold fullHand. intros H Hi. apply andb_true_iff in H. destruct H as [Hlen Hfree].
  apply Nat.leb_le in Hlen. apply holeFree_at; [exact Hfree | lia].
Qed.

Lemma fullHand_length landmarks :
  fullHand landmarks = true -> (List.length landmarks <? 21)%nat = false.
Proof.
  unfold fullHand. intros H. apply andb_true_iff in H. destruct H as [Hlen _].
  apply Nat.leb_le in Hlen. apply Nat.ltb_ge. exact Hlen.
Qed.

Lemma fullHand_reads landmarks i :
  fullHand landmarks = true -> In i gestureReads -> at_ landmarks i <> None.
Proof.
  intros Hfull Hin.
  assert (Hi : (i < 21)%nat) by (cbn in Hin; intuition lia).
  destruct (fullHand_at _ Hfull Hi) as [p ->]. discriminate.
Qed.

Ltac read_landmarks :=
  repeat match goal with
  | H : at_ ?l ?i = _ |- context [at_ ?l ?i] => rewrite H; cbn [cbind]
  | |- context [at_ ?l ?i] => destruct (at_ l i) eqn:?; cbn [cbind]
  end.

(** What [recognizeGesture] returns when the ten landmarks it reads are
    there. *)
Lemma recognizeGesture_table landmarks :
  (List.length landmarks <? 21)%nat = false ->
  (forall i, In i gestureReads -> at_ landmarks i <> None) ->
  exists g,
    recognizeGesture landmarks = Normal g /\
    gesture_type g =
      gestureTable (fingerUp landmarks 4 3) (fingerUp landmarks 8 6)
                   (fingerUp landmarks 12 10) (fingerUp landmarks 16 14)
                   (fingerUp landmarks 20 18) (tipsClose landmarks) /\
    (confidence g = 0.3 /\ gesture_type g = UNKNOWN \/
     0.75 <= confidence g <= 0.9 /\ gesture_type g <> UNKNOWN).
Proof.
  intros Hlen Hreads.
  assert (Hat : forall i, In i gestureReads -> exists p, at_ landmarks i = Some p).
  { intros i Hi. specialize (Hreads i Hi).
    destruct (at_ landmarks i) as [p|]; [exists p; reflexivity | contradiction]. }
  destruct (Hat 3%nat) as [p3 E3]; [cbn; tauto|].
  destruct (Hat 4%nat) as [p4 E4]; [cbn; tauto|].
  destruct (Hat 6%nat) as [p6 E6]; [cbn; tauto|].
  destruct (Hat 8%nat) as [p8 E8]; [cbn; tauto|].
  destruct (Hat 10%nat) as [p10 E10]; [cbn; tauto|].
  destruct (Hat 12%nat) as [p12 E12]; [cbn; tauto|].
  destruct (Hat 14%nat) as [p14 E14]; [cbn; tauto|].
  destruct (Hat 16%nat) as [p16 E16]; [cbn; tauto|].
  destruct (Hat 18%nat) as [p18 E18]; [cbn; tauto|].
  destruct (Hat 20%nat) as [p20 E20]; [cbn; tauto|].
  unfold recognizeGesture, above, deref, fingerUp, tipsClose, Math_sqrt,
    THUMB_TIP, INDEX_FINGER_TIP, MIDDLE_FINGER_TIP, RING_FINGER_TIP, PINKY_TIP.
  rewrite Hlen. cbn [Nat.sub].
  rewrite E3, E4, E6, E8, E10, E12, E14, E16, E18, E20. cbn [cbind].
  destruct (Rltb (lm_y p4) (lm_y p3)), (Rltb (lm_y p8) (lm_y p6)),
           (Rltb (lm_y p12) (lm_y p10)), (Rltb (lm_y p16) (lm_y p14)),
           (Rltb (lm_y p20) (lm_y p18));
    cbn [count_true filter List.length Nat.eqb andb gestureTable];
    try (eexists; split; [reflexivity|]; split; [reflexivity|];
         cbn [confidence gesture_type];
         first [left; split; [reflexivity | reflexivity]
               | right; split; [lra | discriminate]]).
  destruct (Rltb _ 0.1);
    eexists; (split; [reflexivity|]); (split; [reflexivity|]);
    cbn [confidence gesture_type];
    first [left; split; [reflexivity | reflexivity]
          | right; split; [lra | discriminate]].
Qed.

Lemma recognizeGesture_missing landmarks i :
  (List.length landmarks <? 21)%nat = false ->
  In i gestureReads -> at_ landmarks i = None ->
  recognizeGesture landmarks = Throw.
Proof.
  intros Hlen Hin Hmiss.
  unfold recognizeGesture, above, deref,
    THUMB_TIP, INDEX_FINGER_TIP, MIDDLE_FINGER_TIP, RING_FINGER_TIP, PINKY_TIP.
  rewrite Hlen. cbn [Nat.sub].
  cbn in Hin.
  destruct Hin as [<-|[<-|[<-|[<-|[<-|[<-|[<-|[<-|[<-|[<-|[]]]]]]]]]]];
    read_landmarks; try reflexivity; congruence.
Qed.

(** X6.  [recognizeGesture] returns UNKNOWN with confidence 0 for fewer than
    21 landmarks.  With 21 or more it reads the five finger tips and the five
    joints below them without a check: it throws exactly when one of these
    ten landmarks is missing. *)
Theorem recognizeGesture_throws_exactly_on_a_missing_joint :
  forall (landmarks : Landmarks),
    ((List.length landmarks < 21)%nat ->
     recognizeGesture landmarks =
       Normal (mkHandGesture UNKNOWN 0 "Insufficient landmarks")) /\
    (recognizeGesture landmarks = Throw <->
     (21 <= List.length landmarks)%nat /\
     exists i, In i gestureReads /\ at_ landmarks i = None).
Proof.
  intros landmarks. split.
  - intros Hshort. unfold recognizeGesture.
    apply Nat.ltb_lt in Hshort. rewrite Hshort. reflexivity.
  - split.
    + intros Hthrow.
      destruct (Nat.ltb_spec (List.length landmarks) 21) as [Hshort|Hlong].
      * unfold recognizeGesture in Hthrow.
        apply Nat.ltb_lt in Hshort. rewrite Hshort in Hthrow. discriminate.
      * split; [exact Hlong|].
        assert (Hdec : (exists i, In i gestureReads /\ at_ landmarks i = None) \/
                       (forall i, In i gestureReads -> at_ landmarks i <> None)).
        { induction gestureReads as [|j rest IH].
          - right. intros i [].
          - destruct IH as [(i & Hi & Hm) | Hall].
            + left. exists i. split; [right; exact Hi | exact Hm].
            + destruct (at_ landmarks j) as [p|] eqn:E.
              * right. intros i [<- | Hi]; [congruence | apply Hall, Hi].
              * left. exists j. split; [left; reflexivity | exact E]. }
        destruct Hdec as [Hmiss | Hall]; [exact Hmiss|].
        apply Nat.ltb_ge in Hlong.
        destruct (recognizeGesture_table _ Hlong Hall) as (g & Hg & _).
        congruence.
    + intros (Hlong & i & Hin & Hmiss).
      apply Nat.ltb_ge in Hlong.
      eapply recognizeGesture_missing; eassumption.
Qed.

(** X7.  On a hand of 21 or more landmarks without holes the gesture is
    decided by the set of extended fingers alone: all five give OPEN_PALM,
    none CLOSED_FIST, the index finger alone POINTING, index and middle
    finger PEACE_SIGN, the thumb alone THUMBS_UP, thumb and index finger
    OK_SIGN when their tips are less than 0.1 apart; everything else is
    UNKNOWN.  A recognised gesture has a confidence between 0.75 and 0.9, an
    UNKNOWN one 0.3, so the test [confidence > 0.5] under which the later
    copies label a hand holds exactly for the recognised gestures. *)
Theorem gesture_is_decided_by_the_extended_fingers :
  forall (landmarks : Landmarks),
    fullHand landmarks = true ->
    exists g,
      recognizeGesture landmarks = Normal g /\
      gesture_type g =
        gestureTable (fingerUp landmarks 4 3) (fingerUp landmarks 8 6)
                     (fingerUp landmarks 12 10) (fingerUp landmarks 16 14)
                     (fingerUp landmarks 20 18) (tipsClose landmarks) /\
      (gesture_type g = UNKNOWN -> confidence g = 0.3) /\
      (gesture_type g <> UNKNOWN -> 0.75 <= confidence g <= 0.9) /\
      (Rgtb (confidence g) 0.5 = true <-> gesture_type g <> UNKNOWN).
Proof.
  intros landmarks Hfull.
  destruct (@recognizeGesture_table landmarks (@fullHand_length landmarks Hfull)
              (fun i => @fullHand_reads landmarks i Hfull))
    as (g & Hg & Htable & Hconf).
  exists g. split; [exact Hg|]. split; [exact Htable|].
  destruct Hconf as [[Hc Hu] | [Hc Hr]].
  - split; [intros _; exact Hc|]. split; [intros H; contradiction|].
    rewrite Rgtb_true, Hc. split; [lra | intros H; contradiction].
  - split; [intros H; contradiction|]. split; [intros _; exact Hc|].
    rewrite Rgtb_true. split; [intros _; exact Hr | lra].
Qed.

Lemma fist_full : fullHand fist = true.
Proof. reflexivity. Qed.

(** The closed hand: no finger is extended. *)
Lemma gesture_is_decided_by_the_extended_fingers_witness :
  exists g,
    recognizeGesture fist = Normal g /\
    gesture_type g =
      gestureTable (fingerUp fist 4 3) (fingerUp fist 8 6) (fingerUp fist 12 10)
                   (fingerUp fist 16 14) (fingerUp fist 20 18) (tipsClose fist).
Proof.
  destruct (gesture_is_decided_by_the_extended_fingers fist fist_full)
    as (g & Hg & Htable & _).
  exists g. split; [exact Hg | exact Htable].
Defined.

(** * The speed of a hand *)

Lemma at_cons_S (e : option Landmark) (landmarks : Landmarks) i :
  at_ (e :: landmarks) (S i) = at_ landmarks i.
Proof. reflexivity. Qed.

Lemma totalMovement_nonneg current previous acc total :
  0 <= acc -> totalMovement current previous acc = Normal total -> 0 <= total.
Proof.
  revert previous acc. induction current as [|c current IH]; intros previous acc Hacc H.
  - cbn [totalMovement] in H. injection H as <-. exact Hacc.
  - destruct previous as [|p previous]; cbn [totalMovement] in H;
      [injection H as <-; exact Hacc|].
    destruct c as [c|]; [|discriminate]. destruct p as [p|]; [|discriminate].
    eapply IH; [|exact H].
    unfold Math_sqrt.
    pose proof (sqrt_pos ((lm_x c - lm_x p) ^ 2 + (lm_y c - lm_y p) ^ 2)). lra.
Qed.

Lemma calculateMovementSpeed_nonneg current previous speed :
  calculateMovementSpeed current previous = Normal speed -> 0 <= speed.
Proof.
  unfold calculateMovementSpeed.
  destruct (_ || _) eqn:Hlen; [intros H; injection H as <-; lra|].
  destruct (totalMovement current previous 0) as [total|] eqn:Htotal;
    cbn [cbind]; [|discriminate].
  intros H. injection H as <-.
  apply orb_false_iff in Hlen. destruct Hlen as [Hc _]. apply Nat.ltb_ge in Hc.
  pose proof (@totalMovement_nonneg current previous 0 total (Rle_refl 0) Htotal).
  assert (0 < INR (List.length current)) by (apply lt_0_INR; lia).
  apply Rmult_le_pos; [assumption|]. apply Rlt_le, Rinv_0_lt_compat. assumption.
Qed.

(** The loop throws exactly when an index that both arrays have holds a
    hole in one of them. *)
Lemma totalMovement_throws current previous acc :
  totalMovement current previous acc = Throw <->
  exists i, (i < Nat.min (List.length current) (List.length previous))%nat /\
            (at_ current i = None \/ at_ previous i = None).
Proof.
  revert previous acc. induction current as [|c current IH]; intros previous acc.
  - cbn [totalMovement List.length Nat.min]. split; [discriminate|].
    intros (i & Hi & _). lia.
  - destruct previous as [|p previous].
    + cbn [totalMovement List.length]. rewrite Nat.min_0_r. split; [discriminate|].
      intros (i & Hi & _). lia.
    + cbn [totalMovement List.length]. rewrite <- Nat.succ_min_distr.
      destruct c as [c|].
      * destruct p as [p|].
        -- rewrite IH. split.
           ++ intros (i & Hi & Hhole). exists (S i). split; [lia|].
              rewrite !at_cons_S. exact Hhole.
           ++ intros (i & Hi & Hhole). destruct i as [|i].
              ** cbn in Hhole. destruct Hhole; discriminate.
              ** exists i. split; [lia|]. rewrite !at_cons_S in Hhole. exact Hhole.
        -- split; [|reflexivity]. intros _. exists 0%nat. split; [lia|].
           right. reflexivity.
      * split; [|reflexivity]. intros _. exists 0%nat. split; [lia|].
        left. reflexivity.
Qed.

Lemma sqrt_squares_zero a b : sqrt (a ^ 2 + b ^ 2) = 0 <-> a = 0 /\ b = 0.
Proof.
  split.
  - intros H. apply sqrt_eq_0 in H; [|nra]. split; nra.
  - intros [-> ->]. replace (0 ^ 2 + 0 ^ 2) with 0 by lra. apply sqrt_0.
Qed.

(** The sum the loop returns is the start value exactly when no landmark
    has moved. *)
Lemma totalMovement_still current previous acc total :
  totalMovement current previous acc = Normal total ->
  acc <= total /\
  (total = acc <->
   forall i, (i < Nat.min (List.length current) (List.length previous))%nat ->
             at_ current i = at_ previous i).
Proof.
  revert previous acc. induction current as [|c current IH]; intros previous acc H.
  - cbn [totalMovement] in H. injection H as <-. split; [lra|].
    split; [|reflexivity]. intros _ i Hi. cbn in Hi. lia.
  - destruct previous as [|p previous].
    + cbn [totalMovement] in H. injection H as <-. split; [lra|].
      split; [|reflexivity]. intros _ i Hi. cbn [List.length] in Hi.
      rewrite Nat.min_0_r in Hi. lia.
    + cbn [totalMovement] in H.
      destruct c as [c|]; [|discriminate]. destruct p as [p|]; [|discriminate].
      destruct (IH _ _ H) as [Hle Hiff]. unfold Math_sqrt in *.
      pose proof (sqrt_pos ((lm_x c - lm_x p) ^ 2 + (lm_y c - lm_y p) ^ 2)) as Hpos.
      split; [lra|]. cbn [List.length]. rewrite <- Nat.succ_min_distr. split.
      * intros Htotal i Hi.
        assert (Hd : sqrt ((lm_x c - lm_x p) ^ 2 + (lm_y c - lm_y p) ^ 2) = 0) by lra.
        destruct i as [|i].
        -- apply sqrt_squares_zero in Hd. destruct Hd as [Hx Hy].
           cbn. f_equal. destruct c, p. cbn in *. f_equal; lra.
        -- rewrite !at_cons_S. apply Hiff; [lra | lia].
      * intros Hsame.
        assert (Hd : sqrt ((lm_x c - lm_x p) ^ 2 + (lm_y c - lm_y p) ^ 2) = 0).
        { pose proof (Hsame 0%nat ltac:(lia)) as H0. cbn in H0. injection H0 as ->.
          apply sqrt_squares_zero. split; lra. }
        rewrite Hd in *.
        assert (Hrest : total = acc + 0).
        { apply Hiff. intros i Hi. specialize (Hsame (S i) ltac:(lia)).
          rewrite !at_cons_S in Hsame. exact Hsame. }
        lra.
Qed.

(** X9.  The movement speed of a hand is 0 when either array has fewer than
    21 landmarks.  Otherwise the loop reads every index the two arrays
    share: the call throws exactly when one of them has a hole there, and
    else returns a speed that is never negative and is 0 exactly when no
    landmark has changed its x or y since the previous frame. *)
Theorem movement_speed_is_zero_exactly_for_a_still_hand :
  forall (current previous : Landmarks),
    let shared := Nat.min (List.length current) (List.length previous) in
    ((List.length current < 21)%nat \/ (List.length previous < 21)%nat ->
     calculateMovementSpeed current previous = Normal 0) /\
    ((21 <= List.length current)%nat -> (21 <= List.length previous)%nat ->
     (calculateMovementSpeed current previous = Throw <->
      exists i, (i < shared)%nat /\ (at_ current i = None \/ at_ previous i = None))) /\
    (forall speed,
        calculateMovementSpeed current previous = Normal speed ->
        0 <= speed /\
        ((21 <= List.length current)%nat -> (21 <= List.length previous)%nat ->
         (speed = 0 <->
          forall i, (i < shared)%nat -> at_ current i = at_ previous i))).
Proof.
  intros current previous shared. subst shared. split; [|split].
  - intros Hshort. unfold calculateMovementSpeed.
    assert (E : (List.length current <? 21)%nat || (List.length previous <? 21)%nat = true).
    { apply orb_true_iff. destruct Hshort as [H|H]; [left | right];
        apply Nat.ltb_lt; exact H. }
    rewrite E. reflexivity.
  - intros Hc Hp. unfold calculateMovementSpeed.
    apply Nat.ltb_ge in Hc, Hp. rewrite Hc, Hp. cbn [orb].
    rewrite <- (totalMovement_throws current previous 0).
    destruct (totalMovement current previous 0); cbn [cbind];
      split; intros H; congruence.
  - intros speed Hspeed. split; [eapply calculateMovementSpeed_nonneg; exact Hspeed|].
    intros Hc Hp. unfold calculateMovementSpeed in Hspeed.
    assert (Hn : 0 < INR (List.length current)) by (apply lt_0_INR; lia).
    apply Nat.ltb_ge in Hc, Hp. rewrite Hc, Hp in Hspeed. cbn [orb] in Hspeed.
    destruct (totalMovement current previous 0) as [total|] eqn:Htotal;
      cbn [cbind] in Hspeed; [|discriminate].
    injection Hspeed as <-.
    destruct (totalMovement_still _ _ _ Htotal) as [_ Hiff].
    rewrite <- Hiff. split.
    + intros H. apply (Rmult_eq_compat_r (INR (List.length current))) in H.
      rewrite Rmult_0_l in H. unfold Rdiv in H.
      rewrite Rmult_assoc, Rinv_l, Rmult_1_r in H by lra. exact H.
    + intros ->. unfold Rdiv. apply Rmult_0_l.
Qed.

(** * The analysis of a hand *)

Lemma calculateHandSize_nonneg landmarks size :
  calculateHandSize landmarks = Normal size -> 0 <= size.
Proof.
  unfold calculateHandSize, deref.
  destruct (_ <? 21)%nat; [intros H; injection H as <-; lra|].
  destruct (at_ landmarks 0); cbn [cbind]; [|discriminate].
  destruct (at_ landmarks 12); cbn [cbind]; [|discriminate].
  intros H. injection H as <-. apply sqrt_pos.
Qed.

Lemma totalMovement_holeFree current previous acc :
  holeFree current = true -> holeFree previous = true ->
  exists total, totalMovement current previous acc = Normal total.
Proof.
  revert previous acc. induction current as [|c current IH]; intros previous acc Hc Hp.
  - exists acc. reflexivity.
  - destruct previous as [|p previous]; [exists acc; reflexivity|].
    cbn [holeFree forallb] in Hc, Hp.
    apply andb_true_iff in Hc. apply andb_true_iff in Hp.
    destruct Hc as [Hc Hcs], Hp as [Hp Hps].
    destruct c as [c|]; [|discriminate]. destruct p as [p|]; [|discriminate].
    cbn [totalMovement]. apply IH; assumption.
Qed.

(** [analyzeHandActivity] returns when the hand is a full one, the previous
    hand (if there is one) is full or short, and the face (if there is one)
    is empty or has its nose tip. *)
Lemma analyzeHandActivity_returns landmarks previousLandmarks faceLandmarks :
  fullHand landmarks = true ->
  match previousLandmarks with
  | Some previous => fullHand previous = true \/ (List.length previous < 21)%nat
  | None => True
  end ->
  match faceLandmarks with
  | Some face => face = [] \/ at_ face 1 <> None
  | None => True
  end ->
  exists analysis,
    analyzeHandActivity landmarks previousLandmarks faceLandmarks = Normal analysis.
Proof.
  intros Hfull Hprev Hface. unfold analyzeHandActivity.
  destruct (@recognizeGesture_table landmarks (@fullHand_length landmarks Hfull)
              (fun i => @fullHand_reads landmarks i Hfull)) as (g & -> & _).
  cbn [cbind].
  destruct (@fullHand_at landmarks 0 Hfull) as [wrist Hwrist]; [lia|].
  destruct (@fullHand_at landmarks 12 Hfull) as [tip Htip]; [lia|].
  unfold calculateHandSize, deref.
  rewrite (fullHand_length _ Hfull), Hwrist, Htip. cbn [cbind].
  assert (Hspeed : exists speed,
             match previousLandmarks with
             | Some previous => calculateMovementSpeed landmarks previous
             | None => Normal 0
             end = Normal speed).
  { destruct previousLandmarks as [previous|]; [|exists 0; reflexivity].
    unfold calculateMovementSpeed. rewrite (fullHand_length _ Hfull). cbn [orb].
    destruct Hprev as [Hp | Hp].
    - rewrite (fullHand_length _ Hp).
      unfold fullHand in Hfull, Hp.
      apply andb_true_iff in Hfull. apply andb_true_iff in Hp.
      destruct (@totalMovement_holeFree landmarks previous 0 (proj2 Hfull) (proj2 Hp))
        as [total ->].
      cbn [cbind]. eexists. reflexivity.
    - apply Nat.ltb_lt in Hp. rewrite Hp. exists 0. reflexivity. }
  destruct Hspeed as [speed ->]. cbn [cbind].
  destruct faceLandmarks as [face|]; cbn [cbind]; [|eexists; reflexivity].
  destruct face as [|e face]; cbn [List.length Nat.ltb Nat.leb cbind];
    [eexists; reflexivity|].
  destruct Hface as [Hface|Hface]; [discriminate|].
  destruct (at_ (e :: face) 1) as [nose|]; [|contradiction].
  cbn [cbind]. eexists. reflexivity.
Qed.

(** X10.  Whenever [analyzeHandActivity] returns, the hand is suspicious
    exactly when it is near the face, faster than 0.1 or smaller than 0.05:
    the recognised gesture has no influence on the verdict.  The analysis
    carries the landmarks and the gesture of [recognizeGesture]; without
    previous landmarks the speed is 0, and a hand can be near the face only
    if a face with at least one landmark was passed. *)
Theorem suspicious_hand_is_near_fast_or_small :
  forall (landmarks : Landmarks) (previousLandmarks faceLandmarks : option Landmarks)
         (analysis : HandAnalysis),
    analyzeHandActivity landmarks previousLandmarks faceLandmarks = Normal analysis ->
    suspiciousActivity analysis =
      isNearFace analysis || Rgtb (movementSpeed analysis) 0.1
      || Rltb (handSize analysis) 0.05 /\
    handMeshUtils.landmarks analysis = landmarks /\
    recognizeGesture landmarks = Normal (gesture analysis) /\
    calculateHandSize landmarks = Normal (handSize analysis) /\
    0 <= handSize analysis /\ 0 <= movementSpeed analysis /\
    (previousLandmarks = None -> movementSpeed analysis = 0) /\
    (isNearFace analysis = true ->
     exists face, faceLandmarks = Some face /\ face <> []).
Proof.
  intros landmarks previousLandmarks faceLandmarks analysis.
  unfold analyzeHandActivity.
  destruct (recognizeGesture landmarks) as [g|]; cbn [cbind]; [|discriminate].
  destruct (calculateHandSize landmarks) as [size|] eqn:Hsize; cbn [cbind];
    [|discriminate].
  destruct (match previousLandmarks with
            | Some previous => calculateMovementSpeed landmarks previous
            | None => Normal 0
            end) as [speed|] eqn:Hspeed; cbn [cbind]; [|discriminate].
  destruct (match faceLandmarks with
            | Some face => _
            | None => Normal false
            end) as [near|] eqn:Hnear; cbn [cbind]; [|discriminate].
  intros H. injection H as <-.
  cbn [suspiciousActivity isNearFace movementSpeed handSize handMeshUtils.landmarks
       gesture].
  split; [|split; [reflexivity|split; [reflexivity|split; [reflexivity|]]]].
  - destruct near, (Rgtb speed 0.1), (Rltb size 0.05), (gesture_type g); reflexivity.
  - split; [eapply calculateHandSize_nonneg; exact Hsize|]. split; [|split].
    + destruct previousLandmarks as [previous|].
      * eapply calculateMovementSpeed_nonneg; exact Hspeed.
      * injection Hspeed as <-. lra.
    + intros ->. injection Hspeed as <-. reflexivity.
    + intros ->. destruct faceLandmarks as [face|]; [|discriminate].
      exists face. split; [reflexivity|].
      intros ->. cbn in Hnear. discriminate.
Qed.

(** The closed hand seen for the first time, without a face. *)
Lemma suspicious_hand_is_near_fast_or_small_witness :
  exists analysis,
    analyzeHandActivity fist None None = Normal analysis /\
    suspiciousActivity analysis =
      isNearFace analysis || Rgtb (movementSpeed analysis) 0.1
      || Rltb (handSize analysis) 0.05.
Proof.
  destruct (@analyzeHandActivity_returns fist None None fist_full I I)
    as [analysis Hrun].
  exists analysis. split; [exact Hrun|].
  exact (proj1 (suspicious_hand_is_near_fast_or_small fist None None Hrun)).
Defined.

(** X11.  [analyzeHandActivity] has no check of its own for the number of
    landmarks: given fewer than 21 and no face (or an empty one) it returns,
    whatever the previous landmarks are, an UNKNOWN gesture of confidence 0,
    size 0 and speed 0, and calls the hand suspicious, for a size of 0 is
    below 0.05. *)
Theorem short_hand_is_always_suspicious :
  forall (landmarks : Landmarks) (previousLandmarks faceLandmarks : option Landmarks),
    (List.length landmarks < 21)%nat ->
    faceLandmarks = None \/ faceLandmarks = Some [] ->
    analyzeHandActivity landmarks previousLandmarks faceLandmarks =
      Normal (mkHandAnalysis landmarks
                (mkHandGesture UNKNOWN 0 "Insufficient landmarks")
                false 0 0 true).
Proof.
  intros landmarks previousLandmarks faceLandmarks Hshort Hface.
  apply Nat.ltb_lt in Hshort.
  unfold analyzeHandActivity, recognizeGesture, calculateHandSize,
    calculateMovementSpeed.
  rewrite Hshort. cbn [cbind orb].
  assert (Hspeed : match previousLandmarks with
                   | Some _ => Normal 0
                   | None => Normal 0
                   end = Normal 0)
    by (destruct previousLandmarks; reflexivity).
  rewrite Hspeed. cbn [cbind].
  assert (Hsmall : Rltb 0 0.05 = true) by (apply Rltb_true; lra).
  assert (Hslow : Rgtb 0 0.1 = false) by (apply Rgtb_false; lra).
  destruct Hface as [-> | ->]; cbn [List.length Nat.ltb Nat.leb cbind gesture_type];
    rewrite Hsmall, Hslow; reflexivity.
Qed.

(** A hand of five landmarks, without a face. *)
Lemma short_hand_is_always_suspicious_witness :
  analyzeHandActivity shortHand None None =
    Normal (mkHandAnalysis shortHand
              (mkHandGesture UNKNOWN 0 "Insufficient landmarks") false 0 0 true).
Proof.
  apply short_hand_is_always_suspicious; [cbn; lia | left; reflexivity].
Defined.

(** * Penalties outside the frames *)

(** X12.  The two penalties that are applied outside [processFrame] -- the
    AI flag of the first copy and the simulated gaze drift of the demo mode
    -- take 5 points off the score, never below 0, whether or not the
    debounce of [logEvent] lets their event into the log: within 2000 ms of
    the last logged event the score drops and the log stays as it is.  In the
    later copies the AI flag does nothing, and without the demo mode the
    gaze drift does nothing. *)
Theorem penalties_apply_even_when_the_event_is_dropped :
  forall (v : Version) (config : AppConfig) (message : string) (w : World),
    let ai := snd (dispatch FirstVersion config (aiSuspicious message) w) in
    let drift := snd (dispatch v config demoGazeDrift w) in
    score ai = Math_max 0 (score w - 5) /\
    events ai =
      (if (nextNow w - lastEventTime (refs w) <? 2000)%Z then events w
       else events w ++
            [eventAt config w LOOKING_AWAY HIGH ("AI Flag: " ++ message)]) /\
    status ai = status w /\
    (forall copy,
        dispatch (LaterVersion copy) config (aiSuspicious message) w = (Normal tt, w)) /\
    (demoMode config = true ->
     score drift = Math_max 0 (score w - 5) /\
     events drift =
       (if (nextNow w - lastEventTime (refs w) <? 2000)%Z then events w
        else events w ++
             [eventAt config w LOOKING_AWAY LOW "Simulated: Gaze drift detected"]) /\
     status drift = with_isLookingAway true (status w)) /\
    (demoMode config = false -> dispatch v config demoGazeDrift w = (Normal tt, w)).
Proof.
  intros v config message w ai drift.
  assert (Hai : ai = with_score (penalty (score w))
                       (if (nextNow w - lastEventTime (refs w) <? 2000)%Z
                        then ticked w
                        else logged config LOOKING_AWAY HIGH ("AI Flag: " ++ message) w)).
  { unfold ai, dispatch, bind. rewrite logEvent_eq.
    destruct (_ <? 2000)%Z; reflexivity. }
  split; [|split; [|split; [|split; [|split]]]].
  - rewrite Hai. destruct (_ <? 2000)%Z; reflexivity.
  - rewrite Hai. destruct (_ <? 2000)%Z; reflexivity.
  - rewrite Hai. destruct (_ <? 2000)%Z; reflexivity.
  - intros copy. reflexivity.
  - intros Hdemo.
    assert (Hdrift :
              drift = with_status (with_isLookingAway true (status w))
                        (with_score (penalty (score w))
                           (if (nextNow w - lastEventTime (refs w) <? 2000)%Z
                            then ticked w
                            else logged config LOOKING_AWAY LOW
                                   "Simulated: Gaze drift detected" w))).
    { unfold drift, dispatch. rewrite Hdemo. unfold bind. rewrite logEvent_eq.
      destruct (_ <? 2000)%Z; reflexivity. }
    rewrite Hdrift. destruct (_ <? 2000)%Z; repeat split.
  - intros Hdemo. unfold dispatch. rewrite Hdemo. reflexivity.
Qed.

(** * How fast the score can rise *)

Lemma scoreUpdater_rise config d s :
  0 <= d -> 0 <= s <= 100 -> scoreUpdater config d s <= s + 0.05.
Proof.
  intros Hd Hs. rewrite scoreUpdater_unfold.
  pose proof (multiplierOf_pos (examMode config)) as Hm.
  assert (Hr : 0 <= recoveryOf d <= 0.05).
  { unfold recoveryOf. destruct (Rgtb d 0); lra. }
  assert (Hdm : 0 <= d * multiplierOf (examMode config)) by (apply Rmult_le_pos; lra).
  unfold clamp, Math_max, Math_min, Rmax, Rmin. Rcases; lra.
Qed.

Lemma dispatch_rise v config c w :
  scoreInRange w -> score (snd (dispatch v config c w)) <= score w + 0.05.
Proof.
  intros Hs. unfold scoreInRange in Hs.
  assert (Hframe : forall w0, score w0 = score w ->
             score (snd (processFrame v config w0)) <= score w + 0.05).
  { intros w0 E.
    pose proof (processFrame_spec v config w0) as H. unfold wp in H.
    destruct (processFrame v config w0) as [[[]|] w']; cbn [snd].
    - destruct H as [[_ ->] | [_ (l & w1 & _ & _ & _ & Hd & ->)]]; [lra|].
      cbn [score with_score]. rewrite E. apply scoreUpdater_rise; assumption.
    - rewrite (fs_score (proj2 H)). lra. }
  assert (Hpenalty : penalty (score w) <= score w + 0.05).
  { unfold penalty, Math_max, Rmax. Rcases; lra. }
  destruct c as [results | results | message | | ]; unfold dispatch.
  - unfold bind, modifyRefs, modify. apply Hframe. reflexivity.
  - unfold bind, modifyRefs, modify. apply Hframe. reflexivity.
  - destruct v; [|cbn; lra].
    unfold bind. rewrite logEvent_eq. cbn.
    destruct (_ <? 2000)%Z; exact Hpenalty.
  - destruct (demoMode config); [|cbn; lra].
    unfold bind. rewrite logEvent_eq. cbn.
    destruct (_ <? 2000)%Z; exact Hpenalty.
  - cbn. lra.
Qed.

(** X13.  The score never jumps up: one callback raises it by at most the
    recovery of 0.05, so after a session of [n] callbacks it is at most
    0.05 [n] above where it started. *)
Theorem score_rises_by_at_most_the_recovery :
  forall (v : Version) (session : list (AppConfig * Callback)) (w : World),
    scoreInRange w ->
    score (run v session w) <= score w + 0.05 * INR (List.length session) /\
    (forall config c, score (snd (dispatch v config c w)) <= score w + 0.05).
Proof.
  intros v session w Hs. split.
  - revert w Hs. induction session as [|[config c] rest IH]; intros w Hs.
    + cbn. lra.
    + cbn [run List.length]. rewrite S_INR.
      pose proof (dispatch_rise v config c Hs) as Hstep.
      assert (Hs' : scoreInRange (snd (dispatch v config c w)))
        by (apply (cs_range (callbackStep_dispatch v config c w)), Hs).
      specialize (IH _ Hs'). lra.
  - intros config c. apply dispatch_rise, Hs.
Qed.

(** A session of three callbacks from the initial world. *)
Lemma score_rises_by_at_most_the_recovery_witness :
  let session :=
    [(INITIAL_CONFIG, faceMesh_onResults (mkFaceResults (Some [turnedFace])));
     (INITIAL_CONFIG, hands_onResults (mkHandResults None));
     (INITIAL_CONFIG, demoGazeReset)] in
  score (run FirstVersion session (initialWorld exampleHost)) <= 100 + 0.05 * 3.
Proof.
  intros session.
  assert (Hs : scoreInRange (initialWorld exampleHost))
    by (unfold scoreInRange; cbn; lra).
  pose proof (proj1 (score_rises_by_at_most_the_recovery FirstVersion session Hs)) as H.
  cbn [List.length session score initialWorld] in H.
  replace (INR 3) with 3 in H by (cbn; lra). exact H.
Defined.

(** * Looking down *)

Lemma greater_Num r b : greater (Num r) b = true <-> b < r.
Proof. apply Rgtb_true. Qed.

Lemma less_Num r b : less (Num r) b = true <-> r < b.
Proof. apply Rltb_true. Qed.

Lemma lookingAwayCondition_finite v config y p :
  lookingAwayCondition v config (mkHeadPose (Num y) (Num p)) = true <->
  YAW_THRESHOLD v < Rabs y \/ p < - 0.20 \/
  (if ExamMode_eqb (examMode config) Written then 0.8 else 0.20) < p.
Proof.
  unfold lookingAwayCondition. cbn [yaw pitch Math_abs].
  unfold PITCH_THRESHOLD.
  destruct (greater (Num (Rabs y)) (YAW_THRESHOLD v)) eqn:Hy,
           (less (Num p) _) eqn:Hup,
           (greater (Num p) (if ExamMode_eqb (examMode config) Written
                             then 0.8 else 0.20)) eqn:Hdown;
    try apply greater_Num in Hy; try apply less_Num in Hup;
    try apply greater_Num in Hdown;
    try (split;
         [intros _;
          first [left; assumption | right; left; lra | right; right; assumption]
         | reflexivity]).
  cbv iota. split; [discriminate|].
  apply Rgtb_false in Hy. apply Rltb_false in Hup. apply Rgtb_false in Hdown.
  intros [H | [H | H]]; lra.
Qed.

(** X14.  For a finite head pose the face looks away exactly when the yaw
    exceeds the yaw threshold in absolute value, the pitch is below -0.20
    (looking up) or the pitch is above the look-down limit, which is 0.8 in
    the Written mode and 0.20 otherwise.  A head that is bowed with a pitch
    between 0.20 and 0.8 and not turned is therefore tolerated in the
    Written mode and flagged in the MCQ and Coding modes, which do not
    differ in what they flag. *)
Theorem looking_down_is_tolerated_in_written_mode :
  forall (v : Version) (config : AppConfig) (y p : R),
    (lookingAwayCondition v config (mkHeadPose (Num y) (Num p)) = true <->
     YAW_THRESHOLD v < Rabs y \/ p < - 0.20 \/
     (if ExamMode_eqb (examMode config) Written then 0.8 else 0.20) < p) /\
    (Rabs y <= YAW_THRESHOLD v -> 0.20 < p <= 0.8 ->
     lookingAwayCondition v config (mkHeadPose (Num y) (Num p)) =
       negb (ExamMode_eqb (examMode config) Written)) /\
    (forall privacy invisible demo voice pose,
        lookingAwayCondition v (mkAppConfig privacy invisible MCQ demo voice) pose =
        lookingAwayCondition v (mkAppConfig privacy invisible Coding demo voice) pose).
Proof.
  intros v config y p. split; [apply lookingAwayCondition_finite|]. split.
  - intros Hy Hp.
    destruct (lookingAwayCondition v config (mkHeadPose (Num y) (Num p))) eqn:E.
    + apply lookingAwayCondition_finite in E.
      destruct (ExamMode_eqb (examMode config) Written); [|reflexivity].
      exfalso. destruct E as [E | [E | E]]; lra.
    + destruct (ExamMode_eqb (examMode config) Written) eqn:Hmode; [reflexivity|].
      exfalso.
      assert (H : lookingAwayCondition v config (mkHeadPose (Num y) (Num p)) = true).
      { apply lookingAwayCondition_finite. rewrite Hmode. right. right. lra. }
      congruence.
  - intros privacy invisible demo voice pose. reflexivity.
Qed.

(** A head bowed with a pitch of 0.5 and not turned. *)
Lemma looking_down_is_tolerated_in_written_mode_witness :
  lookingAwayCondition FirstVersion (mkAppConfig true false Written false true)
    (mkHeadPose (Num 0) (Num 0.5)) = false /\
  lookingAwayCondition FirstVersion (mkAppConfig true false Coding false true)
    (mkHeadPose (Num 0) (Num 0.5)) = true.
Proof.
  assert (Hy : Rabs 0 <= YAW_THRESHOLD FirstVersion)
    by (rewrite Rabs_R0; simpl; lra).
  assert (Hp : 0.20 < 0.5 <= 0.8) by lra.
  split.
  - exact (proj1 (proj2 (looking_down_is_tolerated_in_written_mode FirstVersion
                           (mkAppConfig true false Written false true) 0 0.5)) Hy Hp).
  - exact (proj1 (proj2 (looking_down_is_tolerated_in_written_mode FirstVersion
                           (mkAppConfig true false Coding false true) 0 0.5)) Hy Hp).
Defined.

(** * What the hand loops keep *)

Lemma wp_and {A} (c : M A) (Q1 Q2 : A -> World -> Prop) (E1 E2 : World -> Prop) w :
  wp c Q1 E1 w -> wp c Q2 E2 w ->
  wp c (fun a w' => Q1 a w' /\ Q2 a w') (fun w' => E1 w' /\ E2 w') w.
Proof.
  unfold wp. destruct (c w) as [[a|] w']; auto.
Qed.

Lemma wp_run {A} (c : M A) (Q : A -> World -> Prop) (E : World -> Prop) w a w' :
  wp c Q E w -> c w = (Normal a, w') -> Q a w'.
Proof. unfold wp. intros H Hrun. rewrite Hrun in H. exact H. Qed.

Section HandLoops.
  Variables (Inv : Locals -> World -> Prop) (E : World -> Prop).
  Variables (config : AppConfig) (faceResults : option FaceResults).

Lemma firstHandLoop_invariant :
    (forall hand l w, Inv l w -> wp (firstHandBody faceResults hand l) Inv E w) ->
    forall hands l w, Inv l w -> wp (firstHandLoop faceResults hands l) Inv E w.
  Proof.
    intros Hbody hands. induction hands as [|hand rest IH]; intros l w H; simpl.
    - exact H.
    - apply wp_bind.
      eapply wp_conseq; [apply Hbody; exact H | | trivial].
      cbv beta. intros l1 w1 H1. apply IH, H1.
  Qed.

Lemma laterHandLoop_invariant :
    (forall handIndex hand l w,
        Inv l w -> wp (laterHandBody config faceResults handIndex hand l) Inv E w) ->
    forall hands handIndex l w,
      Inv l w -> wp (laterHandLoop config faceResults handIndex hands l) Inv E w.
  Proof.
    intros Hbody hands. induction hands as [|hand rest IH]; intros handIndex l w H; simpl.
    - exact H.
    - apply wp_bind.
      eapply wp_conseq; [apply Hbody; exact H | | trivial].
      cbv beta. intros l1 w1 H1. apply IH, H1.
  Qed.
End HandLoops.

Lemma handLogic_invariant (Inv : Locals -> World -> Prop) (E : World -> Prop)
    v config faceResults handResults l w :
  (forall hand l w, Inv l w -> wp (firstHandBody faceResults hand l) Inv E w) ->
  (forall handIndex hand l w,
      Inv l w -> wp (laterHandBody config faceResults handIndex hand l) Inv E w) ->
  (forall l w, Inv l w -> Inv l (ticked w)) ->
  Inv (match detectedHands handResults with
       | [] => l
       | _ :: _ => flag (with_handsDetected true) l
       end) w ->
  wp (handLogic v config faceResults handResults l) Inv E w.
Proof.
  intros Hfirst Hlater Htick H. unfold handLogic.
  destruct (detectedHands handResults) as [|hand rest].
  - destruct v, handResults; wp_go; auto.
  - destruct v.
    + apply firstHandLoop_invariant; assumption.
    + apply laterHandLoop_invariant; assumption.
Qed.

Lemma analyzeHandActivity_near landmarks previousLandmarks faceLandmarks analysis :
  analyzeHandActivity landmarks previousLandmarks faceLandmarks = Normal analysis ->
  isNearFace analysis = true ->
  exists face, faceLandmarks = Some face /\ face <> [].
Proof.
  unfold analyzeHandActivity.
  destruct (recognizeGesture landmarks) as [g|]; cbn [cbind]; [|discriminate].
  destruct (calculateHandSize landmarks) as [size|]; cbn [cbind]; [|discriminate].
  destruct (match previousLandmarks with
            | Some previous => calculateMovementSpeed landmarks previous
            | None => Normal 0
            end) as [speed|]; cbn [cbind]; [|discriminate].
  destruct (match faceLandmarks with
            | Some face => _
            | None => Normal false
            end) as [near|] eqn:Hnear; cbn [cbind]; [|discriminate].
  intros H. injection H as <-. cbn [isNearFace]. intros ->.
  destruct faceLandmarks as [face|]; [|discriminate].
  exists face. split; [reflexivity|]. intros ->. cbn in Hnear. discriminate.
Qed.

(** The hand logic sets [handNearFace] only with a face in the frame, and
    [handsDetected] exactly when there are hands. *)
Lemma handLogic_flags v config faceResults handResults l w :
  handsDetected (currentStatus l) = false ->
  handNearFace (currentStatus l) = false ->
  wp (handLogic v config faceResults handResults l)
     (fun l' _ =>
        handsDetected (currentStatus l') =
          match detectedHands handResults with [] => false | _ :: _ => true end /\
        (handNearFace (currentStatus l') = true -> detectedFaces faceResults <> []))
     (fun _ => True) w.
Proof.
  intros Hhands Hnear.
  apply (@handLogic_invariant
           (fun l' _ =>
              handsDetected (currentStatus l') =
                match detectedHands handResults with [] => false | _ :: _ => true end /\
              (handNearFace (currentStatus l') = true -> detectedFaces faceResults <> []))).
  - intros hand l0 w0 [H1 H2]. unfold firstHandBody.
    destruct (faceDetected (currentStatus l0)); [|wp_go; auto].
    destruct (detectedFaces faceResults) eqn:Hfaces; [wp_go; auto|].
    apply wp_bind, wp_lift.
    destruct (calculateHandFaceDistance _ _); [|exact I].
    wp_go; cbn; (split; [exact H1|]); [intros _; discriminate | exact H2].
  - intros handIndex hand l0 w0 [H1 H2]. unfold laterHandBody.
    destruct hand as [hand|]; [|wp_go; auto].
    destruct (_ <? 21)%nat; [wp_go; auto|].
    apply wp_bind, wp_gets. apply wp_bind, wp_lift.
    destruct (analyzeHandActivity _ _ _) as [analysis|] eqn:Hrun; [|exact I].
    assert (Hface : isNearFace analysis = true -> detectedFaces faceResults <> []).
    { intros Hn. destruct (analyzeHandActivity_near _ _ _ Hrun Hn) as (face & Hf & _).
      destruct (detectedFaces faceResults); [discriminate Hf | discriminate]. }
    unfold handEvent.
    destruct (isNearFace analysis) eqn:Hn;
      wp_go; cbn; (split; [exact H1|]); auto.
  - auto.
  - destruct (detectedHands handResults); cbn.
    + split; [exact Hhands | rewrite Hnear; discriminate].
    + split; [reflexivity | rewrite Hnear; discriminate].
Qed.

(** The hand logic leaves the timers and the stored results alone. *)
Lemma handLogic_sameFaceRefs v config faceResults handResults l w :
  wp (handLogic v config faceResults handResults l)
     (fun _ w' => sameFaceRefs (refs w) (refs w')) (fun _ => True) w.
Proof.
  apply (@handLogic_invariant (fun _ w' => sameFaceRefs (refs w) (refs w'))).
  - intros hand l0 w0 H. unfold firstHandBody.
    destruct (faceDetected (currentStatus l0)); [|wp_go; auto].
    destruct (detectedFaces faceResults); [wp_go; auto|].
    apply wp_bind, wp_lift.
    destruct (calculateHandFaceDistance _ _); [|exact I].
    wp_go; exact H.
  - intros handIndex hand l0 w0 H. unfold laterHandBody.
    destruct hand as [hand|]; [|wp_go; auto].
    destruct (_ <? 21)%nat; [wp_go; auto|].
    apply wp_bind, wp_gets. apply wp_bind, wp_lift.
    destruct (analyzeHandActivity _ _ _) as [analysis|]; [|exact I].
    unfold handEvent.
    destruct (isNearFace analysis); wp_go; exact H.
  - intros l0 w0 H. exact H.
  - repeat split.
Qed.

(** No block of the frame analysis lowers the deduction. *)
Lemma handLogic_deduction v config faceResults handResults l w :
  wp (handLogic v config faceResults handResults l)
     (fun l' _ => deduction l <= deduction l') (fun _ => True) w.
Proof.
  apply (@handLogic_invariant (fun l' _ => deduction l <= deduction l')).
  - intros hand l0 w0 H. unfold firstHandBody.
    destruct (faceDetected (currentStatus l0)); [|wp_go; auto].
    destruct (detectedFaces faceResults); [wp_go; auto|].
    apply wp_bind, wp_lift.
    destruct (calculateHandFaceDistance _ _); [|exact I].
    wp_go; exact H.
  - intros handIndex hand l0 w0 H. unfold laterHandBody.
    destruct hand as [hand|]; [|wp_go; auto].
    destruct (_ <? 21)%nat; [wp_go; auto|].
    apply wp_bind, wp_gets. apply wp_bind, wp_lift.
    destruct (analyzeHandActivity _ _ _) as [analysis|]; [|exact I].
    unfold handEvent.
    destruct (isNearFace analysis); wp_go; cbn; lra.
  - auto.
  - destruct (detectedHands handResults); cbn; lra.
Qed.

(** Without hands the hand logic returns the locals it was given. *)
Lemma handLogic_no_hands v config faceResults handResults l w :
  wp (handLogic v config faceResults handResults l)
     (fun l' _ => detectedHands handResults = [] -> l' = l) (fun _ => True) w.
Proof.
  destruct (detectedHands handResults) as [|hand rest] eqn:Hhands.
  - unfold handLogic. rewrite Hhands. destruct v, handResults; wp_go; reflexivity.
  - eapply wp_conseq;
      [apply (handLogic_deduction v config faceResults handResults l w) | | trivial].
    intros ? ? _ ?. discriminate.
Qed.

(** * What the face logic does to the timers and to the deduction *)

Lemma faceLogic_report v config faceResults l w :
  wp (faceLogic v config faceResults l)
     (fun l' w' =>
        latestFaceResults (refs w') = latestFaceResults (refs w) /\
        latestHandResults (refs w') = latestHandResults (refs w) /\
        (detectedFaces faceResults = [] ->
         lookingAwayStartTime (refs w') = lookingAwayStartTime (refs w) /\
         talkingStartTime (refs w') = talkingStartTime (refs w)) /\
        (detectedFaces faceResults <> [] -> missingFaceStartTime (refs w') = None) /\
        ((1 < List.length (detectedFaces faceResults))%nat ->
         deduction l + 5 <= deduction l') /\
        deduction l <= deduction l')
     (fun _ => False) w.
Proof.
  unfold faceLogic.
  destruct (detectedFaces faceResults) as [|landmarks others] eqn:Hfaces.
  - unfold noFaceBlock.
    wp_go; cbn; repeat split; try reflexivity; try lra;
      try (intros Habs; contradiction Habs; reflexivity);
      try (intros Habs; cbn in Habs; lia).
  - unfold multipleFacesBlock, lookingAwayBlock, talkingBlock.
    destruct (1 <? List.length (landmarks :: others))%nat eqn:Hmany;
      wp_go; cbn; repeat split; try reflexivity; try lra; try discriminate;
      try (intros Habs; apply Nat.ltb_lt in Habs; cbn in Habs, Hmany; congruence).
Qed.

(** What the analysis of a frame reports besides the face flags. *)
Lemma analyzeFrame_report v config w :
  let faces := detectedFaces (latestFaceResults (refs w)) in
  let hands := detectedHands (latestHandResults (refs w)) in
  wp (analyzeFrame v config)
     (fun l w' =>
        (handsDetected (currentStatus l) = match hands with [] => false | _ => true end /\
         (handNearFace (currentStatus l) = true -> faces <> [] /\ hands <> [])) /\
        (latestFaceResults (refs w') = latestFaceResults (refs w) /\
         latestHandResults (refs w') = latestHandResults (refs w) /\
         (faces = [] ->
          lookingAwayStartTime (refs w') = lookingAwayStartTime (refs w) /\
          talkingStartTime (refs w') = talkingStartTime (refs w)) /\
         (faces <> [] -> missingFaceStartTime (refs w') = None)) /\
        ((1 < List.length faces)%nat -> 5 <= deduction l))
     (fun _ => True) w.
Proof.
  intros faces hands. unfold analyzeFrame.
  apply wp_bind, wp_gets. apply wp_bind, wp_gets. apply wp_bind.
  fold faces. fold hands.
  eapply wp_conseq;
    [apply (@wp_and _ _ _ _ _ _ _
                   (@faceLogic_spec v config w (latestFaceResults (refs w)) w
                      (frameStep_refl v config w))
                   (faceLogic_report v config (latestFaceResults (refs w))
                      (mkLocals INITIAL_STATUS 0) w))
    | | intros ? [[] _]].
  cbv beta. intros l1 w1 [(_ & Hstatus & _) (Hf & Hh & Hno & Hyes & Hmany & _)].
  fold faces in Hstatus, Hno, Hyes, Hmany.
  assert (Hflags : handsDetected (currentStatus l1) = false /\
                   handNearFace (currentStatus l1) = false).
  { rewrite Hstatus. unfold faceStatus. destruct faces; split; reflexivity. }
  eapply wp_conseq;
    [apply (@wp_and _ _ _ _ _ _ _
              (@wp_and _ _ _ _ _ _ _
                 (@handLogic_flags v config (latestFaceResults (refs w))
                    (latestHandResults (refs w)) l1 w1
                    (proj1 Hflags) (proj2 Hflags))
                 (handLogic_sameFaceRefs v config (latestFaceResults (refs w))
                    (latestHandResults (refs w)) l1 w1))
              (@wp_and _ _ _ _ _ _ _
                 (handLogic_deduction v config (latestFaceResults (refs w))
                    (latestHandResults (refs w)) l1 w1)
                 (handLogic_no_hands v config (latestFaceResults (refs w))
                    (latestHandResults (refs w)) l1 w1)))
    | | trivial].
  cbv beta. intros l2 w2 [[Hfl (Hm & Hl & Ht & Hlf & Hlh)] [Hd Hsame]].
  fold faces hands in Hfl, Hsame.
  split.
  { split; [apply Hfl|]. intros Hn. split; [apply Hfl, Hn|].
    intros Hnone. rewrite (Hsame Hnone) in Hn. rewrite (proj2 Hflags) in Hn.
    discriminate. }
  split.
  - split; [congruence|]. split; [congruence|]. split.
    + intros Hnone. destruct (Hno Hnone) as [A B]. split; congruence.
    + intros Hsome. rewrite Hm. apply Hyes, Hsome.
  - intros Hlen. specialize (Hmany Hlen). cbn in Hmany. lra.
Qed.

Lemma analyzeFrame_facts v config w l w' :
  analyzeFrame v config w = (Normal l, w') ->
  let faces := detectedFaces (latestFaceResults (refs w)) in
  let hands := detectedHands (latestHandResults (refs w)) in
  (handsDetected (currentStatus l) = match hands with [] => false | _ => true end /\
   (handNearFace (currentStatus l) = true -> faces <> [] /\ hands <> [])) /\
  (latestFaceResults (refs w') = latestFaceResults (refs w) /\
   latestHandResults (refs w') = latestHandResults (refs w) /\
   (faces = [] ->
    lookingAwayStartTime (refs w') = lookingAwayStartTime (refs w) /\
    talkingStartTime (refs w') = talkingStartTime (refs w)) /\
   (faces <> [] -> missingFaceStartTime (refs w') = None)) /\
  ((1 < List.length faces)%nat -> 5 <= deduction l).
Proof.
  intros Hrun.
  pose proof (analyzeFrame_report v config w) as H. cbv zeta in H.
  unfold wp in H. rewrite Hrun in H. exact H.
Qed.

Lemma processed_report v config w w' :
  processed v config w w' ->
  exists l w1,
    analyzeFrame v config w = (Normal l, w1) /\
    w' = with_score (scoreUpdater config (deduction l) (score w))
           (with_status (currentStatus l) w1) /\
    0 <= deduction l /\
    sameFaceFlags
      (faceStatus v config (detectedFaces (latestFaceResults (refs w))))
      (currentStatus l).
Proof.
  intros Hdone.
  destruct (processed_frameDone Hdone) as (l & w1 & Hrun & _ & Hflags & Hd & ->).
  exists l, w1. auto.
Qed.

(** * The status of a frame *)

(** X15.  The status that [processFrame] publishes is built anew from the
    latest results of the two detectors: [faceDetected] and [handsDetected]
    say exactly whether there is a face and whether there is a hand,
    [multipleFaces] whether there are two faces or more; [isLookingAway],
    [isTalking] and [handNearFace] are set only with a face in the frame, and
    [handNearFace] only with a hand as well.  No flag survives from an
    earlier frame. *)
Theorem status_is_rebuilt_from_the_latest_results :
  forall (v : Version) (config : AppConfig) (w w' : World),
    processed v config w w' ->
    let faces := detectedFaces (latestFaceResults (refs w)) in
    let hands := detectedHands (latestHandResults (refs w)) in
    (faceDetected (status w') = true <-> faces <> []) /\
    (handsDetected (status w') = true <-> hands <> []) /\
    (multipleFaces (status w') = true <-> (2 <= List.length faces)%nat) /\
    (isLookingAway (status w') = true -> faceDetected (status w') = true) /\
    (isTalking (status w') = true -> faceDetected (status w') = true) /\
    (handNearFace (status w') = true ->
     faceDetected (status w') = true /\ handsDetected (status w') = true).
Proof.
  intros v config w w' Hdone faces hands.
  destruct (processed_report Hdone) as (l & w1 & Hrun & -> & _ & Hface).
  destruct (analyzeFrame_facts _ _ _ Hrun) as ((Hhands & Hnear) & _ & _).
  fold faces in Hface, Hnear. fold hands in Hhands.
  cbn [status with_score with_status].
  destruct Hface as (Hfd & Hmf & Hla & Htk).
  assert (Hfaces : faceDetected (currentStatus l) = true <-> faces <> []).
  { rewrite Hfd. unfold faceStatus.
    destruct faces; cbn; split; congruence. }
  assert (Hhd : handsDetected (currentStatus l) = true <-> hands <> []).
  { rewrite Hhands. destruct hands; split; congruence. }
  split; [exact Hfaces|]. split; [exact Hhd|]. split; [|split; [|split]].
  - rewrite Hmf. unfold faceStatus. destruct faces as [|f rest].
    + cbn. split; [discriminate | lia].
    + cbn [multipleFaces]. rewrite Nat.ltb_lt. lia.
  - rewrite Hla. intros H. apply Hfaces. destruct faces; [discriminate H | discriminate].
  - rewrite Htk. intros H. apply Hfaces. destruct faces; [discriminate H | discriminate].
  - intros H. destruct (Hnear H) as [Hf Hh].
    split; [apply Hfaces, Hf | apply Hhd, Hh].
Qed.

(** The turned face alone in the frame of the first copy: a face and no
    hand. *)
Lemma status_is_rebuilt_from_the_latest_results_witness :
  let w := seeing [turnedFace] (initialWorld exampleHost) in
  exists w',
    processed FirstVersion INITIAL_CONFIG w w' /\
    faceDetected (status w') = true /\
    handsDetected (status w') = false /\
    handNearFace (status w') = false.
Proof.
  intros w.
  assert (Hready : ready (host w)) by (repeat split).
  destruct (@processFrame_without_hands FirstVersion INITIAL_CONFIG w Hready eq_refl)
    as [w' Hdone].
  exists w'. split; [exact Hdone|].
  destruct (status_is_rebuilt_from_the_latest_results Hdone)
    as (Hf & Hh & _ & _ & _ & Hn).
  assert (Hnohands : handsDetected (status w') = false).
  { destruct (handsDetected (status w')); [|reflexivity].
    exfalso. apply (proj1 Hh eq_refl). reflexivity. }
  split; [apply Hf; discriminate|]. split; [exact Hnohands|].
  destruct (handNearFace (status w')); [|reflexivity].
  destruct (Hn eq_refl) as [_ Habs]. congruence.
Defined.

(** * Two faces in the frame *)

(** X16.  A second face in the frame is penalised at once, without a grace
    period and whether or not the event gets into the log: every processed
    frame with two or more faces sets [multipleFaces] and has a deduction of
    at least 5, so it takes at least 5 times the exam-mode multiplier off the
    score (down to 0) and earns no recovery. *)
Theorem every_frame_with_a_second_face_costs_five_points :
  forall (v : Version) (config : AppConfig) (w w' : World),
    processed v config w w' ->
    (2 <= List.length (detectedFaces (latestFaceResults (refs w))))%nat ->
    scoreInRange w ->
    multipleFaces (status w') = true /\
    (exists deduction,
        5 <= deduction /\
        score w' = Math_max 0 (score w - deduction * multiplierOf (examMode config))) /\
    score w' <= Math_max 0 (score w - 5 * multiplierOf (examMode config)).
Proof.
  intros v config w w' Hdone Hmany Hrange.
  destruct (processed_report Hdone) as (l & w1 & Hrun & -> & _ & Hface).
  destruct (analyzeFrame_facts _ _ _ Hrun) as (_ & _ & Hded).
  specialize (Hded Hmany).
  cbn [status score with_score with_status].
  pose proof (multiplierOf_pos (examMode config)) as Hm.
  assert (Hscore : scoreUpdater config (deduction l) (score w) =
                   Math_max 0 (score w - deduction l * multiplierOf (examMode config))).
  { rewrite scoreUpdater_unfold, recoveryOf_pos by lra.
    unfold scoreInRange in Hrange.
    assert (0 <= deduction l * multiplierOf (examMode config))
      by (apply Rmult_le_pos; lra).
    unfold clamp, Math_max, Math_min, Rmax, Rmin. Rcases; lra. }
  split; [|split].
  - destruct Hface as (_ & Hmf & _). rewrite Hmf. unfold faceStatus.
    destruct (detectedFaces (latestFaceResults (refs w))) as [|f rest];
      [cbn in Hmany; lia|].
    cbn [multipleFaces]. apply Nat.ltb_lt. exact Hmany.
  - exists (deduction l). split; [exact Hded | exact Hscore].
  - rewrite Hscore.
    assert (5 * multiplierOf (examMode config) <=
            deduction l * multiplierOf (examMode config))
      by (apply Rmult_le_compat_r; lra).
    unfold Math_max, Rmax. Rcases; lra.
Qed.

(** Two turned faces in the frame of a Coding exam: the score falls from
    100 to at most 94. *)
Lemma every_frame_with_a_second_face_costs_five_points_witness :
  let coding := mkAppConfig true false Coding false true in
  let w := seeing [turnedFace; turnedFace] (initialWorld exampleHost) in
  exists w',
    processed FirstVersion coding w w' /\
    multipleFaces (status w') = true /\
    score w' <= 94.
Proof.
  intros coding w.
  assert (Hready : ready (host w)) by (repeat split).
  destruct (@processFrame_without_hands FirstVersion coding w Hready eq_refl)
    as [w' Hdone].
  exists w'. split; [exact Hdone|].
  assert (Hmany : (2 <= List.length (detectedFaces (latestFaceResults (refs w))))%nat)
    by (cbn; lia).
  assert (Hrange : scoreInRange w) by (unfold scoreInRange; cbn; lra).
  destruct (every_frame_with_a_second_face_costs_five_points Hdone Hmany Hrange)
    as (Hflag & _ & Hscore).
  split; [exact Hflag|].
  cbn [score w seeing with_refs initialWorld examMode coding multiplierOf] in Hscore.
  unfold Math_max, Rmax in Hscore. revert Hscore. Rcases; lra.
Defined.

(** * The timers between frames *)

(** X17.  The three grace timers are only touched by the face logic, and
    not evenly.  A processed frame with a face clears the missing-face
    timer.  A processed frame without a face leaves the looking-away and
    the talking timer as they are: a grace period that was running when the
    face disappeared keeps running while it is away.  No frame changes the
    stored results of the detectors. *)
Theorem a_missing_face_does_not_reset_the_other_timers :
  forall (v : Version) (config : AppConfig) (w w' : World),
    processed v config w w' ->
    let faces := detectedFaces (latestFaceResults (refs w)) in
    (faces = [] ->
     lookingAwayStartTime (refs w') = lookingAwayStartTime (refs w) /\
     talkingStartTime (refs w') = talkingStartTime (refs w)) /\
    (faces <> [] -> missingFaceStartTime (refs w') = None) /\
    latestFaceResults (refs w') = latestFaceResults (refs w) /\
    latestHandResults (refs w') = latestHandResults (refs w).
Proof.
  intros v config w w' Hdone faces.
  destruct (processed_report Hdone) as (l & w1 & Hrun & -> & _ & _).
  destruct (analyzeFrame_facts _ _ _ Hrun) as (_ & (Hf & Hh & Hno & Hyes) & _).
  cbn [refs with_score with_status].
  split; [exact Hno|]. split; [exact Hyes|]. split; [exact Hf | exact Hh].
Qed.

(** The world after the turned face has been seen once (the looking-away
    timer runs), when the face detector then reports no face. *)
Lemma a_missing_face_does_not_reset_the_other_timers_witness :
  let w0 := seeing [turnedFace] (initialWorld exampleHost) in
  let w := seeing [] (snd (processFrame FirstVersion INITIAL_CONFIG w0)) in
  exists w',
    processed FirstVersion INITIAL_CONFIG w w' /\
    lookingAwayStartTime (refs w') = lookingAwayStartTime (refs w) /\
    talkingStartTime (refs w') = talkingStartTime (refs w).
Proof.
  intros w0 w.
  assert (Hready0 : ready (host w0)) by (repeat split).
  destruct (@processFrame_without_hands FirstVersion INITIAL_CONFIG w0 Hready0 eq_refl)
    as [w1 Hdone0].
  destruct (a_missing_face_does_not_reset_the_other_timers Hdone0)
    as (_ & _ & _ & Hhands0).
  assert (Hw : w = seeing [] w1).
  { unfold w. destruct Hdone0 as [_ Hrun0]. rewrite Hrun0. reflexivity. }
  assert (Hhost : sameHost (host w0) (host w1)).
  { destruct Hdone0 as [_ Hrun0].
    pose proof (cs_host (callbackStep_processFrame FirstVersion INITIAL_CONFIG w0)) as H.
    rewrite Hrun0 in H. exact H. }
  assert (Hready : ready (host w)).
  { rewrite Hw. cbn [host seeing with_refs].
    destruct Hhost as (Hc & Hv & Hg & _). unfold ready.
    rewrite Hc, Hv, Hg. repeat split. }
  assert (Hhands : detectedHands (latestHandResults (refs w)) = []).
  { rewrite Hw. cbn [refs seeing with_refs latestHandResults with_latestFaceResults].
    rewrite Hhands0. reflexivity. }
  destruct (@processFrame_without_hands FirstVersion INITIAL_CONFIG w Hready Hhands)
    as [w' Hdone].
  exists w'. split; [exact Hdone|].
  destruct (a_missing_face_does_not_reset_the_other_timers Hdone) as (Hno & _).
  apply Hno. rewrite Hw. reflexivity.
Defined.

(** * A frame without a face *)

Lemma noFaceBlock_eq config l w :
  noFaceBlock config l w =
    let start := missingFaceStartTime (refs w) in
    let last := lastEventTime (refs w) in
    if falsy start then
      (Normal l,
       with_refs (with_missingFaceStartTime (Some (nextNow w)) (refs w)) (ticked w))
    else if (3000 <? nextNow w - valueOf start)%Z then
      (Normal (deduct 0.5 l),
       if (5000 <? nextNow (ticked w) - last)%Z then
         if (nextNow (ticked (ticked w)) - last <? 2000)%Z
         then ticked (ticked (ticked w))
         else logged config FACE_MISSING HIGH "Face not visible for > 3 seconds."
                (ticked (ticked w))
       else ticked (ticked w))
    else (Normal l, ticked w).
Proof.
  unfold noFaceBlock. cbv [bind gets]. cbv beta iota zeta.
  destruct (falsy (missingFaceStartTime (refs w))); [reflexivity|].
  cbv [Date_now]. cbv beta iota zeta. fold (nextNow w). fold (ticked w).
  destruct (3000 <? _)%Z; [|reflexivity].
  fold (nextNow (ticked w)). fold (ticked (ticked w)).
  change (lastEventTime (refs (ticked (ticked w)))) with (lastEventTime (refs w)).
  destruct (5000 <? _)%Z; [|reflexivity].
  rewrite logEvent_eq.
  change (lastEventTime (refs (ticked (ticked w)))) with (lastEventTime (refs w)).
  destruct (_ <? 2000)%Z; reflexivity.
Qed.

Lemma analyzeFrame_no_face_no_hands v config w :
  detectedFaces (latestFaceResults (refs w)) = [] ->
  detectedHands (latestHandResults (refs w)) = [] ->
  analyzeFrame v config w =
    (fst (noFaceBlock config (mkLocals INITIAL_STATUS 0) w),
     afterNoHands v (latestHandResults (refs w))
       (snd (noFaceBlock config (mkLocals INITIAL_STATUS 0) w))).
Proof.
  intros Hfaces Hhands. unfold analyzeFrame. cbv [bind gets]. cbv beta iota.
  unfold faceLogic, handLogic. rewrite Hfaces, Hhands.
  rewrite noFaceBlock_eq. cbv zeta.
  destruct (falsy _); [|destruct (3000 <? _)%Z];
    cbv beta iota; destruct v, (latestHandResults (refs w)); reflexivity.
Qed.

Lemma events_afterNoHands v handResults w :
  events (afterNoHands v handResults w) = events w.
Proof. destruct v, handResults; reflexivity. Qed.

Lemma refs_afterNoHands v handResults w :
  refs (afterNoHands v handResults w) = refs w.
Proof. destruct v, handResults; reflexivity. Qed.

Lemma scoreUpdater_deduction config d s :
  0 < d -> scoreUpdater config d s = clamp (s - d * multiplierOf (examMode config)).
Proof.
  intros Hd. rewrite scoreUpdater_unfold, recoveryOf_pos by exact Hd. f_equal. lra.
Qed.

(** X18.  A frame without a face and without hands always completes and
    publishes the initial status.  The first such frame starts the
    missing-face timer; while the face has been missing for at most 3000 ms
    nothing is deducted or logged and the score recovers by 0.05; after that
    each such frame takes 0.5 times the exam-mode multiplier off the score,
    and logs FACE_MISSING with severity HIGH only when more than 5000 ms have
    passed since the last logged event.  A timer holding 0 counts as not
    started. *)
Theorem missing_face_grace_period :
  forall (v : Version) (config : AppConfig) (w : World),
    ready (host w) ->
    detectedFaces (latestFaceResults (refs w)) = [] ->
    detectedHands (latestHandResults (refs w)) = [] ->
    let w' := snd (processFrame v config w) in
    let start := missingFaceStartTime (refs w) in
    fst (processFrame v config w) = Normal tt /\
    status w' = INITIAL_STATUS /\
    (falsy start = true ->
     score w' = clamp (score w + 0.05) /\ events w' = events w /\
     missingFaceStartTime (refs w') = Some (nextNow w)) /\
    (falsy start = false -> (nextNow w - valueOf start <= 3000)%Z ->
     score w' = clamp (score w + 0.05) /\ events w' = events w /\
     missingFaceStartTime (refs w') = start) /\
    (falsy start = false -> (3000 < nextNow w - valueOf start)%Z ->
     score w' = clamp (score w - 0.5 * multiplierOf (examMode config)) /\
     events w' =
       events w ++
       loggedAfter 5000 config (ticked w) FACE_MISSING HIGH
         "Face not visible for > 3 seconds." /\
     missingFaceStartTime (refs w') = start).
Proof.
  intros v config w Hready Hfaces Hhands w' start.
  destruct (@processFrame_without_hands v config w Hready Hhands) as [w2 [_ Hrun]].
  pose proof (analyzeFrame_no_face_no_hands v config w Hfaces Hhands) as Han.
  rewrite noFaceBlock_eq in Han. cbv zeta in Han. fold start in Han.
  split; [rewrite Hrun; reflexivity|].
  assert (Hstatus : forall l w1,
             analyzeFrame v config w = (Normal l, w1) ->
             w' = with_score (scoreUpdater config (deduction l) (score w))
                    (with_status (currentStatus l) w1)).
  { intros l w1 H. exact (proj2 (@processFrame_done v config w l w1 Hready H)). }
  destruct (falsy start) eqn:Hfalsy.
  - cbn [fst snd] in Han. rewrite (Hstatus _ _ Han).
    cbn [status score events refs with_score with_status currentStatus deduction].
    rewrite events_afterNoHands, refs_afterNoHands.
    split; [reflexivity|]. split; [|split; [|split]]; try (intros; discriminate).
    intros _. split; [apply scoreUpdater_zero|]. split; reflexivity.
  - destruct (Z.ltb_spec 3000 (nextNow w - valueOf start)) as [Hlong|Hshort].
    + cbn [fst snd] in Han. rewrite (Hstatus _ _ Han).
      cbn [status score events refs with_score with_status currentStatus deduction
           deduct].
      rewrite events_afterNoHands, refs_afterNoHands.
      split; [reflexivity|]. split; [|split]; try (intros; discriminate);
        try (intros; lia).
      intros _ _.
      replace (0 + 0.5) with 0.5 by lra.
      split; [apply scoreUpdater_deduction; lra|].
      unfold loggedAfter.
      change (lastEventTime (refs (ticked w))) with (lastEventTime (refs w)).
      destruct (Z.ltb_spec 5000 (nextNow (ticked w) - lastEventTime (refs w)));
        cbn [andb].
      * destruct (Z.ltb_spec (nextNow (ticked (ticked w)) - lastEventTime (refs w)) 2000),
                 (Z.leb_spec 2000 (nextNow (ticked (ticked w)) - lastEventTime (refs w)));
          try lia; cbn; rewrite ?app_nil_r; split; reflexivity.
      * cbn. rewrite app_nil_r. split; reflexivity.
    + cbn [fst snd] in Han. rewrite (Hstatus _ _ Han).
      cbn [status score events refs with_score with_status currentStatus deduction].
      rewrite events_afterNoHands, refs_afterNoHands.
      split; [reflexivity|]. split; [|split]; try (intros; discriminate);
        try (intros; lia).
      intros _ _. split; [apply scoreUpdater_zero|]. split; reflexivity.
Qed.

(** The first frame of a session, before any detector has reported. *)
Lemma missing_face_grace_period_witness :
  let w := initialWorld exampleHost in
  let w' := snd (processFrame FirstVersion INITIAL_CONFIG w) in
  fst (processFrame FirstVersion INITIAL_CONFIG w) = Normal tt /\
  status w' = INITIAL_STATUS /\
  missingFaceStartTime (refs w') = Some 1700000000000%Z.
Proof.
  intros w w'.
  assert (Hready : ready (host w)) by (repeat split).
  destruct (@missing_face_grace_period FirstVersion INITIAL_CONFIG w Hready
              eq_refl eq_refl) as (Hfst & Hstatus & Hfirst & _).
  split; [exact Hfst|]. split; [exact Hstatus|].
  exact (proj2 (proj2 (Hfirst eq_refl))).
Defined.

(** * A talking face *)

Lemma talkingBlock_eq v config landmarks l w :
  talkingCondition v config (calculateMouthOpenness landmarks) = true ->
  talkingBlock v config landmarks l w =
    let start := talkingStartTime (refs w) in
    let last := lastEventTime (refs w) in
    let l' := flag (with_isTalking true) l in
    if falsy start then
      (Normal l',
       with_refs (with_talkingStartTime (Some (nextNow w)) (refs w)) (ticked w))
    else if (1500 <? nextNow w - valueOf start)%Z then
      (Normal (deduct 0.2 l'),
       if (4000 <? nextNow (ticked w) - last)%Z then
         if (nextNow (ticked (ticked w)) - last <? 2000)%Z
         then ticked (ticked (ticked w))
         else logged config TALKING MEDIUM "Sustained mouth movement detected."
                (ticked (ticked w))
       else ticked (ticked w))
    else (Normal l', ticked w).
Proof.
  intros Hcond. unfold talkingBlock. rewrite Hcond.
  cbv [bind gets]. cbv beta iota zeta.
  destruct (falsy (talkingStartTime (refs w))); [reflexivity|].
  cbv [Date_now]. cbv beta iota zeta. fold (nextNow w). fold (ticked w).
  destruct (1500 <? _)%Z; [|reflexivity].
  fold (nextNow (ticked w)). fold (ticked (ticked w)).
  change (lastEventTime (refs (ticked (ticked w)))) with (lastEventTime (refs w)).
  destruct (4000 <? _)%Z; [|reflexivity].
  rewrite logEvent_eq.
  change (lastEventTime (refs (ticked (ticked w)))) with (lastEventTime (refs w)).
  destruct (_ <? 2000)%Z; reflexivity.
Qed.

(** The frame analysis of one face that talks and does not look away,
    without hands: the talking block run after the looking-away timer has
    been cleared, then the missing-face timer is cleared. *)
Lemma analyzeFrame_talking v config landmarks w l1 w1 :
  detectedFaces (latestFaceResults (refs w)) = [landmarks] ->
  detectedHands (latestHandResults (refs w)) = [] ->
  lookingAwayCondition v config (calculateHeadPose landmarks) = false ->
  talkingBlock v config landmarks
    (flag (with_faceDetected true) (mkLocals INITIAL_STATUS 0))
    (with_refs (with_lookingAwayStartTime None (refs w)) w) = (Normal l1, w1) ->
  analyzeFrame v config w =
    (Normal l1,
     afterNoHands v (latestHandResults (refs w))
       (with_refs (with_missingFaceStartTime None (refs w1)) w1)).
Proof.
  intros Hfaces Hhands Hlook Hblock. unfold analyzeFrame.
  cbv [bind gets]. cbv beta iota.
  unfold faceLogic, handLogic. rewrite Hfaces, Hhands.
  cbv [bind]. unfold multipleFacesBlock. cbn [List.length Nat.ltb Nat.leb].
  cbv [ret]. cbv beta iota.
  rewrite (lookingAwayBlock_cleared _ _ _ _ _ Hlook).
  rewrite Hblock.
  cbv [modifyRefs modify]. cbv beta iota.
  destruct v, (latestHandResults (refs w)); reflexivity.
Qed.

(** X19.  A frame with one face that holds the talking condition (and does
    not look away), without hands, always completes and sets [isTalking].
    The first such frame starts the talking timer; while the talking has
    lasted at most 1500 ms nothing is deducted or logged and the score
    recovers by 0.05; after that each such frame takes 0.2 times the
    exam-mode multiplier off the score, and logs TALKING with severity MEDIUM
    only when more than 4000 ms have passed since the last logged event. *)
Theorem talking_grace_period :
  forall (v : Version) (config : AppConfig) (w : World) (landmarks : Landmarks),
    ready (host w) ->
    detectedFaces (latestFaceResults (refs w)) = [landmarks] ->
    detectedHands (latestHandResults (refs w)) = [] ->
    lookingAwayCondition v config (calculateHeadPose landmarks) = false ->
    talkingCondition v config (calculateMouthOpenness landmarks) = true ->
    let w' := snd (processFrame v config w) in
    let start := talkingStartTime (refs w) in
    fst (processFrame v config w) = Normal tt /\
    isTalking (status w') = true /\
    (falsy start = true ->
     score w' = clamp (score w + 0.05) /\ events w' = events w /\
     talkingStartTime (refs w') = Some (nextNow w)) /\
    (falsy start = false -> (nextNow w - valueOf start <= 1500)%Z ->
     score w' = clamp (score w + 0.05) /\ events w' = events w /\
     talkingStartTime (refs w') = start) /\
    (falsy start = false -> (1500 < nextNow w - valueOf start)%Z ->
     score w' = clamp (score w - 0.2 * multiplierOf (examMode config)) /\
     events w' =
       events w ++
       loggedAfter 4000 config (ticked w) TALKING MEDIUM
         "Sustained mouth movement detected." /\
     talkingStartTime (refs w') = start).
Proof.
  intros v config w landmarks Hready Hfaces Hhands Hlook Htalk w' start.
  destruct (@processFrame_without_hands v config w Hready Hhands) as [w2 [_ Hrun]].
  split; [rewrite Hrun; reflexivity|].
  set (w0 := with_refs (with_lookingAwayStartTime None (refs w)) w).
  pose proof (talkingBlock_eq v config landmarks
                (flag (with_faceDetected true) (mkLocals INITIAL_STATUS 0)) w0 Htalk)
    as Hblock.
  cbv zeta in Hblock.
  change (talkingStartTime (refs w0)) with start in Hblock.
  change (lastEventTime (refs w0)) with (lastEventTime (refs w)) in Hblock.
  change (nextNow w0) with (nextNow w) in Hblock.
  change (nextNow (ticked w0)) with (nextNow (ticked w)) in Hblock.
  change (nextNow (ticked (ticked w0))) with (nextNow (ticked (ticked w))) in Hblock.
  assert (Hstatus : forall l w1,
             analyzeFrame v config w = (Normal l, w1) ->
             w' = with_score (scoreUpdater config (deduction l) (score w))
                    (with_status (currentStatus l) w1)).
  { intros l w1 H. exact (proj2 (@processFrame_done v config w l w1 Hready H)). }
  destruct (falsy start) eqn:Hfalsy.
  - rewrite (Hstatus _ _ (analyzeFrame_talking _ _ _ Hfaces Hhands Hlook Hblock)).
    cbn [status score events refs with_score with_status currentStatus deduction flag
         isTalking with_isTalking].
    rewrite events_afterNoHands, refs_afterNoHands.
    split; [reflexivity|]. split; [|split; [|split]]; try (intros; discriminate).
    intros _. split; [apply scoreUpdater_zero|]. split; reflexivity.
  - destruct (Z.ltb_spec 1500 (nextNow w - valueOf start)) as [Hlong|Hshort].
    + rewrite (Hstatus _ _ (analyzeFrame_talking _ _ _ Hfaces Hhands Hlook Hblock)).
      cbn [status score events refs with_score with_status currentStatus deduction
           deduct flag isTalking with_isTalking].
      rewrite events_afterNoHands, refs_afterNoHands.
      split; [reflexivity|]. split; [|split]; try (intros; discriminate);
        try (intros; lia).
      intros _ _.
      replace (0 + 0.2) with 0.2 by lra.
      split; [apply scoreUpdater_deduction; lra|].
      unfold loggedAfter.
      change (lastEventTime (refs (ticked w))) with (lastEventTime (refs w)).
      destruct (Z.ltb_spec 4000 (nextNow (ticked w) - lastEventTime (refs w)));
        cbn [andb].
      * destruct (Z.ltb_spec (nextNow (ticked (ticked w)) - lastEventTime (refs w)) 2000),
                 (Z.leb_spec 2000 (nextNow (ticked (ticked w)) - lastEventTime (refs w)));
          try lia; cbn; rewrite ?app_nil_r; split; reflexivity.
      * cbn. rewrite app_nil_r. split; reflexivity.
    + rewrite (Hstatus _ _ (analyzeFrame_talking _ _ _ Hfaces Hhands Hlook Hblock)).
      cbn [status score events refs with_score with_status currentStatus deduction flag
           isTalking with_isTalking].
      rewrite events_afterNoHands, refs_afterNoHands.
      split; [reflexivity|]. split; [|split]; try (intros; discriminate);
        try (intros; lia).
      intros _ _. split; [apply scoreUpdater_zero|]. split; reflexivity.
Qed.

Lemma truncatedFace_pose :
  calculateHeadPose truncatedFace = mkHeadPose (Num 0) (Num 0).
Proof.
  unfold calculateHeadPose, truncatedFace. rewrite !at_landmarksOf. reflexivity.
Qed.

Lemma truncatedFace_mouth : calculateMouthOpenness truncatedFace = Num (1 / 6).
Proof.
  unfold calculateMouthOpenness, truncatedFace.
  rewrite !at_landmarksOf. cbn [Nat.ltb Nat.leb Nat.eqb truncatedFacePoint lm_x lm_y].
  rewrite !Math_hypot_vertical by lra.
  replace (Rabs (0.5 - 0.6)) with 0.1
    by (unfold Rabs; destruct (Rcase_abs _); lra).
  replace (Rabs (0.2 - 0.8)) with 0.6
    by (unfold Rabs; destruct (Rcase_abs _); lra).
  unfold jsdiv. destruct (Req_dec_T 0.6 0) as [E|_]; [lra|].
  f_equal. lra.
Qed.

(** The face with the open mouth, seen for the first time. *)
Lemma talking_grace_period_witness :
  let w := seeing [truncatedFace] (initialWorld exampleHost) in
  let w' := snd (processFrame FirstVersion INITIAL_CONFIG w) in
  fst (processFrame FirstVersion INITIAL_CONFIG w) = Normal tt /\
  isTalking (status w') = true /\
  talkingStartTime (refs w') = Some 1700000000000%Z.
Proof.
  intros w w'.
  assert (Hready : ready (host w)) by (repeat split).
  assert (Hlook : lookingAwayCondition FirstVersion INITIAL_CONFIG
                    (calculateHeadPose truncatedFace) = false)
    by (rewrite truncatedFace_pose; apply lookingAwayCondition_zero).
  assert (Htalk : talkingCondition FirstVersion INITIAL_CONFIG
                    (calculateMouthOpenness truncatedFace) = true).
  { rewrite truncatedFace_mouth. simpl. apply Rgtb_true. lra. }
  destruct (@talking_grace_period FirstVersion INITIAL_CONFIG w truncatedFace Hready
              eq_refl eq_refl Hlook Htalk) as (Hfst & Hflag & Hfirst & _).
  split; [exact Hfst|]. split; [exact Hflag|].
  exact (proj2 (proj2 (Hfirst eq_refl))).
Defined.

(** * A face without a nose tip *)

Lemma analyzeHandActivity_noseless landmarks previousLandmarks face :
  face <> [] -> at_ face 1 = None ->
  analyzeHandActivity landmarks previousLandmarks (Some face) = Throw.
Proof.
  intros Hne Hnose. unfold analyzeHandActivity.
  destruct (recognizeGesture landmarks); cbn [cbind]; [|reflexivity].
  destruct (calculateHandSize landmarks); cbn [cbind]; [|reflexivity].
  destruct (match previousLandmarks with
            | Some previous => calculateMovementSpeed landmarks previous
            | None => Normal 0
            end); cbn [cbind]; [|reflexivity].
  assert (Hlen : (0 <? List.length face)%nat = true)
    by (destruct face; [contradiction | reflexivity]).
  rewrite Hlen. unfold deref. rewrite Hnose.
  destruct (at_ landmarks 0); reflexivity.
Qed.

Lemma analyzeFrame_later_throws copy config w face faces hand hands :
  detectedFaces (latestFaceResults (refs w)) = face :: faces ->
  detectedHands (latestHandResults (refs w)) = Some hand :: hands ->
  (21 <= List.length hand)%nat ->
  face <> [] -> at_ face 1 = None ->
  fst (analyzeFrame (LaterVersion copy) config w) = Throw.
Proof.
  intros Hfaces Hhands Hfull Hne Hnose.
  assert (H : wp (analyzeFrame (LaterVersion copy) config)
                 (fun _ _ => False) (fun _ => True) w).
  { unfold analyzeFrame. apply wp_bind, wp_gets. apply wp_bind, wp_gets.
    apply wp_bind.
    eapply wp_conseq;
      [apply (@faceLogic_spec (LaterVersion copy) config w); apply frameStep_refl
      | | intros ? []].
    cbv beta. intros l1 w1 _.
    unfold handLogic. rewrite Hhands. cbn [laterHandLoop].
    apply wp_bind. unfold laterHandBody.
    apply Nat.ltb_ge in Hfull. rewrite Hfull.
    apply wp_bind, wp_gets. apply wp_bind, wp_lift.
    rewrite Hfaces. cbn [hd_error].
    rewrite analyzeHandActivity_noseless by assumption. exact I. }
  unfold wp in H.
  destruct (analyzeFrame (LaterVersion copy) config w) as [[l|] w'];
    [contradiction | reflexivity].
Qed.

(** X20.  The later copies hand the first face of the frame to
    [analyzeHandActivity], which reads its landmark 1 (the nose tip) without
    a check as soon as the face array is not empty.  A frame with a hand of
    21 or more landmarks and a first face that lacks landmark 1 makes
    [processFrame] throw, although [calculateHeadPose] had accepted that
    face; the status and the score of the frame are not written. *)
Theorem later_copies_throw_on_a_face_without_nose_tip :
  forall (copy : Later) (config : AppConfig) (w : World)
         (face : Landmarks) (faces : list Landmarks)
         (hand : Landmarks) (hands : list (option Landmarks)),
    ready (host w) ->
    detectedFaces (latestFaceResults (refs w)) = face :: faces ->
    detectedHands (latestHandResults (refs w)) = Some hand :: hands ->
    (21 <= List.length hand)%nat ->
    face <> [] -> at_ face 1 = None ->
    calculateHeadPose face = mkHeadPose (Num 0) (Num 0) /\
    fst (processFrame (LaterVersion copy) config w) = Throw /\
    score (snd (processFrame (LaterVersion copy) config w)) = score w /\
    status (snd (processFrame (LaterVersion copy) config w)) = status w.
Proof.
  intros copy config w face faces hand hands Hready Hfaces Hhands Hfull Hne Hnose.
  split.
  { unfold calculateHeadPose. rewrite Hnose. reflexivity. }
  pose proof (analyzeFrame_later_throws copy config w Hfaces Hhands Hfull Hne Hnose)
    as Hthrow.
  pose proof (processFrame_spec (LaterVersion copy) config w) as Hspec.
  unfold wp in Hspec.
  assert (Hfst : fst (processFrame (LaterVersion copy) config w) = Throw).
  { unfold processFrame, bind, gets. destruct Hready as (Hc & Hv & Hg).
    rewrite Hc, Hv, Hg. cbn [negb orb].
    destruct (analyzeFrame (LaterVersion copy) config w) as [[l|] w1];
      [discriminate | reflexivity]. }
  split; [exact Hfst|].
  destruct (processFrame (LaterVersion copy) config w) as [[[]|] w'];
    [discriminate|].
  cbn [snd]. destruct Hspec as [_ Hstep].
  split; [apply (fs_score Hstep) | apply (fs_status Hstep)].
Qed.

(** A face array that holds a single point, and the closed hand. *)
Lemma later_copies_throw_on_a_face_without_nose_tip_witness :
  let face := landmarksOf (fun _ => mkLandmark 0.5 0.5) 1 in
  let w := holding [Some fist] (seeing [face] (initialWorld exampleHost)) in
  fst (processFrame (LaterVersion Third) INITIAL_CONFIG w) = Throw /\
  score (snd (processFrame (LaterVersion Third) INITIAL_CONFIG w)) = 100.
Proof.
  intros face w.
  assert (Hready : ready (host w)) by (repeat split).
  assert (Hfull : (21 <= List.length fist)%nat) by (cbn; lia).
  assert (Hne : face <> []) by discriminate.
  destruct (@later_copies_throw_on_a_face_without_nose_tip Third INITIAL_CONFIG w
              face [] fist [] Hready eq_refl eq_refl Hfull Hne eq_refl)
    as (_ & Hthrow & Hscore & _).
  split; [exact Hthrow | exact Hscore].
Defined.

(** * The hands of the previous frame *)

Lemma arrayGet_arraySet_same {A} (array : list (option A)) i (a : A) :
  arrayGet (arraySet array i a) i = Some a.
Proof.
  revert array. induction i as [|i IH]; intros [|e rest]; try reflexivity.
  - apply (IH []).
  - apply (IH rest).
Qed.

Lemma arrayGet_arraySet_other {A} (array : list (option A)) i j (a : A) :
  i <> j -> arrayGet (arraySet array i a) j = arrayGet array j.
Proof.
  revert array j. induction i as [|i IH]; intros [|e rest] [|j] Hne;
    try reflexivity; try contradiction.
  - destruct j; reflexivity.
  - unfold arrayGet. cbn [arraySet nth_error].
    assert (H : i <> j) by lia.
    specialize (IH [] j H). unfold arrayGet in IH. rewrite IH.
    destruct j; reflexivity.
  - unfold arrayGet. cbn [arraySet nth_error].
    assert (H : i <> j) by lia.
    specialize (IH rest j H). unfold arrayGet in IH. exact IH.
Qed.

Lemma laterHandBody_previous config faceResults handIndex hand l w :
  wp (laterHandBody config faceResults handIndex hand l)
     (fun _ w' =>
        previousHandLandmarks (refs w') =
          match hand with
          | Some landmarks =>
              if (List.length landmarks <? 21)%nat then previousHandLandmarks (refs w)
              else arraySet (previousHandLandmarks (refs w)) handIndex landmarks
          | None => previousHandLandmarks (refs w)
          end)
     (fun _ => True) w.
Proof.
  unfold laterHandBody.
  destruct hand as [landmarks|]; [|wp_go; reflexivity].
  destruct (_ <? 21)%nat; [wp_go; reflexivity|].
  apply wp_bind, wp_gets. apply wp_bind, wp_lift.
  destruct (analyzeHandActivity _ _ _) as [analysis|]; [|exact I].
  unfold handEvent.
  destruct (isNearFace analysis); wp_go; reflexivity.
Qed.

Lemma laterHandLoop_previous config faceResults hands handIndex l w :
  wp (laterHandLoop config faceResults handIndex hands l)
     (fun _ w' =>
        forall i,
          arrayGet (previousHandLandmarks (refs w')) i =
            if (handIndex <=? i)%nat
            then match nth_error hands (i - handIndex) with
                 | Some (Some hand) =>
                     if (List.length hand <? 21)%nat
                     then arrayGet (previousHandLandmarks (refs w)) i
                     else Some hand
                 | _ => arrayGet (previousHandLandmarks (refs w)) i
                 end
            else arrayGet (previousHandLandmarks (refs w)) i)
     (fun _ => True) w.
Proof.
  revert handIndex l w.
  induction hands as [|hand rest IH]; intros handIndex l w; cbn [laterHandLoop].
  - apply wp_ret. intros i.
    destruct (handIndex <=? i)%nat; [|reflexivity].
    destruct (i - handIndex)%nat; reflexivity.
  - apply wp_bind.
    eapply wp_conseq; [apply laterHandBody_previous | | trivial].
    cbv beta. intros l1 w1 Hbody.
    eapply wp_conseq; [apply IH | | trivial].
    cbv beta. intros l2 w2 Hrest i. rewrite Hrest, Hbody. clear Hrest Hbody.
    destruct (Nat.leb_spec (S handIndex) i) as [Hlater|Hnot].
    + destruct (Nat.leb_spec handIndex i) as [_|]; [|lia].
      replace (i - handIndex)%nat with (S (i - S handIndex)) by lia.
      cbn [nth_error].
      assert (Hother : forall landmarks,
                 arrayGet (arraySet (previousHandLandmarks (refs w)) handIndex landmarks) i
                 = arrayGet (previousHandLandmarks (refs w)) i)
        by (intros; apply arrayGet_arraySet_other; lia).
      destruct hand as [landmarks|]; [|reflexivity].
      destruct (List.length landmarks <? 21)%nat; [reflexivity|].
      rewrite Hother. reflexivity.
    + destruct (Nat.leb_spec handIndex i) as [Hhere|Hbefore].
      * assert (i = handIndex) by lia. subst i.
        rewrite Nat.sub_diag. cbn [nth_error].
        destruct hand as [landmarks|]; [|reflexivity].
        destruct (List.length landmarks <? 21)%nat; [reflexivity|].
        apply arrayGet_arraySet_same.
      * destruct hand as [landmarks|]; [|reflexivity].
        destruct (List.length landmarks <? 21)%nat; [reflexivity|].
        apply arrayGet_arraySet_other. lia.
Qed.

Lemma faceLogic_previous v config faceResults l w :
  wp (faceLogic v config faceResults l)
     (fun _ w' => previousHandLandmarks (refs w') = previousHandLandmarks (refs w))
     (fun _ => False) w.
Proof.
  unfold faceLogic.
  destruct (detectedFaces faceResults) as [|landmarks others].
  - unfold noFaceBlock. wp_go; reflexivity.
  - unfold multipleFacesBlock, lookingAwayBlock, talkingBlock.
    wp_go; reflexivity.
Qed.

Lemma firstHandLoop_previous faceResults hands l w :
  wp (firstHandLoop faceResults hands l)
     (fun _ w' => previousHandLandmarks (refs w') = previousHandLandmarks (refs w))
     (fun _ => True) w.
Proof.
  apply (@firstHandLoop_invariant
           (fun _ w' => previousHandLandmarks (refs w') = previousHandLandmarks (refs w))).
  - intros hand l0 w0 H. unfold firstHandBody.
    destruct (faceDetected (currentStatus l0)); [|wp_go; auto].
    destruct (detectedFaces faceResults); [wp_go; auto|].
    apply wp_bind, wp_lift.
    destruct (calculateHandFaceDistance _ _); [|exact I].
    wp_go; exact H.
  - reflexivity.
Qed.

Lemma analyzeFrame_previous v config w l w' :
  analyzeFrame v config w = (Normal l, w') ->
  forall i,
    arrayGet (previousHandLandmarks (refs w')) i =
      match v with
      | FirstVersion => arrayGet (previousHandLandmarks (refs w)) i
      | LaterVersion _ =>
          storedHand (detectedHands (latestHandResults (refs w)))
                     (previousHandLandmarks (refs w)) i
      end.
Proof.
  intros Hrun.
  assert (H : wp (analyzeFrame v config)
                 (fun _ w' =>
                    forall i,
                      arrayGet (previousHandLandmarks (refs w')) i =
                        match v with
                        | FirstVersion => arrayGet (previousHandLandmarks (refs w)) i
                        | LaterVersion _ =>
                            storedHand (detectedHands (latestHandResults (refs w)))
                                       (previousHandLandmarks (refs w)) i
                        end)
                 (fun _ => True) w).
  { unfold analyzeFrame. apply wp_bind, wp_gets. apply wp_bind, wp_gets.
    apply wp_bind.
    eapply wp_conseq; [apply faceLogic_previous | | intros ? []].
    cbv beta. intros l1 w1 Hface.
    unfold handLogic, storedHand.
    destruct (detectedHands (latestHandResults (refs w))) as [|hand rest] eqn:Hhands.
    - destruct v, (latestHandResults (refs w)); wp_go; intros i; cbn;
        rewrite ?Hface; destruct i; reflexivity.
    - destruct v as [|copy].
      + eapply wp_conseq; [apply firstHandLoop_previous | | trivial].
        cbv beta. intros l2 w2 H2 i. rewrite H2, Hface. reflexivity.
      + eapply wp_conseq; [apply laterHandLoop_previous | | trivial].
        cbv beta. intros l2 w2 H2 i. rewrite H2, Hface.
        cbn [Nat.leb]. rewrite Nat.sub_0_r. reflexivity. }
  unfold wp in H. rewrite Hrun in H. exact H.
Qed.

(** X21.  The later copies keep, for every hand index, the landmarks against
    which the movement speed of the next frame is measured.  After a
    processed frame the store holds at each index the hand the frame showed
    there if that hand has 21 landmarks or more, and otherwise still what it
    held before: the entry of a hand that has left the frame or has become
    malformed is never cleared, so a hand that turns up at that index later
    is compared with it.  The first copy does not touch the store. *)
Theorem previous_hands_are_stored_by_index :
  forall (v : Version) (config : AppConfig) (w w' : World),
    processed v config w w' ->
    forall i,
      arrayGet (previousHandLandmarks (refs w')) i =
        match v with
        | FirstVersion => arrayGet (previousHandLandmarks (refs w)) i
        | LaterVersion _ =>
            storedHand (detectedHands (latestHandResults (refs w)))
                       (previousHandLandmarks (refs w)) i
        end.
Proof.
  intros v config w w' Hdone i.
  destruct (processed_report Hdone) as (l & w1 & Hrun & -> & _ & _).
  cbn [refs with_score with_status].
  apply (analyzeFrame_previous _ _ _ Hrun).
Qed.

(** * Frames that complete *)

Section HandLoopsOn.
  Variables (P : option Landmarks -> Prop).
  Variables (Inv : Locals -> World -> Prop) (E : World -> Prop).
  Variables (config : AppConfig) (faceResults : option FaceResults).

Lemma firstHandLoop_invariant_on :
    (forall hand l w,
        P hand -> Inv l w -> wp (firstHandBody faceResults hand l) Inv E w) ->
    forall hands l w,
      Forall P hands -> Inv l w -> wp (firstHandLoop faceResults hands l) Inv E w.
  Proof.
    intros Hbody hands. induction hands as [|hand rest IH]; intros l w Hall H; simpl.
    - exact H.
    - inversion Hall as [|? ? Hhand Hrest]; subst.
      apply wp_bind.
      eapply wp_conseq; [apply Hbody; [exact Hhand | exact H] | | trivial].
      cbv beta. intros l1 w1 H1. apply IH; assumption.
  Qed.

Lemma laterHandLoop_invariant_on :
    (forall handIndex hand l w,
        P hand -> Inv l w ->
        wp (laterHandBody config faceResults handIndex hand l) Inv E w) ->
    forall hands handIndex l w,
      Forall P hands -> Inv l w ->
      wp (laterHandLoop config faceResults handIndex hands l) Inv E w.
  Proof.
    intros Hbody hands.
    induction hands as [|hand rest IH]; intros handIndex l w Hall H; simpl.
    - exact H.
    - inversion Hall as [|? ? Hhand Hrest]; subst.
      apply wp_bind.
      eapply wp_conseq; [apply Hbody; [exact Hhand | exact H] | | trivial].
      cbv beta. intros l1 w1 H1. apply IH; assumption.
  Qed.
End HandLoopsOn.

Lemma storedFull_arrayGet previous i hand :
  storedFull previous = true -> arrayGet previous i = Some hand ->
  fullHand hand = true.
Proof.
  unfold storedFull, arrayGet. rewrite forallb_forall. intros Hall Hget.
  destruct (nth_error previous i) as [[h|]|] eqn:E; try discriminate.
  injection Hget as ->. exact (Hall _ (nth_error_In _ _ E)).
Qed.

Lemma storedFull_arraySet previous i hand :
  storedFull previous = true -> fullHand hand = true ->
  storedFull (arraySet previous i hand) = true.
Proof.
  intros Hall Hhand. revert previous Hall.
  induction i as [|i IH]; intros [|e rest] Hall; cbn [arraySet storedFull forallb].
  - rewrite Hhand. reflexivity.
  - cbn [storedFull forallb] in Hall. apply andb_true_iff in Hall.
    rewrite Hhand. apply Hall.
  - apply (IH [] eq_refl).
  - cbn [storedFull forallb] in Hall. apply andb_true_iff in Hall.
    destruct Hall as [He Hrest]. rewrite He. apply IH, Hrest.
Qed.

Lemma handLogic_completes v config w0 l w :
  hasNoseTip (detectedFaces (latestFaceResults (refs w0))) = true ->
  fullHands (detectedHands (latestHandResults (refs w0))) = true ->
  keeps w0 w ->
  wp (handLogic v config (latestFaceResults (refs w0)) (latestHandResults (refs w0)) l)
     (fun _ w' => keeps w0 w') (fun _ => False) w.
Proof.
  intros Hnose Hhands Hkeeps. unfold handLogic.
  set (faceResults := latestFaceResults (refs w0)) in *.
  set (handResults := latestHandResults (refs w0)) in *.
  assert (Hall : Forall (fun e => exists hand, e = Some hand /\ fullHand hand = true)
                        (detectedHands handResults)).
  { unfold fullHands in Hhands. rewrite forallb_forall in Hhands.
    apply Forall_forall. intros e He. specialize (Hhands e He).
    destruct e as [hand|]; [|discriminate]. exists hand. auto. }
  destruct (detectedHands handResults) as [|hand rest] eqn:Hd.
  - destruct v, handResults; wp_go; exact Hkeeps.
  - destruct v as [|copy].
    + apply (@firstHandLoop_invariant_on
               (fun e => exists hand, e = Some hand /\ fullHand hand = true)
               (fun _ w' => keeps w0 w') (fun _ => False)); [|exact Hall|exact Hkeeps].
      intros e l0 w1 (h & -> & Hfull) H. unfold firstHandBody.
      destruct (faceDetected (currentStatus l0)); [|wp_go; exact H].
      destruct (detectedFaces faceResults) as [|face others] eqn:Hfaces;
        [wp_go; exact H|].
      apply wp_bind, wp_lift.
      destruct (@fullHand_at h 9 Hfull) as [knuckle Hk]; [lia|].
      cbn [hasNoseTip] in Hnose.
      destruct (at_ face 1) as [nose|] eqn:Hn; [|discriminate].
      unfold calculateHandFaceDistance, deref.
      assert (Hlen : (List.length h =? 0)%nat = false).
      { apply Nat.eqb_neq. apply fullHand_length, Nat.ltb_ge in Hfull. lia. }
      rewrite Hlen, Hk. cbn [cbind]. rewrite Hn. cbn [cbind].
      wp_go; exact H.
    + apply (@laterHandLoop_invariant_on
               (fun e => exists hand, e = Some hand /\ fullHand hand = true)
               (fun _ w' => keeps w0 w') (fun _ => False)); [|exact Hall|exact Hkeeps].
      intros handIndex e l0 w1 (h & -> & Hfull) (Hf & Hh & Hstored).
      unfold laterHandBody. rewrite (fullHand_length _ Hfull).
      apply wp_bind, wp_gets. apply wp_bind, wp_lift.
      destruct (@analyzeHandActivity_returns h
                  (arrayGet (previousHandLandmarks (refs w1)) handIndex)
                  (hd_error (detectedFaces faceResults)) Hfull) as [analysis ->].
      { destruct (arrayGet (previousHandLandmarks (refs w1)) handIndex) as [q|] eqn:Hq;
          [|exact I].
        left. eapply storedFull_arrayGet; eassumption. }
      { destruct (detectedFaces faceResults) as [|face others]; [exact I|].
        cbn [hd_error hasNoseTip] in *. right.
        destruct (at_ face 1); [discriminate | discriminate Hnose]. }
      unfold handEvent.
      destruct (isNearFace analysis); wp_go;
        (split; [exact Hf | split; [exact Hh|]]); cbn;
        apply storedFull_arraySet; assumption.
Qed.

Lemma faceLogic_keeps v config faceResults l w :
  wp (faceLogic v config faceResults l)
     (fun _ w' =>
        latestFaceResults (refs w') = latestFaceResults (refs w) /\
        latestHandResults (refs w') = latestHandResults (refs w) /\
        previousHandLandmarks (refs w') = previousHandLandmarks (refs w))
     (fun _ => False) w.
Proof.
  eapply wp_conseq;
    [apply (@wp_and _ _ _ _ _ _ _ (faceLogic_report v config faceResults l w)
              (faceLogic_previous v config faceResults l w))
    | | intros ? [[] _]].
  cbv beta. intros l' w' [(Hf & Hh & _) Hp]. auto.
Qed.

Lemma processFrame_completes v config w :
  wellFormed w ->
  wp (processFrame v config) (fun _ w' => wellFormed w') (fun _ => False) w.
Proof.
  intros (Hnose & Hhands & Hstored). unfold processFrame.
  apply wp_bind, wp_gets.
  destruct (negb (canvasRef (host w)) || negb (videoRef (host w)));
    [apply wp_ret; repeat split; assumption|].
  destruct (negb (getContext2d (host w)));
    [apply wp_ret; repeat split; assumption|].
  apply wp_bind. unfold analyzeFrame.
  apply wp_bind, wp_gets. apply wp_bind, wp_gets. apply wp_bind.
  eapply wp_conseq; [apply faceLogic_keeps | | trivial].
  cbv beta. intros l1 w1 (Hf & Hh & Hp).
  eapply wp_conseq;
    [apply (@handLogic_completes v config w l1 w1 Hnose Hhands) | | trivial].
  - split; [exact Hf|]. split; [exact Hh|]. rewrite Hp. exact Hstored.
  - cbv beta. intros l2 w2 (Hf2 & Hh2 & Hs2).
    wp_go. unfold wellFormed. cbn. rewrite Hf2, Hh2. auto.
Qed.

Lemma dispatch_completes v config c w :
  wellFormed w -> asDelivered c = true ->
  fst (dispatch v config c w) = Normal tt /\ wellFormed (snd (dispatch v config c w)).
Proof.
  intros (Hnose & Hhands & Hstored) Hc.
  assert (Hframe : forall w1, wellFormed w1 ->
             fst (processFrame v config w1) = Normal tt /\
             wellFormed (snd (processFrame v config w1))).
  { intros w1 H1. pose proof (processFrame_completes v config H1) as H.
    unfold wp in H. destruct (processFrame v config w1) as [[[]|] w2];
      [split; [reflexivity | exact H] | contradiction]. }
  destruct c as [results | results | message | | ]; unfold dispatch.
  - unfold bind, modifyRefs, modify. apply Hframe.
    repeat split; [exact Hc | exact Hhands | exact Hstored].
  - unfold bind, modifyRefs, modify. apply Hframe.
    repeat split; [exact Hnose | exact Hc | exact Hstored].
  - destruct v; [|split; [reflexivity | repeat split; assumption]].
    unfold bind. rewrite logEvent_eq.
    destruct (_ <? 2000)%Z; (split; [reflexivity | repeat split; assumption]).
  - destruct (demoMode config); [|split; [reflexivity | repeat split; assumption]].
    unfold bind. rewrite logEvent_eq.
    destruct (_ <? 2000)%Z; (split; [reflexivity | repeat split; assumption]).
  - split; [reflexivity | repeat split; assumption].
Qed.

(** X22.  As long as the detectors deliver what they are built to deliver
    -- a first face that has its nose tip, hands of 21 or more landmarks
    without holes -- no callback of a session throws, in any copy and under
    any configuration: every [processFrame] runs to its score update, and
    every hand the later copies keep for the next frame is a full hand
    again. *)
Theorem sessions_of_delivered_results_never_throw :
  forall (v : Version) (session : list (AppConfig * Callback)) (w : World),
    wellFormed w ->
    forallb (fun step => asDelivered (snd step)) session = true ->
    wellFormed (run v session w) /\
    (forall earlier config c later,
        session = earlier ++ (config, c) :: later ->
        fst (dispatch v config c (run v earlier w)) = Normal tt).
Proof.
  intros v session. induction session as [|[config c] rest IH]; intros w Hw Hall.
  - split; [exact Hw|]. intros [|? ?] ? ? ? H; discriminate.
  - cbn [forallb snd] in Hall. apply andb_true_iff in Hall. destruct Hall as [Hc Hrest].
    destruct (@dispatch_completes v config c w Hw Hc) as [Hfst Hnext].
    destruct (IH _ Hnext Hrest) as [Hend Hsteps].
    split; [exact Hend|].
    intros [|[config0 c0] earlier] config' c' later Heq.
    + cbn in Heq. injection Heq as <- <- <-. exact Hfst.
    + cbn in Heq. injection Heq as <- <- ->. cbn [run].
      eapply Hsteps. reflexivity.
Qed.

(** The closed hand arrives, then the turned face, in the last copy. *)
Lemma sessions_of_delivered_results_never_throw_witness :
  let session :=
    [(INITIAL_CONFIG, hands_onResults (mkHandResults (Some [Some fist])));
     (INITIAL_CONFIG, faceMesh_onResults (mkFaceResults (Some [turnedFace])))] in
  let w := run (LaterVersion Third)
             [(INITIAL_CONFIG, hands_onResults (mkHandResults (Some [Some fist])))]
             (initialWorld exampleHost) in
  fst (dispatch (LaterVersion Third) INITIAL_CONFIG
         (faceMesh_onResults (mkFaceResults (Some [turnedFace]))) w) = Normal tt.
Proof.
  intros session w.
  assert (Hw : wellFormed (initialWorld exampleHost)) by (repeat split).
  assert (Hall : forallb (fun step => asDelivered (snd step)) session = true).
  { unfold session. cbn [forallb snd asDelivered detectedFaces detectedHands
                         multiFaceLandmarks multiHandLandmarks fullHands hasNoseTip].
    unfold turnedFace. rewrite at_landmarksOf. reflexivity. }
  destruct (sessions_of_delivered_results_never_throw (LaterVersion Third) session Hw Hall)
    as [_ Hsteps].
  exact (Hsteps [(INITIAL_CONFIG, hands_onResults (mkHandResults (Some [Some fist])))]
           INITIAL_CONFIG (faceMesh_onResults (mkFaceResults (Some [turnedFace])))
           [] eq_refl).
Defined.

(** The closed hand in the first frame of the last copy: it is kept at
    index 0. *)
Lemma previous_hands_are_stored_by_index_witness :
  let w := holding [Some fist] (initialWorld exampleHost) in
  exists w',
    processed (LaterVersion Third) INITIAL_CONFIG w w' /\
    arrayGet (previousHandLandmarks (refs w')) 0 = Some fist.
Proof.
  intros w.
  assert (Hw : wellFormed w) by (repeat split).
  pose proof (processFrame_completes (LaterVersion Third) INITIAL_CONFIG Hw) as H.
  unfold wp in H.
  destruct (processFrame (LaterVersion Third) INITIAL_CONFIG w) as [[[]|] w'] eqn:Hrun;
    [|contradiction].
  assert (Hdone : processed (LaterVersion Third) INITIAL_CONFIG w w')
    by (split; [repeat split | exact Hrun]).
  exists w'. split; [exact Hdone|].
  exact (previous_hands_are_stored_by_index Hdone 0).
Defined.

(** * The focus indicator of the study mode *)

(** X23.  The focus indicator of the study mode is computed from the status
    of the frame alone.  After a processed frame of the last copy it is
    [idle] exactly when the face detector reported no face, and with a face
    it is [distracted] exactly when the frame looks away, talks or has a hand
    near the face.  A second face in the frame and the mere presence of
    hands do not distract. *)
Theorem focus_follows_the_status_of_the_frame :
  forall (config : AppConfig) (w w' : World),
    processed (LaterVersion Third) config w w' ->
    (updateFocusStatus (status w') = idle <->
     detectedFaces (latestFaceResults (refs w)) = []) /\
    (updateFocusStatus (status w') = distracted <->
     detectedFaces (latestFaceResults (refs w)) <> [] /\
     (isLookingAway (status w') = true \/ isTalking (status w') = true \/
      handNearFace (status w') = true)) /\
    (forall s b,
        updateFocusStatus (with_multipleFaces b s) = updateFocusStatus s /\
        updateFocusStatus (with_handsDetected b s) = updateFocusStatus s).
Proof.
  intros config w w' Hdone.
  destruct (processed_report Hdone) as (l & w1 & _ & -> & _ & (Hfd & _)).
  cbn [status with_score with_status].
  assert (Hface : faceDetected (currentStatus l) = true <->
                  detectedFaces (latestFaceResults (refs w)) <> []).
  { rewrite Hfd. unfold faceStatus.
    destruct (detectedFaces (latestFaceResults (refs w))); cbn; split; congruence. }
  unfold updateFocusStatus.
  destruct (faceDetected (currentStatus l)) eqn:Hdet; cbn [negb].
  - assert (Hsome : detectedFaces (latestFaceResults (refs w)) <> [])
      by (apply Hface; reflexivity).
    destruct (isLookingAway (currentStatus l)), (isTalking (currentStatus l)),
             (handNearFace (currentStatus l)); cbn [orb];
      (split; [split; [discriminate | intros H; contradiction]|]);
      (split; [|intros s b; split; reflexivity]);
      (split; [intros H; try discriminate H; (split; [exact Hsome | tauto])
              | intros [_ [H | [H | H]]]; first [reflexivity | discriminate H]]).
  - assert (Hnone : detectedFaces (latestFaceResults (refs w)) = []).
    { destruct (detectedFaces (latestFaceResults (refs w))) eqn:E; [reflexivity|].
      assert (Habs : false = true) by (apply Hface; discriminate).
      discriminate Habs. }
    split; [split; [intros _; exact Hnone | reflexivity]|].
    split; [|intros s b; split; reflexivity].
    split; [discriminate | intros [H _]; contradiction].
Qed.

(** The turned face alone in a frame of the last copy. *)
Lemma focus_follows_the_status_of_the_frame_witness :
  let w := seeing [turnedFace] (initialWorld exampleHost) in
  exists w',
    processed (LaterVersion Third) INITIAL_CONFIG w w' /\
    updateFocusStatus (status w') <> idle.
Proof.
  intros w.
  assert (Hready : ready (host w)) by (repeat split).
  destruct (@processFrame_without_hands (LaterVersion Third) INITIAL_CONFIG w Hready
              eq_refl) as [w' Hdone].
  exists w'. split; [exact Hdone|].
  intros Hidle.
  apply (proj1 (focus_follows_the_status_of_the_frame Hdone)) in Hidle.
  discriminate Hidle.
Defined.

(** * The rule-based analysis service *)

Lemma includes_In array s : ruleBasedService.includes array s = true <-> In s array.
Proof.
  unfold ruleBasedService.includes. rewrite existsb_exists. split.
  - intros (x & Hx & E). apply String.eqb_eq in E. subst. exact Hx.
  - intros H. exists s. split; [exact H | apply String.eqb_refl].
Qed.

Lemma generateDetailedAnalysis_status time random :
  fst (ruleBasedService.generateDetailedAnalysis time random) = ruleBasedService.SUSPICIOUS /\
    random < 0.25 \/
  fst (ruleBasedService.generateDetailedAnalysis time random) = ruleBasedService.SAFE /\
    0.25 <= random.
Proof.
  unfold ruleBasedService.generateDetailedAnalysis.
  destruct (Rltb random 0.05) eqn:H1; [apply Rltb_true in H1; left; split; [reflexivity | lra]|].
  destruct (Rltb random 0.10) eqn:H2; [apply Rltb_true in H2; left; split; [reflexivity | lra]|].
  destruct (Rltb random 0.15) eqn:H3; [apply Rltb_true in H3; left; split; [reflexivity | lra]|].
  destruct (Rltb random 0.20) eqn:H4; [apply Rltb_true in H4; left; split; [reflexivity | lra]|].
  destruct (Rltb random 0.25) eqn:H5; [apply Rltb_true in H5; left; split; [reflexivity | lra]|].
  apply Rltb_false in H5. right. split; [reflexivity | exact H5].
Qed.

(** X24.  The rule-based [analyzeFrameWithPuter] never looks at the image
    and never answers ERROR or INIT.  Called without an event type and not
    as a periodic check it answers SAFE under the model name "MediaPipe
    Only".  A periodic check ignores the event type and is SUSPICIOUS exactly
    when the random draw is below 0.25; an event-triggered check is
    SUSPICIOUS exactly when the event type is one of the three names of
    [suspiciousEvents]. *)
Theorem rule_based_analysis_never_looks_at_the_image :
  forall (base64Image : string) (eventType : option string) (isPeriodic : bool)
         (time : Z) (random : R),
    let result :=
      ruleBasedService.analyzeFrameWithPuter base64Image eventType isPeriodic time random in
    (forall otherImage,
        ruleBasedService.analyzeFrameWithPuter otherImage eventType isPeriodic time random
        = result) /\
    ruleBasedService.status result <> ruleBasedService.ERROR /\
    ruleBasedService.status result <> ruleBasedService.INIT /\
    (isPeriodic = false -> (eventType = None \/ eventType = Some EmptyString) ->
     ruleBasedService.status result = ruleBasedService.SAFE /\
     ruleBasedService.model result = "MediaPipe Only"%string) /\
    (isPeriodic = true ->
     (ruleBasedService.status result = ruleBasedService.SUSPICIOUS <-> random < 0.25) /\
     ruleBasedService.model result = "Rule-Based"%string /\
     forall otherType,
       ruleBasedService.analyzeFrameWithPuter base64Image otherType true time random = result) /\
    (isPeriodic = false ->
     forall name, eventType = Some name -> name <> EmptyString ->
       (ruleBasedService.status result = ruleBasedService.SUSPICIOUS <->
        In name ruleBasedService.suspiciousEvents) /\
       ruleBasedService.model result = "Rule-Based"%string).
Proof.
  intros base64Image eventType isPeriodic time random result.
  split; [reflexivity|].
  assert (Hperiodic : isPeriodic = true ->
            result = ruleBasedService.analyzePeriodic base64Image time random).
  { intros ->. unfold result, ruleBasedService.analyzeFrameWithPuter. reflexivity. }
  assert (Hevent : isPeriodic = false ->
            forall name, eventType = Some name -> name <> EmptyString ->
              result = ruleBasedService.analyzeEvent base64Image name).
  { intros -> name -> Hname. unfold result, ruleBasedService.analyzeFrameWithPuter.
    apply String.eqb_neq in Hname. rewrite Hname. reflexivity. }
  assert (Hnone : isPeriodic = false ->
            (eventType = None \/ eventType = Some EmptyString) ->
            result = ruleBasedService.mkAIAnalysisResult ruleBasedService.SAFE
                       (ruleBasedService.Text "MediaPipe monitoring active - no AI analysis needed")
                       "MediaPipe Only").
  { intros -> [-> | ->]; reflexivity. }
  assert (Hstatus : ruleBasedService.status result <> ruleBasedService.ERROR /\
                    ruleBasedService.status result <> ruleBasedService.INIT).
  { destruct isPeriodic.
    - rewrite (Hperiodic eq_refl). unfold ruleBasedService.analyzePeriodic.
      cbn [ruleBasedService.status].
      destruct (generateDetailedAnalysis_status time random) as [[-> _] | [-> _]];
        split; discriminate.
    - destruct eventType as [name|].
      + destruct (String.eqb_spec name EmptyString) as [->|Hname].
        * rewrite (Hnone eq_refl (or_intror eq_refl)). split; discriminate.
        * rewrite (Hevent eq_refl name eq_refl Hname).
          unfold ruleBasedService.analyzeEvent. cbn [ruleBasedService.status].
          destruct (ruleBasedService.includes _ _); split; discriminate.
      + rewrite (Hnone eq_refl (or_introl eq_refl)). split; discriminate. }
  split; [apply Hstatus|]. split; [apply Hstatus|]. split; [|split].
  - intros Hp He. rewrite (Hnone Hp He). split; reflexivity.
  - intros Hp. rewrite (Hperiodic Hp). unfold ruleBasedService.analyzePeriodic.
    cbn [ruleBasedService.status ruleBasedService.model]. split; [|split; [reflexivity|]].
    + destruct (generateDetailedAnalysis_status time random) as [[-> H] | [-> H]];
        split; intros H'; try discriminate; try reflexivity; try exact H; lra.
    + intros otherType. subst isPeriodic. reflexivity.
  - intros Hp name Hn Hname. rewrite (Hevent Hp name Hn Hname).
    unfold ruleBasedService.analyzeEvent. cbn [ruleBasedService.status ruleBasedService.model].
    split; [|reflexivity].
    rewrite <- includes_In.
    destruct (ruleBasedService.includes ruleBasedService.suspiciousEvents name);
      split; intros H; try discriminate; reflexivity.
Qed.

(** X25.  The names under which the application logs its events and the
    names the rule-based service treats as suspicious have only
    HAND_NEAR_FACE in common: asked about any other event kind of the
    application, the two HIGH-severity kinds MULTIPLE_FACES and FACE_MISSING
    included, the service answers SAFE with the generic message. *)
Theorem only_hand_near_face_is_known_to_the_service :
  forall (t : EventType) (base64Image : string) (time : Z) (random : R),
    let result :=
      ruleBasedService.analyzeFrameWithPuter base64Image (Some (EventType_name t)) false
        time random in
    (ruleBasedService.status result = ruleBasedService.SUSPICIOUS <-> t = HAND_NEAR_FACE) /\
    (t <> HAND_NEAR_FACE ->
     ruleBasedService.status result = ruleBasedService.SAFE /\
     ruleBasedService.message result =
       ruleBasedService.Text ("Event analysis: " ++ EventType_name t)%string).
Proof.
  intros t base64Image time random result.
  destruct t; cbv in result; subst result; cbn [ruleBasedService.status ruleBasedService.message];
    (split; [split; [intros H; try discriminate H; reflexivity
                    | intros H; try discriminate H; reflexivity]
            | intros H; try (contradiction H; reflexivity);
              split; reflexivity]).
Qed.

(** * The kinds of events in the log *)

Lemma dispatch_kinds v config c w :
  appended (fun e => loggedKind v (type e) = true) w (snd (dispatch v config c w)).
Proof.
  assert (Hframe : forall w1, events w1 = events w ->
             appended (fun e => loggedKind v (type e) = true) w
                      (snd (processFrame v config w1))).
  { intros w1 E.
    destruct (processFrame_appended v config w1) as [new [Hnew Hall]].
    exists new. split; [rewrite Hnew, E; reflexivity|].
    eapply Forall_impl; [|exact Hall]. cbv beta. intros e [_ Hmay].
    destruct (type e), v; simpl in *; congruence. }
  assert (Hlog : forall severity description,
             appended (fun e => loggedKind v (type e) = true) w
               (snd (logEvent config LOOKING_AWAY severity description w))).
  { intros severity description. rewrite logEvent_eq. cbn [snd].
    destruct (_ <? 2000)%Z.
    - apply appended_refl. reflexivity.
    - exists [eventAt config w LOOKING_AWAY severity description].
      split; [reflexivity|]. constructor; [reflexivity | constructor]. }
  destruct c as [results | results | message | | ]; unfold dispatch.
  - unfold bind, modifyRefs, modify. apply Hframe. reflexivity.
  - unfold bind, modifyRefs, modify. apply Hframe. reflexivity.
  - destruct v; [|apply appended_refl; reflexivity].
    specialize (Hlog HIGH ("AI Flag: " ++ message)%string).
    unfold bind. rewrite logEvent_eq in *. cbn [snd] in *.
    destruct (_ <? 2000)%Z; exact Hlog.
  - destruct (demoMode config); [|apply appended_refl; reflexivity].
    specialize (Hlog LOW "Simulated: Gaze drift detected"%string).
    unfold bind. rewrite logEvent_eq in *. cbn [snd] in *.
    destruct (_ <? 2000)%Z; exact Hlog.
  - apply appended_refl. reflexivity.
Qed.

(** X26.  No copy ever logs an event of kind HAND_ERROR, although
    [types.ts] declares it; and the first copy logs no hand event at all:
    every entry of its log is of kind LOOKING_AWAY, FACE_MISSING,
    MULTIPLE_FACES or TALKING, whatever the session. *)
Theorem hand_error_is_never_logged :
  forall (v : Version) (h : Host) (session : list (AppConfig * Callback)),
    Forall (fun e =>
              type e <> HAND_ERROR /\
              (v = FirstVersion ->
               type e = LOOKING_AWAY \/ type e = FACE_MISSING \/
               type e = MULTIPLE_FACES \/ type e = TALKING))
           (events (run v session (initialWorld h))).
Proof.
  intros v h session.
  assert (H : forall w,
             Forall (fun e => loggedKind v (type e) = true) (events w) ->
             Forall (fun e => loggedKind v (type e) = true) (events (run v session w))).
  { induction session as [|[config c] rest IH]; intros w Hw; [exact Hw|].
    cbn [run]. apply IH.
    destruct (dispatch_kinds v config c w) as [new [-> Hnew]].
    apply Forall_app. split; assumption. }
  specialize (H (initialWorld h) (Forall_nil _)).
  eapply Forall_impl; [|exact H]. cbv beta. intros e He.
  split.
  - intros E. rewrite E in He. discriminate.
  - intros ->. destruct (type e); try discriminate; tauto.
Qed.

(** * What the control panel shows *)

Lemma Math_round_bounds r : IZR (Math_round r) - 1 / 2 <= r < IZR (Math_round r) + 1 / 2.
Proof.
  unfold Math_round. rewrite minus_IZR.
  destruct (archimed (r + 1 / 2)) as [Hup Hlow]. lra.
Qed.

(** X27.  The control panel is handed the score of the session: the number
    it prints, [Math.round(score)], is an integer between 0 and 100 and the
    bar is between 0% and 100% wide, whatever the session.  The panel turns
    red exactly when the score is below 60; it is red whenever the number
    shown is below 60, and may already be red while it still shows 60. *)
Theorem the_panel_shows_a_score_between_0_and_100 :
  forall (v : Version) (h : Host) (session : list (AppConfig * Callback)),
    let score := score (run v session (initialWorld h)) in
    (0 <= ControlPanel.shownScore score <= 100)%Z /\
    0 <= ControlPanel.barWidth score <= 100 /\
    (ControlPanel.isCritical score = true <-> score < 60) /\
    ((ControlPanel.shownScore score < 60)%Z -> ControlPanel.isCritical score = true) /\
    (ControlPanel.isCritical score = true -> (ControlPanel.shownScore score <= 60)%Z).
Proof.
  intros v h session s.
  assert (Hs : 0 <= s <= 100).
  { apply (@run_invariant v session (initialWorld h)).
    - unfold scoreInRange. simpl. lra.
    - apply logInvariant_initial. }
  unfold ControlPanel.shownScore, ControlPanel.barWidth, ControlPanel.isCritical.
  pose proof (Math_round_bounds s) as [Hlow Hhigh].
  assert (Hint : forall a b : Z, IZR a < IZR b + 1 -> (a <= b)%Z).
  { intros a b H. apply Z.lt_succ_r. apply lt_IZR. rewrite succ_IZR. exact H. }
  split; [|split; [exact Hs|split; [apply Rltb_true|split]]].
  - split.
    + apply (Hint 0%Z). simpl. lra.
    + apply Hint. simpl. lra.
  - intros Hshown. apply Rltb_true.
    assert (IZR (Math_round s) <= 59).
    { apply IZR_le. lia. }
    lra.
  - intros Hcrit. apply Rltb_true in Hcrit.
    apply Hint. simpl. lra.
Qed.

(** * Malformed hands in the later copies *)

Lemma laterHandLoop_malformed config faceResults hands handIndex l w :
  Forall malformedHand hands ->
  laterHandLoop config faceResults handIndex hands l w = (Normal l, w).
Proof.
  intros Hall. revert handIndex.
  induction Hall as [|hand rest Hhand _ IH]; intros handIndex; [reflexivity|].
  cbn [laterHandLoop]. unfold bind.
  assert (Hbody : laterHandBody config faceResults handIndex hand l w = (Normal l, w)).
  { unfold laterHandBody. destruct hand as [landmarks|]; [|reflexivity].
    simpl in Hhand. apply Nat.ltb_lt in Hhand. rewrite Hhand. reflexivity. }
  rewrite Hbody. apply IH.
Qed.

(** X28.  In the later copies a frame whose hands are all malformed
    ([null], or fewer than 21 landmarks) always completes.  Its hands are
    skipped: the deduction and the log of the frame are those of the face
    logic alone, no hand is found near the face, and nothing is stored for
    the next frame. *)
Theorem frames_of_malformed_hands_are_scored_by_the_face_alone :
  forall (copy : Later) (config : AppConfig) (w : World),
    ready (host w) ->
    Forall malformedHand (detectedHands (latestHandResults (refs w))) ->
    exists w' l w1,
      processed (LaterVersion copy) config w w' /\
      faceLogic (LaterVersion copy) config (latestFaceResults (refs w))
        (mkLocals INITIAL_STATUS 0) w = (Normal l, w1) /\
      score w' = scoreUpdater config (deduction l) (score w) /\
      events w' = events w1 /\
      handNearFace (status w') = false /\
      previousHandLandmarks (refs w') = previousHandLandmarks (refs w).
Proof.
  intros copy config w Hready Hall.
  pose proof (@faceLogic_spec (LaterVersion copy) config w (latestFaceResults (refs w)) w
                (frameStep_refl _ config w)) as Hface.
  pose proof (faceLogic_previous (LaterVersion copy) config (latestFaceResults (refs w))
                (mkLocals INITIAL_STATUS 0) w) as Hprev.
  unfold wp in Hface, Hprev.
  destruct (faceLogic (LaterVersion copy) config (latestFaceResults (refs w))
              (mkLocals INITIAL_STATUS 0) w) as [[l|] w1] eqn:Hrun; [|contradiction].
  destruct Hface as (_ & Hstatus & _).
  set (l' := match detectedHands (latestHandResults (refs w)) with
             | [] => l
             | _ :: _ => flag (with_handsDetected true) l
             end).
  assert (Hhands : handLogic (LaterVersion copy) config (latestFaceResults (refs w))
                     (latestHandResults (refs w)) l w1 =
                   (Normal l', afterNoHands (LaterVersion copy)
                                 (match detectedHands (latestHandResults (refs w)) with
                                  | [] => latestHandResults (refs w)
                                  | _ :: _ => Some (mkHandResults None)
                                  end) w1)).
  { unfold handLogic, l'.
    destruct (detectedHands (latestHandResults (refs w))) as [|hand rest].
    - destruct (latestHandResults (refs w)); reflexivity.
    - apply laterHandLoop_malformed. exact Hall. }
  assert (Han : analyzeFrame (LaterVersion copy) config w =
                (Normal l', afterNoHands (LaterVersion copy)
                              (match detectedHands (latestHandResults (refs w)) with
                               | [] => latestHandResults (refs w)
                               | _ :: _ => Some (mkHandResults None)
                               end) w1)).
  { unfold analyzeFrame. cbv [bind gets]. cbv beta iota. rewrite Hrun. exact Hhands. }
  destruct (@processFrame_done (LaterVersion copy) config w _ _ Hready Han) as [_ Hw'].
  exists (snd (processFrame (LaterVersion copy) config w)), l, w1.
  split; [|split; [reflexivity|]].
  - split; [exact Hready|].
    unfold processFrame, bind, gets. destruct Hready as (Hc & Hv & Hg).
    rewrite Hc, Hv, Hg. cbn [negb orb]. rewrite Han.
    unfold processFrame, bind, gets in Hw'. rewrite Hc, Hv, Hg in Hw'.
    cbn [negb orb] in Hw'. rewrite Han in Hw'. reflexivity.
  - rewrite Hw'. cbn [score events status refs with_score with_status].
    rewrite events_afterNoHands, refs_afterNoHands.
    assert (Hded : deduction l' = deduction l)
      by (unfold l'; destruct (detectedHands _); reflexivity).
    assert (Hnear : handNearFace (currentStatus l') = false).
    { unfold l'. destruct (detectedHands _); cbn; rewrite Hstatus;
        unfold faceStatus; destruct (detectedFaces _); reflexivity. }
    rewrite Hded. repeat split; [exact Hnear | exact Hprev].
Qed.

(** A hand of five landmarks beside the turned face, in the last copy. *)
Lemma frames_of_malformed_hands_are_scored_by_the_face_alone_witness :
  let w := holding [Some shortHand] (seeing [turnedFace] (initialWorld exampleHost)) in
  exists w',
    processed (LaterVersion Third) INITIAL_CONFIG w w' /\
    handNearFace (status w') = false.
Proof.
  intros w.
  assert (Hready : ready (host w)) by (repeat split).
  assert (Hall : Forall malformedHand (detectedHands (latestHandResults (refs w)))).
  { constructor; [cbn; lia | constructor]. }
  destruct (@frames_of_malformed_hands_are_scored_by_the_face_alone Third INITIAL_CONFIG
              w Hready Hall) as (w' & l & w1 & Hdone & _ & _ & _ & Hnear & _).
  exists w'. split; [exact Hdone | exact Hnear].
Defined.

(** * Looking away for longer *)

Lemma lookingAwayBlock_eq v config landmarks l w :
  lookingAwayCondition v config (calculateHeadPose landmarks) = true ->
  lookingAwayBlock v config landmarks l w =
    let start := lookingAwayStartTime (refs w) in
    let last := lastEventTime (refs w) in
    let l' := flag (with_isLookingAway true) l in
    if falsy start then
      (Normal l',
       with_refs (with_lookingAwayStartTime (Some (nextNow w)) (refs w)) (ticked w))
    else if (2000 <? nextNow w - valueOf start)%Z then
      (Normal (deduct 0.1 l'),
       if (5000 <? nextNow (ticked w) - last)%Z then
         if (nextNow (ticked (ticked w)) - last <? 2000)%Z
         then ticked (ticked (ticked w))
         else logged config LOOKING_AWAY MEDIUM
                ("Looking " ++ lookingDirection (calculateHeadPose landmarks)
                 ++ " detected.")
                (ticked (ticked w))
       else ticked (ticked w))
    else (Normal l', ticked w).
Proof.
  intros Hcond. unfold lookingAwayBlock. rewrite Hcond.
  cbv [bind gets]. cbv beta iota zeta.
  destruct (falsy (lookingAwayStartTime (refs w))); [reflexivity|].
  cbv [Date_now]. cbv beta iota zeta. fold (nextNow w). fold (ticked w).
  destruct (2000 <? _)%Z; [|reflexivity].
  fold (nextNow (ticked w)). fold (ticked (ticked w)).
  change (lastEventTime (refs (ticked (ticked w)))) with (lastEventTime (refs w)).
  destruct (5000 <? _)%Z; [|reflexivity].
  rewrite logEvent_eq.
  change (lastEventTime (refs (ticked (ticked w)))) with (lastEventTime (refs w)).
  destruct (_ <? 2000)%Z; reflexivity.
Qed.

Lemma analyzeFrame_looking_away v config landmarks w l1 w1 :
  detectedFaces (latestFaceResults (refs w)) = [landmarks] ->
  detectedHands (latestHandResults (refs w)) = [] ->
  talkingCondition v config (calculateMouthOpenness landmarks) = false ->
  lookingAwayBlock v config landmarks
    (flag (with_faceDetected true) (mkLocals INITIAL_STATUS 0)) w = (Normal l1, w1) ->
  analyzeFrame v config w =
    (Normal l1,
     afterNoHands v (latestHandResults (refs w))
       (with_refs
          (with_missingFaceStartTime None (with_talkingStartTime None (refs w1))) w1)).
Proof.
  intros Hfaces Hhands Htalk Hblock. unfold analyzeFrame.
  cbv [bind gets]. cbv beta iota.
  unfold faceLogic, handLogic. rewrite Hfaces, Hhands.
  cbv [bind]. unfold multipleFacesBlock. cbn [List.length Nat.ltb Nat.leb].
  cbv [ret]. cbv beta iota.
  rewrite Hblock.
  rewrite (talkingBlock_quiet _ _ _ _ _ Htalk).
  cbv [modifyRefs modify]. cbv beta iota.
  destruct v, (latestHandResults (refs w)); reflexivity.
Qed.

(** X29.  Once a face has looked away for more than 2000 ms, each further
    frame that shows it looking away (alone, not talking, without hands)
    takes 0.1 times the exam-mode multiplier off the score and earns no
    recovery; LOOKING_AWAY is logged with severity MEDIUM and the direction
    of the look only when more than 5000 ms have passed since the last
    logged event.  The timer keeps the time at which the look began. *)
Theorem looking_away_beyond_the_grace_period :
  forall (v : Version) (config : AppConfig) (w : World) (landmarks : Landmarks),
    ready (host w) ->
    detectedFaces (latestFaceResults (refs w)) = [landmarks] ->
    detectedHands (latestHandResults (refs w)) = [] ->
    lookingAwayCondition v config (calculateHeadPose landmarks) = true ->
    talkingCondition v config (calculateMouthOpenness landmarks) = false ->
    falsy (lookingAwayStartTime (refs w)) = false ->
    (2000 < nextNow w - valueOf (lookingAwayStartTime (refs w)))%Z ->
    let w' := snd (processFrame v config w) in
    fst (processFrame v config w) = Normal tt /\
    isLookingAway (status w') = true /\
    score w' = clamp (score w - 0.1 * multiplierOf (examMode config)) /\
    events w' =
      events w ++
      loggedAfter 5000 config (ticked w) LOOKING_AWAY MEDIUM
        ("Looking " ++ lookingDirection (calculateHeadPose landmarks) ++ " detected.") /\
    lookingAwayStartTime (refs w') = lookingAwayStartTime (refs w).
Proof.
  intros v config w landmarks Hready Hfaces Hhands Hlook Htalk Hstarted Hlong w'.
  destruct (@processFrame_without_hands v config w Hready Hhands) as [w2 [_ Hrun]].
  split; [rewrite Hrun; reflexivity|].
  pose proof (lookingAwayBlock_eq v config landmarks
                (flag (with_faceDetected true) (mkLocals INITIAL_STATUS 0)) w Hlook)
    as Hblock.
  cbv zeta in Hblock. rewrite Hstarted in Hblock.
  apply Z.ltb_lt in Hlong. rewrite Hlong in Hblock.
  pose proof (analyzeFrame_looking_away _ _ _ Hfaces Hhands Htalk Hblock) as Han.
  destruct (@processFrame_done v config w _ _ Hready Han) as [_ Hw'].
  subst w'. rewrite Hw'.
  cbn [status score events refs with_score with_status currentStatus deduction
       deduct flag isLookingAway with_isLookingAway].
  rewrite events_afterNoHands, refs_afterNoHands.
  split; [reflexivity|].
  replace (0 + 0.1) with 0.1 by lra.
  split; [apply scoreUpdater_deduction; lra|].
  unfold loggedAfter.
  change (lastEventTime (refs (ticked w))) with (lastEventTime (refs w)).
  destruct (Z.ltb_spec 5000 (nextNow (ticked w) - lastEventTime (refs w)));
    cbn [andb].
  - destruct (Z.ltb_spec (nextNow (ticked (ticked w)) - lastEventTime (refs w)) 2000),
             (Z.leb_spec 2000 (nextNow (ticked (ticked w)) - lastEventTime (refs w)));
      try lia; cbn; rewrite ?app_nil_r; split; reflexivity.
  - cbn. rewrite app_nil_r. split; reflexivity.
Qed.

(** The turned face, whose look away began at time 1. *)
Lemma looking_away_beyond_the_grace_period_witness :
  let w0 := seeing [turnedFace] (initialWorld exampleHost) in
  let w := with_refs (with_lookingAwayStartTime (Some 1%Z) (refs w0)) w0 in
  let w' := snd (processFrame FirstVersion INITIAL_CONFIG w) in
  fst (processFrame FirstVersion INITIAL_CONFIG w) = Normal tt /\
  isLookingAway (status w') = true /\
  score w' = clamp (100 - 0.1 * 1).
Proof.
  intros w0 w w'.
  assert (Hready : ready (host w)) by (repeat split).
  assert (Hlook : lookingAwayCondition FirstVersion INITIAL_CONFIG
                    (calculateHeadPose turnedFace) = true)
    by (apply lookingAwayCondition_yaw; rewrite turnedFace_pose; reflexivity).
  assert (Htalk : talkingCondition FirstVersion INITIAL_CONFIG
                    (calculateMouthOpenness turnedFace) = false)
    by (rewrite turnedFace_mouth; apply talkingCondition_zero).
  assert (Hlong : (2000 < nextNow w - valueOf (lookingAwayStartTime (refs w)))%Z)
    by (cbv [w w0 nextNow host refs seeing with_refs initialWorld exampleHost clock ticks
             lookingAwayStartTime with_lookingAwayStartTime valueOf]; lia).
  destruct (@looking_away_beyond_the_grace_period FirstVersion INITIAL_CONFIG w
              turnedFace Hready eq_refl eq_refl Hlook Htalk eq_refl Hlong)
    as (Hfst & Hflag & Hscore & _).
  split; [exact Hfst|]. split; [exact Hflag | exact Hscore].
Defined.

(** * Hands in the first copy *)

Lemma firstHandLoop_quiet faceResults hands l w :
  wp (firstHandLoop faceResults hands l)
     (fun l' w' => deduction l' = deduction l /\ w' = w) (fun w' => w' = w) w.
Proof.
  apply (@firstHandLoop_invariant
           (fun l' w' => deduction l' = deduction l /\ w' = w) (fun w' => w' = w)).
  - intros hand l0 w0 [Hd ->]. unfold firstHandBody.
    destruct (faceDetected (currentStatus l0)); [|wp_go; auto].
    destruct (detectedFaces faceResults); [wp_go; auto|].
    apply wp_bind, wp_lift.
    destruct (calculateHandFaceDistance _ _); [|reflexivity].
    wp_go; auto.
  - auto.
Qed.

(** X30.  The first copy never penalises a hand.  Its hand logic reads no
    clock, logs nothing and deducts nothing: the score update and the log
    of a processed frame are those of the face logic alone, and a hand near
    the face shows in the [handNearFace] flag only. *)
Theorem first_copy_never_penalises_a_hand :
  forall (config : AppConfig) (w w' : World),
    processed FirstVersion config w w' ->
    exists l w1,
      faceLogic FirstVersion config (latestFaceResults (refs w))
        (mkLocals INITIAL_STATUS 0) w = (Normal l, w1) /\
      score w' = scoreUpdater config (deduction l) (score w) /\
      events w' = events w1 /\ refs w' = refs w1 /\ host w' = host w1.
Proof.
  intros config w w' Hdone.
  destruct (processed_report Hdone) as (l2 & w2 & Hrun & -> & _ & _).
  pose proof (@faceLogic_spec FirstVersion config w (latestFaceResults (refs w)) w
                (frameStep_refl _ config w)) as Hface.
  unfold wp in Hface.
  unfold analyzeFrame in Hrun. cbv [bind gets] in Hrun. cbv beta iota in Hrun.
  destruct (faceLogic FirstVersion config (latestFaceResults (refs w))
              (mkLocals INITIAL_STATUS 0) w) as [[l1|] w1] eqn:Hfl; [|contradiction].
  exists l1, w1. split; [reflexivity|].
  assert (Hquiet : deduction l2 = deduction l1 /\ w2 = w1).
  { unfold handLogic in Hrun.
    destruct (detectedHands (latestHandResults (refs w))) as [|hand rest].
    - destruct (latestHandResults (refs w)); cbv [ret] in Hrun;
        injection Hrun as <- <-; auto.
    - pose proof (firstHandLoop_quiet (latestFaceResults (refs w)) (hand :: rest)
                    (flag (with_handsDetected true) l1) w1) as H.
      unfold wp in H. rewrite Hrun in H. exact H. }
  destruct Hquiet as [-> ->].
  cbn [score events refs host with_score with_status]. repeat split.
Qed.

(** The closed hand beside the turned face, in the first copy. *)
Lemma first_copy_never_penalises_a_hand_witness :
  let w := holding [Some fist] (seeing [turnedFace] (initialWorld exampleHost)) in
  exists w' l w1,
    processed FirstVersion INITIAL_CONFIG w w' /\
    faceLogic FirstVersion INITIAL_CONFIG (latestFaceResults (refs w))
      (mkLocals INITIAL_STATUS 0) w = (Normal l, w1) /\
    events w' = events w1.
Proof.
  intros w.
  assert (Hw : wellFormed w) by (repeat split).
  pose proof (processFrame_completes FirstVersion INITIAL_CONFIG Hw) as H.
  unfold wp in H.
  destruct (processFrame FirstVersion INITIAL_CONFIG w) as [[[]|] w'] eqn:Hrun;
    [|contradiction].
  assert (Hdone : processed FirstVersion INITIAL_CONFIG w w')
    by (split; [repeat split | exact Hrun]).
  destruct (first_copy_never_penalises_a_hand Hdone) as (l & w1 & Hfl & _ & He & _).
  exists w', l, w1. split; [exact Hdone|]. split; [exact Hfl | exact He].
Defined.

(** * The looking-away timer across a missing face *)

(** A frame without hands whose analysis returns: what [processFrame]
    leaves. *)
Lemma processFrame_afterNoHands v config w l w1 :
  ready (host w) ->
  analyzeFrame v config w =
    (Normal l, afterNoHands v (latestHandResults (refs w)) w1) ->
  ready (host w1) ->
  let w' := snd (processFrame v config w) in
  ready (host w') /\
  score w' = scoreUpdater config (deduction l) (score w) /\
  status w' = currentStatus l /\
  events w' = events w1 /\
  refs w' = refs w1 /\
  host w' = host (afterNoHands v (latestHandResults (refs w)) w1).
Proof.
  intros Hready Hrun Hready1 w'.
  destruct (@processFrame_done v config w _ _ Hready Hrun) as [_ Hw'].
  subst w'. rewrite Hw'.
  cbn [host score status events refs with_score with_status].
  rewrite events_afterNoHands, refs_afterNoHands.
  split; [|repeat split].
  destruct v, (latestHandResults (refs w)); exact Hready1.
Qed.

Lemma host_afterNoHands_ticked v handResults w1 w2 :
  host w1 = host w2 ->
  host (afterNoHands v handResults (ticked w1)) =
  host (afterNoHands v handResults (ticked w2)).
Proof.
  intros H. destruct v, handResults; cbn [afterNoHands ticked host with_host];
    rewrite H; reflexivity.
Qed.

(** The first frame of a look away: one face that looks away and does not
    talk, no hands, the timer not started. *)
Lemma first_look_frame v config landmarks w :
  ready (host w) ->
  detectedFaces (latestFaceResults (refs w)) = [landmarks] ->
  detectedHands (latestHandResults (refs w)) = [] ->
  lookingAwayCondition v config (calculateHeadPose landmarks) = true ->
  talkingCondition v config (calculateMouthOpenness landmarks) = false ->
  falsy (lookingAwayStartTime (refs w)) = true ->
  let w' := snd (processFrame v config w) in
  ready (host w') /\
  score w' = clamp (score w + 0.05) /\
  isLookingAway (status w') = true /\
  events w' = events w /\
  refs w' =
    with_missingFaceStartTime None
      (with_talkingStartTime None
         (with_lookingAwayStartTime (Some (nextNow w)) (refs w))) /\
  host w' = host (afterNoHands v (latestHandResults (refs w)) (ticked w)).
Proof.
  intros Hready Hfaces Hhands Hlook Htalk Hfirst w'. subst w'.
  pose proof (lookingAwayBlock_eq v config landmarks
                (flag (with_faceDetected true) (mkLocals INITIAL_STATUS 0)) w Hlook)
    as Hblock.
  cbv zeta in Hblock. rewrite Hfirst in Hblock.
  pose proof (analyzeFrame_looking_away _ _ _ Hfaces Hhands Htalk Hblock) as Han.
  destruct (@processFrame_afterNoHands v config w _ _ Hready Han Hready)
    as (Hr & Hs & Hst & He & Hrefs & Hhost).
  split; [exact Hr|]. split; [rewrite Hs; apply scoreUpdater_zero|].
  split; [rewrite Hst; reflexivity|].
  split; [exact He|]. split; [exact Hrefs|].
  rewrite Hhost. destruct v, (latestHandResults (refs w)); reflexivity.
Qed.

(** The first frame without a face (and without hands). *)
Lemma first_missing_frame v config w :
  ready (host w) ->
  detectedFaces (latestFaceResults (refs w)) = [] ->
  detectedHands (latestHandResults (refs w)) = [] ->
  falsy (missingFaceStartTime (refs w)) = true ->
  let w' := snd (processFrame v config w) in
  ready (host w') /\
  score w' = clamp (score w + 0.05) /\
  status w' = INITIAL_STATUS /\
  events w' = events w /\
  refs w' = with_missingFaceStartTime (Some (nextNow w)) (refs w) /\
  host w' = host (afterNoHands v (latestHandResults (refs w)) (ticked w)).
Proof.
  intros Hready Hfaces Hhands Hfirst w'. subst w'.
  pose proof (analyzeFrame_no_face_no_hands v config w Hfaces Hhands) as Han.
  rewrite noFaceBlock_eq in Han. cbv zeta in Han. rewrite Hfirst in Han.
  cbn [fst snd] in Han.
  destruct (@processFrame_afterNoHands v config w _ _ Hready Han Hready)
    as (Hr & Hs & Hst & He & Hrefs & Hhost).
  split; [exact Hr|]. split; [rewrite Hs; apply scoreUpdater_zero|].
  split; [exact Hst|]. split; [exact He|]. split; [exact Hrefs|].
  rewrite Hhost. destruct v, (latestHandResults (refs w)); reflexivity.
Qed.

(** A frame of a look away whose timer has run for more than 2000 ms. *)
Lemma long_look_frame v config landmarks w :
  ready (host w) ->
  detectedFaces (latestFaceResults (refs w)) = [landmarks] ->
  detectedHands (latestHandResults (refs w)) = [] ->
  lookingAwayCondition v config (calculateHeadPose landmarks) = true ->
  talkingCondition v config (calculateMouthOpenness landmarks) = false ->
  falsy (lookingAwayStartTime (refs w)) = false ->
  (2000 < nextNow w - valueOf (lookingAwayStartTime (refs w)))%Z ->
  let w' := snd (processFrame v config w) in
  score w' = clamp (score w - 0.1 * multiplierOf (examMode config)) /\
  isLookingAway (status w') = true /\
  events w' =
    events w ++
    loggedAfter 5000 config (ticked w) LOOKING_AWAY MEDIUM
      ("Looking " ++ lookingDirection (calculateHeadPose landmarks) ++ " detected.").
Proof.
  intros Hready Hfaces Hhands Hlook Htalk Hstarted Hlong w'.
  pose proof (lookingAwayBlock_eq v config landmarks
                (flag (with_faceDetected true) (mkLocals INITIAL_STATUS 0)) w Hlook)
    as Hblock.
  cbv zeta in Hblock. rewrite Hstarted in Hblock.
  apply Z.ltb_lt in Hlong. rewrite Hlong in Hblock.
  pose proof (analyzeFrame_looking_away _ _ _ Hfaces Hhands Htalk Hblock) as Han.
  destruct (@processFrame_done v config w _ _ Hready Han) as [_ Hw'].
  subst w'. rewrite Hw'.
  cbn [status score events refs with_score with_status currentStatus deduction
       deduct flag isLookingAway with_isLookingAway].
  rewrite events_afterNoHands.
  replace (0 + 0.1) with 0.1 by lra.
  split; [apply scoreUpdater_deduction; lra|]. split; [reflexivity|].
  unfold loggedAfter.
  change (lastEventTime (refs (ticked w))) with (lastEventTime (refs w)).
  destruct (Z.ltb_spec 5000 (nextNow (ticked w) - lastEventTime (refs w)));
    cbn [andb].
  - destruct (Z.ltb_spec (nextNow (ticked (ticked w)) - lastEventTime (refs w)) 2000),
             (Z.leb_spec 2000 (nextNow (ticked (ticked w)) - lastEventTime (refs w)));
      try lia; cbn; rewrite ?app_nil_r; reflexivity.
  - cbn. rewrite app_nil_r. reflexivity.
Qed.

(** A face that looks away is seen and then lost: the two frames, run
    from a world without a running timer. *)
Lemma look_then_gone v config landmarks w :
  let away := (config, faceMesh_onResults (mkFaceResults (Some [landmarks]))) in
  let gone := (config, faceMesh_onResults (mkFaceResults (Some []))) in
  let w1 := run v [away] w in
  let w2 := run v [away; gone] w in
  let handResults := latestHandResults (refs w) in
  ready (host w) ->
  detectedHands handResults = [] ->
  lookingAwayCondition v config (calculateHeadPose landmarks) = true ->
  talkingCondition v config (calculateMouthOpenness landmarks) = false ->
  falsy (lookingAwayStartTime (refs w)) = true ->
  (isLookingAway (status w1) = true /\
   lookingAwayStartTime (refs w1) = Some (nextNow w) /\
   score w1 = clamp (score w + 0.05) /\ events w1 = events w) /\
  (status w2 = INITIAL_STATUS /\
   lookingAwayStartTime (refs w2) = Some (nextNow w) /\
   score w2 = clamp (score w1 + 0.05) /\ events w2 = events w) /\
  ready (host w2) /\
  latestHandResults (refs w2) = handResults /\
  lastEventTime (refs w2) = lastEventTime (refs w) /\
  host w2 =
    host (afterNoHands v handResults (ticked (afterNoHands v handResults (ticked w)))).
Proof.
  intros away gone w1 w2 handResults Hready Hhands Hlook Htalk Hfirst.
  assert (E1 : w1 = snd (processFrame v config (seeing [landmarks] w))) by reflexivity.
  destruct (@first_look_frame v config landmarks (seeing [landmarks] w))
    as (Hr1 & Hs1 & Hf1 & He1 & Hrefs1 & Hhost1); try assumption; try reflexivity.
  rewrite <- E1 in Hr1, Hs1, Hf1, He1, Hrefs1, Hhost1.
  change (nextNow (seeing [landmarks] w)) with (nextNow w) in Hrefs1.
  cbn [score events seeing with_refs] in Hs1, He1.
  cbn [seeing refs with_refs latestHandResults with_latestFaceResults] in Hhost1.
  fold handResults in Hhost1.
  assert (E2 : w2 = snd (processFrame v config (seeing [] w1))) by reflexivity.
  assert (Hh1 : latestHandResults (refs (seeing [] w1)) = handResults).
  { cbn [seeing refs with_refs latestHandResults with_latestFaceResults].
    rewrite Hrefs1. reflexivity. }
  destruct (@first_missing_frame v config (seeing [] w1))
    as (Hr2 & Hs2 & Hst2 & He2 & Hrefs2 & Hhost2).
  { exact Hr1. }
  { reflexivity. }
  { rewrite Hh1. exact Hhands. }
  { cbn [seeing refs with_refs missingFaceStartTime with_latestFaceResults].
    rewrite Hrefs1. reflexivity. }
  rewrite <- E2 in Hr2, Hs2, Hst2, He2, Hrefs2, Hhost2.
  cbn [score events seeing with_refs] in Hs2, He2.
  rewrite Hh1 in Hhost2.
  split; [|split; [|split; [|split; [|split]]]].
  - split; [exact Hf1|]. split; [rewrite Hrefs1; reflexivity|].
    split; [exact Hs1 | exact He1].
  - split; [exact Hst2|].
    split; [rewrite Hrefs2; cbn [seeing refs with_refs]; rewrite Hrefs1; reflexivity|].
    split; [exact Hs2|]. rewrite He2. exact He1.
  - exact Hr2.
  - rewrite Hrefs2. cbn [seeing refs with_refs]. rewrite Hrefs1. reflexivity.
  - rewrite Hrefs2. cbn [seeing refs with_refs]. rewrite Hrefs1. reflexivity.
  - rewrite Hhost2. apply host_afterNoHands_ticked.
    cbn [seeing host with_refs]. rewrite Hhost1.
    apply host_afterNoHands_ticked. reflexivity.
Qed.

(** C5.  A look away that is interrupted by a missing face.  The first
    frame that shows the face looking away sets [isLookingAway], starts the
    looking-away timer and deducts nothing.  The next frame shows no face:
    the published status has [faceDetected] and [isLookingAway] false, the
    condition no longer holds, yet the timer keeps the time of the first
    frame.  When the face is then seen looking away again and the clock
    reads more than 2000 ms past that time, this first frame of the renewed
    look is penalised at once: 0.1 times the exam-mode multiplier is taken
    off the score, without recovery, and LOOKING_AWAY is logged as soon as
    the log has been quiet for 5000 ms. *)
Theorem C5_looking_away_timer_survives_a_missing_face :
  forall (v : Version) (config : AppConfig) (landmarks : Landmarks) (w : World),
    let away := (config, faceMesh_onResults (mkFaceResults (Some [landmarks]))) in
    let gone := (config, faceMesh_onResults (mkFaceResults (Some []))) in
    let w1 := run v [away] w in
    let w2 := run v [away; gone] w in
    let w3 := run v [away; gone; away] w in
    ready (host w) ->
    detectedHands (latestHandResults (refs w)) = [] ->
    lookingAwayCondition v config (calculateHeadPose landmarks) = true ->
    talkingCondition v config (calculateMouthOpenness landmarks) = false ->
    falsy (lookingAwayStartTime (refs w)) = true ->
    nextNow w <> 0%Z ->
    (2000 < nextNow w2 - nextNow w)%Z ->
    (isLookingAway (status w1) = true /\
     lookingAwayStartTime (refs w1) = Some (nextNow w) /\
     score w1 = clamp (score w + 0.05) /\ events w1 = events w) /\
    (faceDetected (status w2) = false /\ isLookingAway (status w2) = false /\
     lookingAwayStartTime (refs w2) = Some (nextNow w) /\
     score w2 = clamp (score w1 + 0.05) /\ events w2 = events w) /\
    (isLookingAway (status w3) = true /\
     score w3 = clamp (score w2 - 0.1 * multiplierOf (examMode config)) /\
     events w3 =
       events w ++
       loggedAfter 5000 config (ticked w2) LOOKING_AWAY MEDIUM
         ("Looking " ++ lookingDirection (calculateHeadPose landmarks) ++ " detected.")).
Proof.
  intros v config landmarks w away gone w1 w2 w3
         Hready Hhands Hlook Htalk Hfirst Hclock Hgap.
  destruct (@look_then_gone v config landmarks w Hready Hhands Hlook Htalk Hfirst)
    as (Hone & (Hst2 & Ht2 & Hs2 & He2) & Hr2 & Hh2 & _ & _).
  subst w1 w2 w3 away gone.
  set (w1 := run v [_] w) in *. set (w2 := run v [_; _] w) in *.
  set (w3 := run v [_; _; _] w).
  assert (E3 : w3 = snd (processFrame v config (seeing [landmarks] w2))) by reflexivity.
  destruct (@long_look_frame v config landmarks (seeing [landmarks] w2))
    as (Hs3 & Hf3 & He3); try assumption; try reflexivity.
  { cbn [seeing refs with_refs latestHandResults with_latestFaceResults].
    rewrite Hh2. exact Hhands. }
  { cbn [seeing refs with_refs lookingAwayStartTime with_latestFaceResults].
    rewrite Ht2. cbn [falsy]. apply Z.eqb_neq. exact Hclock. }
  { cbn [seeing refs with_refs lookingAwayStartTime with_latestFaceResults].
    rewrite Ht2. exact Hgap. }
  rewrite <- E3 in Hs3, Hf3, He3.
  cbn [score events seeing with_refs] in Hs3, He3.
  split; [exact Hone|]. split.
  - rewrite Hst2. split; [reflexivity|]. split; [reflexivity|].
    split; [exact Ht2|]. split; [exact Hs2 | exact He2].
  - split; [exact Hf3|]. split; [exact Hs3|]. rewrite He3, He2. reflexivity.
Qed.

(** The turned face seen, gone and seen again, the clock advancing by
    1500 ms from reading to reading: the third frame, the first to show the
    renewed look, takes 0.1 off the score and logs LOOKING_AWAY. *)
Lemma C5_looking_away_timer_survives_a_missing_face_witness :
  let away := (INITIAL_CONFIG, faceMesh_onResults (mkFaceResults (Some [turnedFace]))) in
  let gone := (INITIAL_CONFIG, faceMesh_onResults (mkFaceResults (Some []))) in
  let w := initialWorld slowHost in
  let w2 := run FirstVersion [away; gone] w in
  let w3 := run FirstVersion [away; gone; away] w in
  isLookingAway (status w2) = false /\
  isLookingAway (status w3) = true /\
  score w3 = clamp (score w2 - 0.1 * 1) /\
  List.length (events w3) = 1%nat.
Proof.
  intros away gone w w2 w3.
  assert (Hready : ready (host w)) by (repeat split).
  assert (Hlook : lookingAwayCondition FirstVersion INITIAL_CONFIG
                    (calculateHeadPose turnedFace) = true)
    by (apply lookingAwayCondition_yaw; rewrite turnedFace_pose; reflexivity).
  assert (Htalk : talkingCondition FirstVersion INITIAL_CONFIG
                    (calculateMouthOpenness turnedFace) = false)
    by (rewrite turnedFace_mouth; apply talkingCondition_zero).
  assert (Hclock : nextNow w <> 0%Z) by discriminate.
  destruct (@look_then_gone FirstVersion INITIAL_CONFIG turnedFace w
              Hready eq_refl Hlook Htalk eq_refl)
    as (_ & _ & _ & _ & Hlast & Hhost).
  subst away gone. fold w2 in Hlast, Hhost.
  cbn [afterNoHands] in Hhost.
  assert (Hnow : nextNow w2 = 1700000003000%Z)
    by (unfold nextNow; rewrite Hhost; reflexivity).
  assert (Hgap : (2000 < nextNow w2 - nextNow w)%Z)
    by (rewrite Hnow; reflexivity).
  destruct (@C5_looking_away_timer_survives_a_missing_face FirstVersion INITIAL_CONFIG
              turnedFace w Hready eq_refl Hlook Htalk eq_refl Hclock Hgap)
    as (_ & (_ & Hgone & _) & (Hback & Hscore & Hlog)).
  fold w2 w3 in Hgone, Hback, Hscore, Hlog.
  split; [exact Hgone|]. split; [exact Hback|]. split; [exact Hscore|].
  rewrite Hlog. unfold loggedAfter.
  change (lastEventTime (refs (ticked w2))) with (lastEventTime (refs w2)).
  rewrite Hlast. unfold nextNow. cbn [ticked host with_host]. rewrite Hhost.
  reflexivity.
Defined.

(** * The voice-activity toggle and the callback that reads it *)

Lemma ExamMode_eqb_refl mode : ExamMode_eqb mode mode = true.
Proof. destruct mode; reflexivity. Qed.

(** The toggle is not among the dependencies of [processFrame]: switching
    it leaves the callback of the earlier render in place. *)
Lemma processFrame_unchanged_by_the_voice_toggle v old studyMode :
  processFrame_unchanged v old
    (ControlPanel.onChange ControlPanel.toggleVoiceActivityDetection old)
    studyMode studyMode = true.
Proof.
  unfold processFrame_unchanged, logEvent_unchanged, captureScreenshot_unchanged.
  cbn [ControlPanel.onChange examMode invisibleProctor privacyMode].
  rewrite ExamMode_eqb_refl, !Bool.eqb_reflx.
  destruct v as [|[]]; reflexivity.
Qed.

(** The privacy mode is among them. *)
Lemma processFrame_changed_by_the_privacy_toggle v old new studyMode :
  privacyMode new = negb (privacyMode old) ->
  processFrame_unchanged v old new studyMode studyMode = false.
Proof.
  intros H. unfold processFrame_unchanged, logEvent_unchanged, captureScreenshot_unchanged.
  rewrite H. destruct (privacyMode old); cbn [negb Bool.eqb];
    rewrite ?andb_false_r; reflexivity.
Qed.

(** A frame of one face that talks and does not look away, without hands. *)
Lemma talking_frame v config landmarks w :
  ready (host w) ->
  detectedFaces (latestFaceResults (refs w)) = [landmarks] ->
  detectedHands (latestHandResults (refs w)) = [] ->
  lookingAwayCondition v config (calculateHeadPose landmarks) = false ->
  talkingCondition v config (calculateMouthOpenness landmarks) = true ->
  let w' := snd (processFrame v config w) in
  let start := talkingStartTime (refs w) in
  isTalking (status w') = true /\
  (falsy start = false -> (1500 < nextNow w - valueOf start)%Z ->
   score w' = clamp (score w - 0.2 * multiplierOf (examMode config)) /\
   events w' =
     events w ++
     loggedAfter 4000 config (ticked w) TALKING MEDIUM
       "Sustained mouth movement detected.").
Proof.
  intros Hready Hfaces Hhands Hlook Htalk w' start.
  destruct (@processFrame_without_hands v config w Hready Hhands) as [w2 Hdone].
  assert (Hw2 : w' = w2) by (subst w'; rewrite (proj2 Hdone); reflexivity).
  split.
  - destruct (processed_faceStatus Hdone) as (_ & _ & _ & Hflag).
    rewrite Hw2, Hflag, Hfaces. exact Htalk.
  - intros Hstarted Hlong.
    set (w0 := with_refs (with_lookingAwayStartTime None (refs w)) w).
    pose proof (talkingBlock_eq v config landmarks
                  (flag (with_faceDetected true) (mkLocals INITIAL_STATUS 0)) w0 Htalk)
      as Hblock.
    cbv zeta in Hblock.
    change (talkingStartTime (refs w0)) with start in Hblock.
    change (lastEventTime (refs w0)) with (lastEventTime (refs w)) in Hblock.
    change (nextNow w0) with (nextNow w) in Hblock.
    change (nextNow (ticked w0)) with (nextNow (ticked w)) in Hblock.
    change (nextNow (ticked (ticked w0))) with (nextNow (ticked (ticked w))) in Hblock.
    rewrite Hstarted in Hblock. apply Z.ltb_lt in Hlong. rewrite Hlong in Hblock.
    pose proof (analyzeFrame_talking _ _ _ Hfaces Hhands Hlook Hblock) as Han.
    destruct (@processFrame_done v config w _ _ Hready Han) as [_ Hw'].
    subst w'. rewrite Hw'.
    cbn [status score events refs with_score with_status currentStatus deduction
         deduct flag].
    rewrite events_afterNoHands.
    replace (0 + 0.2) with 0.2 by lra.
    split; [apply scoreUpdater_deduction; lra|].
    unfold loggedAfter.
    change (lastEventTime (refs (ticked w))) with (lastEventTime (refs w)).
    destruct (Z.ltb_spec 4000 (nextNow (ticked w) - lastEventTime (refs w)));
      cbn [andb].
    + destruct (Z.ltb_spec (nextNow (ticked (ticked w)) - lastEventTime (refs w)) 2000),
               (Z.leb_spec 2000 (nextNow (ticked (ticked w)) - lastEventTime (refs w)));
        try lia; cbn; rewrite ?app_nil_r; reflexivity.
    + cbn. rewrite app_nil_r. reflexivity.
Qed.

(** The first frame of a talk: one face that talks and does not look
    away, no hands, the timer not started. *)
Lemma first_talk_frame v config landmarks w :
  ready (host w) ->
  detectedFaces (latestFaceResults (refs w)) = [landmarks] ->
  detectedHands (latestHandResults (refs w)) = [] ->
  lookingAwayCondition v config (calculateHeadPose landmarks) = false ->
  talkingCondition v config (calculateMouthOpenness landmarks) = true ->
  falsy (talkingStartTime (refs w)) = true ->
  let w' := snd (processFrame v config w) in
  ready (host w') /\
  score w' = clamp (score w + 0.05) /\
  events w' = events w /\
  refs w' =
    with_missingFaceStartTime None
      (with_talkingStartTime (Some (nextNow w))
         (with_lookingAwayStartTime None (refs w))) /\
  host w' = host (afterNoHands v (latestHandResults (refs w)) (ticked w)).
Proof.
  intros Hready Hfaces Hhands Hlook Htalk Hfirst w'. subst w'.
  set (w0 := with_refs (with_lookingAwayStartTime None (refs w)) w).
  pose proof (talkingBlock_eq v config landmarks
                (flag (with_faceDetected true) (mkLocals INITIAL_STATUS 0)) w0 Htalk)
    as Hblock.
  cbv zeta in Hblock.
  change (talkingStartTime (refs w0)) with (talkingStartTime (refs w)) in Hblock.
  rewrite Hfirst in Hblock.
  pose proof (analyzeFrame_talking _ _ _ Hfaces Hhands Hlook Hblock) as Han.
  destruct (@processFrame_afterNoHands v config w _ _ Hready Han Hready)
    as (Hr & Hs & _ & He & Hrefs & Hhost).
  split; [exact Hr|]. split; [rewrite Hs; apply scoreUpdater_zero|].
  split; [exact He|]. split; [exact Hrefs|].
  rewrite Hhost. destruct v, (latestHandResults (refs w)); reflexivity.
Qed.

(** C7.  The user switches the voice-activity toggle off, and nothing else.
    The state [config] then has the toggle disabled, but the toggle is not
    among the dependencies of [processFrame], so [processFrameRef] still
    holds the callback made while it was enabled: the next frame is
    processed exactly as if the switch had not been operated.  A face whose
    mouth openness exceeds the threshold is declared talking, and once the
    talking timer has run for more than 1500 ms the frame takes 0.2 times
    the exam-mode multiplier off the score and logs TALKING as soon as the
    log has been quiet for 4000 ms.  Only when a listed dependency changes
    afterwards (here the privacy mode) is the callback made anew; the two
    later copies then honour the toggle, while the first copy, whose talking
    test does not read it, still declares the face talking. *)
Theorem C7_switching_the_voice_toggle_off_is_not_seen :
  forall (v : Version) (app : Component) (landmarks : Landmarks),
    let switched := act v (control ControlPanel.toggleVoiceActivityDetection) app in
    let rebuilt := act v (control ControlPanel.togglePrivacyMode) switched in
    let frame := deliver (faceMesh_onResults (mkFaceResults (Some [landmarks]))) in
    let w := seeing [landmarks] (world app) in
    let w' := world (act v frame switched) in
    let start := talkingStartTime (refs w) in
    processFrameRef app = config app ->
    voiceActivityDetection (config app) = true ->
    ready (host (world app)) ->
    detectedHands (latestHandResults (refs (world app))) = [] ->
    lookingAwayCondition v (config app) (calculateHeadPose landmarks) = false ->
    greater (calculateMouthOpenness landmarks) (TALK_THRESHOLD v) = true ->
    (voiceActivityDetection (config switched) = false /\
     processFrameRef switched = config app) /\
    w' = world (act v frame app) /\
    isTalking (status w') = true /\
    (falsy start = false -> (1500 < nextNow w - valueOf start)%Z ->
     score w' = clamp (score w - 0.2 * multiplierOf (examMode (config switched))) /\
     events w' =
       events w ++
       loggedAfter 4000 (config switched) (ticked w) TALKING MEDIUM
         "Sustained mouth movement detected.") /\
    (processFrameRef rebuilt = config rebuilt /\
     isTalking (status (world (act v frame rebuilt))) =
       match v with FirstVersion => true | LaterVersion _ => false end).
Proof.
  intros v app landmarks switched rebuilt frame w w' start
         Hfresh Hon Hready Hhands Hlook Hopen.
  assert (Hkept : processFrameRef switched = config app).
  { subst switched. cbn [act render processFrameRef]. rewrite Hfresh.
    rewrite processFrame_unchanged_by_the_voice_toggle. reflexivity. }
  assert (Hoff : voiceActivityDetection (config switched) = false).
  { subst switched. cbn [act render config ControlPanel.onChange voiceActivityDetection].
    rewrite Hon. reflexivity. }
  assert (Hframe : forall c : Component,
             world (act v frame c) =
             snd (processFrame v (processFrameRef c) (seeing [landmarks] (world c))))
    by reflexivity.
  assert (Hw' : w' = snd (processFrame v (config app) w)).
  { subst w'. rewrite Hframe, Hkept. reflexivity. }
  assert (Htalk : talkingCondition v (config app) (calculateMouthOpenness landmarks)
                  = true).
  { destruct v; cbn [talkingCondition]; rewrite Hopen, ?Hon; reflexivity. }
  destruct (@talking_frame v (config app) landmarks w Hready eq_refl Hhands Hlook Htalk)
    as [Hflag Hlong].
  split; [split; assumption|].
  split; [rewrite Hw', Hframe, Hfresh; reflexivity|].
  split; [rewrite Hw'; exact Hflag|].
  split; [intros Hstarted Hlate; rewrite Hw'; exact (Hlong Hstarted Hlate)|].
  assert (Hnew : processFrameRef rebuilt = config rebuilt).
  { subst rebuilt. cbn [act render processFrameRef config].
    rewrite processFrame_changed_by_the_privacy_toggle; [reflexivity|].
    rewrite Hkept. reflexivity. }
  split; [exact Hnew|].
  rewrite Hframe, Hnew.
  assert (Hready' : ready (host (seeing [landmarks] (world rebuilt)))) by exact Hready.
  destruct (@processFrame_without_hands v (config rebuilt) _ Hready' Hhands)
    as [w2 Hdone].
  rewrite (proj2 Hdone). cbn [snd].
  destruct (processed_faceStatus Hdone) as (_ & _ & _ & Hflag').
  rewrite Hflag'. cbn [seeing refs with_refs latestFaceResults with_latestFaceResults
                        detectedFaces multiFaceLandmarks faceStatus isTalking].
  destruct v; cbn [talkingCondition]; rewrite Hopen; [reflexivity|].
  change (voiceActivityDetection (config rebuilt))
    with (voiceActivityDetection (config switched)).
  rewrite Hoff. reflexivity.
Qed.

(** The second copy from its mounting, the clock advancing by 1500 ms from
    reading to reading: the face with the open mouth is seen once, the user
    switches the toggle off, and the face is seen again.  The second frame
    still declares it talking, takes 0.2 off the score and logs TALKING. *)
Lemma C7_switching_the_voice_toggle_off_is_not_seen_witness :
  let v := LaterVersion Second in
  let frame := deliver (faceMesh_onResults (mkFaceResults (Some [truncatedFace]))) in
  let switch := control ControlPanel.toggleVoiceActivityDetection in
  let before := interact v [frame] (mount slowHost) in
  let after := interact v [frame; switch; frame] (mount slowHost) in
  voiceActivityDetection (config after) = false /\
  isTalking (status (world after)) = true /\
  score (world after) = clamp (score (world before) - 0.2 * 1) /\
  map type (events (world after)) = [TALKING].
Proof.
  intros v frame switch before after.
  set (w0 := seeing [truncatedFace] (initialWorld slowHost)).
  assert (Hlook : forall config,
             lookingAwayCondition v config (calculateHeadPose truncatedFace) = false)
    by (intros config; rewrite truncatedFace_pose; apply lookingAwayCondition_zero).
  assert (Hopen : greater (calculateMouthOpenness truncatedFace) (TALK_THRESHOLD v)
                  = true).
  { rewrite truncatedFace_mouth. simpl. apply Rgtb_true. lra. }
  assert (Htalk : talkingCondition v INITIAL_CONFIG (calculateMouthOpenness truncatedFace)
                  = true)
    by (cbn [v talkingCondition]; rewrite Hopen; reflexivity).
  assert (Hready0 : ready (host w0)) by (repeat split).
  destruct (@first_talk_frame v INITIAL_CONFIG truncatedFace w0 Hready0 eq_refl eq_refl
              (Hlook _) Htalk eq_refl)
    as (Hready & _ & Hlog & Hrefs & Hhost).
  change (snd (processFrame v INITIAL_CONFIG w0)) with (world before)
    in Hready, Hlog, Hrefs, Hhost.
  cbn [afterNoHands v w0 seeing refs with_refs initialWorld latestHandResults
       with_latestFaceResults initialRefs] in Hhost.
  assert (Hhands : detectedHands (latestHandResults (refs (world before))) = [])
    by (rewrite Hrefs; reflexivity).
  destruct (@C7_switching_the_voice_toggle_off_is_not_seen v before truncatedFace
              eq_refl eq_refl Hready Hhands (Hlook _) Hopen)
    as ((Hoff & _) & _ & Hflag & Hlong & _).
  change (world (act v frame (act v switch before))) with (world after) in Hflag, Hlong.
  split; [exact Hoff|]. split; [exact Hflag|].
  assert (Hstart : talkingStartTime (refs (seeing [truncatedFace] (world before))) =
                   Some 1700000000000%Z)
    by (cbn [seeing refs with_refs]; rewrite Hrefs; reflexivity).
  assert (Hnow : nextNow (seeing [truncatedFace] (world before)) = 1700000003000%Z)
    by (unfold nextNow; cbn [seeing host with_refs]; rewrite Hhost; reflexivity).
  destruct Hlong as [Hscore Hevents].
  { rewrite Hstart. reflexivity. }
  { rewrite Hstart, Hnow. reflexivity. }
  split; [exact Hscore|].
  refine (eq_trans (f_equal (map type) Hevents) _).
  cbn [seeing events with_refs]. rewrite Hlog.
  unfold loggedAfter.
  change (lastEventTime (refs (ticked (seeing [truncatedFace] (world before)))))
    with (lastEventTime (refs (world before))).
  rewrite Hrefs. unfold nextNow. cbn [ticked seeing host with_host with_refs].
  rewrite Hhost. reflexivity.
Defined.
